(** * Silverlock diary: the item store, its credential gate and its indexes

    A shallow embedding of the store logic of the diary application
    (hash.py, items.py, dashboard.py, manager.py, pass_changer.py, main.py,
    notepad.py) and the properties of its
    specification that are checked against it.

    Conventions of the embedding.
    - A Python [str] is a Rocq [string]; its characters are read as the code
      points 0..255.  Python [bytes] are [list byte].
    - [os.path] is [posixpath]: the program writes its paths with '/'.
    - The file system is a finite map from resolved paths (lists of
      components) to nodes; every call of [os] and [shutil] that the program
      makes is a function on that map which returns a result or raises.
    - Functions that read the clock or the entropy source take the value read
      as an argument ([current_time], [salt]).
    - The JSON write-through of the two indexes ([save_history], [save_pins])
      only serialises the list held in memory and swallows its own errors; the
      index state of the embedding is that list. *)

From Stdlib Require Import ZArith NArith Ascii String List Sorted Permutation Lia.
From Stdlib.Strings Require Import Byte.
From Equations Require Import Equations.
From stdpp Require Import base option list strings gmap sorting.

Local Open Scope string_scope.
Local Open Scope list_scope.

(** ** Exceptions and results *)

Inductive exn : Type :=
  | FileNotFoundError
  | FileExistsError
  | IsADirectoryError
  | NotADirectoryError
  | PermissionError
  | InvalidArgumentError   (* OSError, errno EINVAL *)
  | ShutilError            (* shutil.Error *)
  | BinasciiError.         (* binascii.Error *)

Inductive res (A : Type) : Type :=
  | Ok (a : A)
  | Raise (e : exn).
Arguments Ok {A} a.
Arguments Raise {A} e.

(** Sequencing: the first exception raised ends the computation. *)
#[global] Instance res_bind : MBind res :=
  fun A B (k : A -> res B) (r : res A) =>
    match r with
    | Ok a => k a
    | Raise e => Raise e
    end.

(** ** Python string primitives *)

Module Py.

(** [s.startswith(p)] *)
Definition startswith (s p : string) : bool := String.prefix p s.

(** [s.endswith("/")] *)
Fixpoint endswith_slash (s : string) : bool :=
  match s with
  | "" => false
  | String c "" => Ascii.eqb c "/"
  | String _ r => endswith_slash r
  end.

(** [s[n:]] *)
Fixpoint slice_from (n : nat) (s : string) : string :=
  match n, s with
  | 0, _ => s
  | S n', String _ r => slice_from n' r
  | S _, "" => ""
  end.

(** [s[:n]] *)
Fixpoint slice_to (n : nat) (s : string) : string :=
  match n, s with
  | 0, _ => ""
  | S n', String c r => String c (slice_to n' r)
  | S _, "" => ""
  end.

(** [c in s] for a one-character string [c] *)
Fixpoint contains_char (c : ascii) (s : string) : bool :=
  match s with
  | "" => false
  | String d r => Ascii.eqb c d || contains_char c r
  end.

(** [str.isspace] on the code points below 256 *)
Definition is_space (c : ascii) : bool :=
  let n := N_of_ascii c in
  (((9 <=? n) && (n <=? 13)) || ((28 <=? n) && (n <=? 32))
   || (n =? 133) || (n =? 160))%N.

Fixpoint lstrip (s : string) : string :=
  match s with
  | "" => ""
  | String c r => if is_space c then lstrip r else s
  end.

Fixpoint rstrip (s : string) : string :=
  match s with
  | "" => ""
  | String c r =>
      match rstrip r with
      | "" => if is_space c then "" else String c ""
      | r' => String c r'
      end
  end.

(** [s.strip()] *)
Definition strip (s : string) : string := rstrip (lstrip s).

(** [s.rstrip('/')] *)
Fixpoint rstrip_slash (s : string) : string :=
  match s with
  | "" => ""
  | String c r =>
      match rstrip_slash r with
      | "" => if Ascii.eqb c "/" then "" else String c ""
      | r' => String c r'
      end
  end.

(** [str.lower] on the code points below 256: A-Z and the upper-case
    letters of Latin-1 (all of 192..222 except the sign 215) move up by 32 *)
Definition lower_char (c : ascii) : ascii :=
  let n := N_of_ascii c in
  if (((65 <=? n) && (n <=? 90))
      || ((192 <=? n) && (n <=? 222) && negb (n =? 215)))%N
  then ascii_of_N (n + 32) else c.

Fixpoint lower (s : string) : string :=
  match s with
  | "" => ""
  | String c r => String (lower_char c) (lower r)
  end.

(** [s.encode('utf-8')] on the code points below 256 *)
Definition byte_of_N (n : N) : byte := byte_of_ascii (ascii_of_N n).

Fixpoint encode_utf8 (s : string) : list byte :=
  match s with
  | "" => []
  | String c r =>
      let n := N_of_ascii c in
      if (n <? 128)%N then byte_of_N n :: encode_utf8 r
      else byte_of_N (N.lor 192 (N.shiftr n 6))
           :: byte_of_N (N.lor 128 (N.land n 63)) :: encode_utf8 r
  end.

(** The stable sort behind [list.sort]: [before x y] says that [x] may stay
    in front of [y].  An element is put in front of the first element it may
    stay in front of, so elements with equal keys keep their order, as in
    Python (also under [reverse=True]). *)
Fixpoint insert_sorted {A} (before : A -> A -> bool) (x : A) (l : list A) : list A :=
  match l with
  | [] => [x]
  | y :: l' => if before x y then x :: l else y :: insert_sorted before x l'
  end.

Definition stable_sort {A} (before : A -> A -> bool) (l : list A) : list A :=
  foldr (insert_sorted before) [] l.

(** [l.sort(key=key, reverse=True)] with string keys *)
Definition sort_desc {A} (key : A -> string) (l : list A) : list A :=
  stable_sort (fun x y => String.leb (key y) (key x)) l.

End Py.

(** ** posixpath *)

Module PosixPath.

(** [(p[:i], p[i:])] for [i = p.rfind('/') + 1] *)
Fixpoint split_last_slash (p : string) : string * string :=
  match p with
  | "" => ("", "")
  | String c r =>
      match split_last_slash r with
      | ("", t) => if Ascii.eqb c "/" then ("/", t) else ("", String c t)
      | (h, t) => (String c h, t)
      end
  end.

Definition basename (p : string) : string := snd (split_last_slash p).

(** [head.rstrip('/')] unless [head] is empty or made of slashes only *)
Definition dirname (p : string) : string :=
  let head := fst (split_last_slash p) in
  match Py.rstrip_slash head with
  | "" => head
  | h => h
  end.

(** [os.path.join(a, b)] *)
Definition join (a b : string) : string :=
  if Py.startswith b "/" then b
  else if String.eqb a "" || Py.endswith_slash a then a +:+ b
  else a +:+ "/" +:+ b.

End PosixPath.


(** ** The file system and the calls of [os] and [shutil] *)

Module Os.

(** A regular file carries its read permission and its content. *)
Inductive node : Type :=
  | NFile (readable : bool) (data : list byte)
  | NDir.

(** A file system maps resolved paths to nodes.  The working directory
    (the empty path) and the root are always there. *)
Abbreviation filesystem := (gmap (list string) node).

(** [p.split('/')] *)
Fixpoint split_slash (p : string) : list string :=
  match p with
  | "" => [""]
  | String c r =>
      if Ascii.eqb c "/" then "" :: split_slash r
      else match split_slash r with
           | h :: t => String c h :: t
           | [] => [String c ""]
           end
  end.

Definition is_component (c : string) : bool :=
  negb (String.eqb c "") && negb (String.eqb c ".").

(** Path resolution: the components of a path, empty ones and "." dropped;
    an absolute path starts at the root, written as the component "/". *)
Definition resolve (p : string) : list string :=
  (if Py.startswith p "/" then ["/"] else [])
  ++ List.filter is_component (split_slash p).

Definition node_at (fs : filesystem) (k : list string) : option node :=
  if bool_decide (k = [] \/ k = ["/"]) then Some NDir else fs !! k.

Definition parent (k : list string) : list string := removelast k.

Fixpoint is_prefix (k1 k2 : list string) : bool :=
  match k1, k2 with
  | [], _ => true
  | c1 :: r1, c2 :: r2 => String.eqb c1 c2 && is_prefix r1 r2
  | _ :: _, [] => false
  end.

(** [os.path.exists(p)] *)
Definition path_exists (fs : filesystem) (p : string) : bool :=
  negb (String.eqb p "") && bool_decide (is_Some (node_at fs (resolve p))).

(** [os.path.isdir(p)] *)
Definition path_isdir (fs : filesystem) (p : string) : bool :=
  negb (String.eqb p "")
  && match node_at fs (resolve p) with Some NDir => true | _ => false end.

(** The tree under [src] reappears under [dst]. *)
Definition relocate (src dst : list string) (fs : filesystem) : filesystem :=
  list_to_map
    (List.map (fun kn : list string * node =>
                 (if is_prefix src kn.1
                  then dst ++ drop (length src) kn.1 else kn.1, kn.2))
              (map_to_list fs)).

(** The tree under [k] disappears. *)
Definition remove_tree (k : list string) (fs : filesystem) : filesystem :=
  filter (fun kn : list string * node => is_prefix k kn.1 = false) fs.

(** [os.rename(src, dst)].  The program renames only onto a path for which
    [os.path.exists] has just answered no; where the destination exists
    the model raises, as the call does on Windows. *)
Definition rename (fs : filesystem) (src dst : string) : res filesystem :=
  if String.eqb src "" || String.eqb dst "" then Raise FileNotFoundError
  else
    let ks := resolve src in
    let kd := resolve dst in
    match node_at fs ks with
    | None => Raise FileNotFoundError
    | Some _ =>
        if bool_decide (ks = kd) then Ok fs
        else if is_prefix ks kd then Raise InvalidArgumentError
        else match node_at fs (parent kd) with
             | None => Raise FileNotFoundError
             | Some (NFile _ _) => Raise NotADirectoryError
             | Some NDir =>
                 match node_at fs kd with
                 | Some _ => Raise FileExistsError
                 | None => Ok (relocate ks kd fs)
                 end
             end
    end.

(** [os.makedirs(p, exist_ok=True)]: every missing directory on the way to
    [p] is created; a regular file on the way raises. *)
Fixpoint makedirs_from (fs : filesystem) (above todo : list string) : res filesystem :=
  match todo with
  | [] => Ok fs
  | c :: rest =>
      let k := above ++ [c] in
      match node_at fs k with
      | Some NDir => makedirs_from fs k rest
      | Some (NFile _ _) =>
          Raise (match rest with [] => FileExistsError | _ => NotADirectoryError end)
      | None => makedirs_from (<[k := NDir]> fs) k rest
      end
  end.

Definition makedirs (fs : filesystem) (p : string) : res filesystem :=
  if String.eqb p "" then Raise FileNotFoundError
  else makedirs_from fs [] (resolve p).

(** [shutil.move(src, dst)], called by the program only after
    [os.path.exists(dst)] answered no (the model raises otherwise).  When
    [os.rename] fails and [src] is a directory that does not contain [dst],
    the tree is copied to [dst], whose missing parents [copytree] creates,
    and removed at [src]. *)
Definition move (fs : filesystem) (src dst : string) : res filesystem :=
  if path_exists fs dst then Raise ShutilError
  else
    match rename fs src dst with
    | Ok fs' => Ok fs'
    | Raise e =>
        if path_isdir fs src then
          if is_prefix (resolve src) (resolve dst) then Raise ShutilError
          else fs1 ← makedirs_from fs [] (parent (resolve dst));
               Ok (relocate (resolve src) (resolve dst) fs1)
        else Raise e
    end.

(** [shutil.rmtree(p)] *)
Definition rmtree (fs : filesystem) (p : string) : res filesystem :=
  if String.eqb p "" then Raise FileNotFoundError
  else match node_at fs (resolve p) with
       | None => Raise FileNotFoundError
       | Some (NFile _ _) => Raise NotADirectoryError
       | Some NDir => Ok (remove_tree (resolve p) fs)
       end.

(** An entry of [os.scandir]: [entry.name] and [entry.path]. *)
Record DirEntry : Type := { entry_name : string; entry_path : string }.

(** [os.scandir(p)]; the entries come in the order of the map. *)
Definition scandir (fs : filesystem) (p : string) : res (list DirEntry) :=
  if String.eqb p "" then Raise FileNotFoundError
  else match node_at fs (resolve p) with
       | None => Raise FileNotFoundError
       | Some (NFile _ _) => Raise NotADirectoryError
       | Some NDir =>
           Ok (omap (fun kn : list string * node =>
                       match last kn.1 with
                       | Some name =>
                           if bool_decide (kn.1 = resolve p ++ [name])
                           then Some {| entry_name := name;
                                        entry_path := PosixPath.join p name |}
                           else None
                       | None => None
                       end)
                    (map_to_list fs))
       end.

(** [open(p, 'wb').write(data)] *)
Definition write_file (fs : filesystem) (p : string) (data : list byte) : res filesystem :=
  if String.eqb p "" then Raise FileNotFoundError
  else
    let k := resolve p in
    match node_at fs (parent k) with
    | None => Raise FileNotFoundError
    | Some (NFile _ _) => Raise NotADirectoryError
    | Some NDir =>
        match node_at fs k with
        | Some NDir => Raise IsADirectoryError
        | Some (NFile r _) => Ok (<[k := NFile r data]> fs)
        | None => Ok (<[k := NFile true data]> fs)
        end
    end.

(** [open(p, 'rb').read()] *)
Definition read_file (fs : filesystem) (p : string) : res (list byte) :=
  if String.eqb p "" then Raise FileNotFoundError
  else match node_at fs (resolve p) with
       | None => Raise FileNotFoundError
       | Some NDir => Raise IsADirectoryError
       | Some (NFile false _) => Raise PermissionError
       | Some (NFile true data) => Ok data
       end.

End Os.

#[global] Instance byte_eq_decision : EqDecision byte := Byte.byte_eq_dec.

(** ** base64: [urlsafe_b64encode] and [urlsafe_b64decode] *)

Module Base64.

Definition PAD : byte := "="%byte.

(** binascii's [table_b2a_base64], the standard alphabet *)
Definition b2a_char (n : N) : byte :=
  Py.byte_of_N
    (if n <? 26 then 65 + n
     else if n <? 52 then 97 + (n - 26)
     else if n <? 62 then 48 + (n - 52)
     else if n =? 62 then 43 else 47)%N.

(** binascii's [table_a2b_base64]; [None] stands for the entries that are
    not below 64 (the characters outside the alphabet) *)
Definition a2b_char (c : byte) : option N :=
  let n := Byte.to_N c in
  (if (65 <=? n) && (n <=? 90) then Some (n - 65)
   else if (97 <=? n) && (n <=? 122) then Some (n - 97 + 26)
   else if (48 <=? n) && (n <=? 57) then Some (n - 48 + 52)
   else if n =? 43 then Some 62
   else if n =? 47 then Some 63
   else None)%N.

(** The four sextets of a group of three bytes *)
Definition sextet1 (a : byte) : N := N.shiftr (Byte.to_N a) 2.
Definition sextet2 (a b : byte) : N :=
  N.lor (N.shiftl (N.land (Byte.to_N a) 3) 4) (N.shiftr (Byte.to_N b) 4).
Definition sextet3 (b c : byte) : N :=
  N.lor (N.shiftl (N.land (Byte.to_N b) 15) 2) (N.shiftr (Byte.to_N c) 6).
Definition sextet4 (c : byte) : N := N.land (Byte.to_N c) 63.

(** [binascii.b2a_base64(s, newline=False)] *)
Fixpoint b2a_base64 (s : list byte) : list byte :=
  match s with
  | [] => []
  | [a] =>
      [b2a_char (sextet1 a); b2a_char (sextet2 a "000"%byte); PAD; PAD]
  | [a; b] =>
      [b2a_char (sextet1 a); b2a_char (sextet2 a b);
       b2a_char (sextet3 b "000"%byte); PAD]
  | a :: b :: c :: rest =>
      b2a_char (sextet1 a) :: b2a_char (sextet2 a b)
      :: b2a_char (sextet3 b c) :: b2a_char (sextet4 c) :: b2a_base64 rest
  end.

(** [bytes.maketrans(b'+/', b'-_')] and its inverse *)
Definition urlsafe_encode_translation (c : byte) : byte :=
  if bool_decide (c = "+"%byte) then "-"%byte
  else if bool_decide (c = "/"%byte) then "_"%byte else c.

Definition urlsafe_decode_translation (c : byte) : byte :=
  if bool_decide (c = "-"%byte) then "+"%byte
  else if bool_decide (c = "_"%byte) then "/"%byte else c.

Definition urlsafe_b64encode (s : list byte) : list byte :=
  List.map urlsafe_encode_translation (b2a_base64 s).

Definition emit (b : byte) (r : res (list byte)) : res (list byte) :=
  out ← r; Ok (b :: out).

(** The loop of [binascii.a2b_base64] outside strict mode.  Characters
    outside the alphabet are skipped; a pad ends the input once the quad
    holds two characters and the pads fill it; input that ends inside a
    quad raises [binascii.Error]. *)
Fixpoint a2b_loop (quad_pos : nat) (leftchar : N) (pads : nat)
         (input : list byte) : res (list byte) :=
  match input with
  | [] => match quad_pos with 0 => Ok [] | _ => Raise BinasciiError end
  | this_ch :: rest =>
      if bool_decide (this_ch = PAD) then
        if (2 <=? quad_pos)%nat then
          if (4 <=? quad_pos + S pads)%nat then Ok []
          else a2b_loop quad_pos leftchar (S pads) rest
        else a2b_loop quad_pos leftchar pads rest
      else
        match a2b_char this_ch with
        | None => a2b_loop quad_pos leftchar pads rest
        | Some v =>
            match quad_pos with
            | 0 => a2b_loop 1 v 0 rest
            | 1 => emit (Py.byte_of_N (N.lor (N.shiftl leftchar 2) (N.shiftr v 4)))
                        (a2b_loop 2 (N.land v 15) 0 rest)
            | 2 => emit (Py.byte_of_N (N.lor (N.shiftl leftchar 4) (N.shiftr v 2)))
                        (a2b_loop 3 (N.land v 3) 0 rest)
            | _ => emit (Py.byte_of_N (N.lor (N.shiftl leftchar 6) v))
                        (a2b_loop 0 0 0 rest)
            end
        end
  end.

Definition a2b_base64 (s : list byte) : res (list byte) := a2b_loop 0 0 0 s.

Definition urlsafe_b64decode (s : list byte) : res (list byte) :=
  a2b_base64 (List.map urlsafe_decode_translation s).

End Base64.

(** ** hash.py *)

Module Hash.

(** The key derivation function of the [cryptography] package:
    [Scrypt(salt, length, n, r, p).derive(key_material)]. *)
Definition kdf : Type :=
  list byte -> N -> N -> N -> N -> list byte -> list byte.

Section WithScrypt.
Variable scrypt : kdf.

(** [hash_password(password)]; [salt] is what [os.urandom(16)] returned. *)
Definition hash_password (salt : list byte) (password : string) : list byte :=
  let hashed_password_bytes :=
    scrypt salt 32%N (2 ^ 14)%N 8%N 1%N (Py.encode_utf8 password) in
  Base64.urlsafe_b64encode (salt ++ hashed_password_bytes).

(** [verify_password(stored_hashed_password, password_to_check)].  The
    decoding stands before the [try]: its error is raised to the caller.
    [kdf.verify] derives again and compares all of the key. *)
Definition verify_password (stored_hashed_password : list byte)
           (password_to_check : string) : res bool :=
  decoded_stored ← Base64.urlsafe_b64decode stored_hashed_password;
  let salt := take 16 decoded_stored in
  Ok (bool_decide
        (scrypt salt 32%N (2 ^ 14)%N 8%N 1%N (Py.encode_utf8 password_to_check)
         = drop 16 decoded_stored)).
End WithScrypt.

Definition save_hashed_password (fs : Os.filesystem) (file_path : string)
           (hashed_password_with_salt : list byte) : res Os.filesystem :=
  Os.write_file fs file_path hashed_password_with_salt.

Definition load_hashed_password (fs : Os.filesystem) (file_path : string)
  : res (list byte) :=
  if negb (Os.path_exists fs file_path) then Raise FileNotFoundError
  else Os.read_file fs file_path.

End Hash.

(** ** items.py *)

Module Items.

(** ['file'] or ['folder'].  The base class is never built directly:
    [FileItem] and [FolderItem] set the field in [__post_init__], so
    [isinstance(item, FolderItem)] is [item_type = folder]. *)
Inductive ItemType : Type := file | folder.

#[global] Instance ItemType_eq_dec : EqDecision ItemType.
Proof. solve_decision. Defined.

Record FileSystemItem : Type := {
  name : string;
  full_path : string;
  item_type : ItemType
}.

Definition FileItem (name full_path : string) : FileSystemItem :=
  {| name := name; full_path := full_path; item_type := file |}.

Definition FolderItem (name full_path : string) : FileSystemItem :=
  {| name := name; full_path := full_path; item_type := folder |}.

Definition is_file (x : FileSystemItem) : bool :=
  bool_decide (item_type x = file).

(** The reserved marker of folder names *)
Definition FOLDER_PREFIX : string := "-__".

(** [display_name]: the marker is stripped for folders *)
Definition display_name (self : FileSystemItem) : string :=
  if bool_decide (item_type self = folder) && Py.startswith (name self) FOLDER_PREFIX
  then Py.slice_from 3 (name self)
  else name self.

(** [FileItem.password_file_path] *)
Definition password_file_path (self : FileSystemItem) : string :=
  let file_dir := PosixPath.dirname (PosixPath.join (full_path self) (name self)) in
  PosixPath.join file_dir "content.bin".

(** [FileItem.content_file_path] *)
Definition content_file_path (self : FileSystemItem) : string :=
  let file_dir := PosixPath.dirname (PosixPath.join (full_path self) (name self)) in
  PosixPath.join file_dir "content.html".

Record HistoryItem : Type := {
  h_name : string;
  h_full_path : string;
  last_accessed : string;
  access_count : nat
}.

Record PinnedItem : Type := {
  p_name : string;
  p_full_path : string;
  pinned_at : string
}.

(** *** PinManager; its state is the list [pinned_items] *)

Definition is_pinned (pinned_items : list PinnedItem) (file_path : string) : bool :=
  existsb (fun item => String.eqb (p_full_path item) file_path) pinned_items.

(** [pin_file_item]: the new list and the value returned *)
Definition pin_file_item (pinned_items : list PinnedItem)
           (file_item : FileSystemItem) (current_time : string)
  : list PinnedItem * bool :=
  if is_pinned pinned_items (full_path file_item) then (pinned_items, false)
  else
    let pinned_item := {| p_name := display_name file_item;
                          p_full_path := full_path file_item;
                          pinned_at := current_time |} in
    (take 20 (Py.sort_desc pinned_at (pinned_items ++ [pinned_item])), true).

Definition unpin_file (pinned_items : list PinnedItem) (file_path : string)
  : list PinnedItem :=
  List.filter (fun item => negb (String.eqb (p_full_path item) file_path)) pinned_items.

(** *** HistoryManager; its state is the list [history_items] *)

(** The loop that looks for the record of a path and the update of the
    record found, in place: [None] when no record has the path. *)
Fixpoint touch_existing (history_items : list HistoryItem)
         (path current_time : string) : option (list HistoryItem) :=
  match history_items with
  | [] => None
  | item :: rest =>
      if String.eqb (h_full_path item) path
      then Some ({| h_name := h_name item;
                    h_full_path := h_full_path item;
                    last_accessed := current_time;
                    access_count := access_count item + 1 |} :: rest)
      else cons item <$> touch_existing rest path current_time
  end.

Definition add_file_to_history (history_items : list HistoryItem)
           (file_item : FileSystemItem) (current_time : string)
  : list HistoryItem :=
  let updated :=
    match touch_existing history_items (full_path file_item) current_time with
    | Some items => items
    | None =>
        history_items ++ [{| h_name := display_name file_item;
                             h_full_path := full_path file_item;
                             last_accessed := current_time;
                             access_count := 1 |}]
    end in
  take 50 (Py.sort_desc last_accessed updated).

(** Sequences of calls, each with the time read by the call *)
Definition touch_all (history_items : list HistoryItem)
           (calls : list (FileSystemItem * string)) : list HistoryItem :=
  foldl (fun h call => add_file_to_history h call.1 call.2) history_items calls.

Definition pin_all (pinned_items : list PinnedItem)
           (calls : list (FileSystemItem * string)) : list PinnedItem :=
  foldl (fun p call => (pin_file_item p call.1 call.2).1) pinned_items calls.

(** *** FileSystemManager *)

Record FileSystemManager : Type := {
  items : gmap string FileSystemItem;
  current_path : string
}.

Definition init_manager : FileSystemManager :=
  {| items := ∅; current_path := "data/" |}.

(** The body of the loop over [os.scandir]: the kind is read off the name *)
Definition classify (entry : Os.DirEntry) : FileSystemItem :=
  if Py.startswith (Os.entry_name entry) FOLDER_PREFIX
  then FolderItem (Os.entry_name entry) (Os.entry_path entry)
  else FileItem (Os.entry_name entry) (Os.entry_path entry).

(** [self.items[...] = item]: folders by display name, files by name *)
Definition register (m : gmap string FileSystemItem) (x : FileSystemItem)
  : gmap string FileSystemItem :=
  match item_type x with
  | folder => <[display_name x := x]> m
  | file => <[name x := x]> m
  end.

(** The sort key [(x.item_type == 'file', x.display_name.lower())];
    tuples compare component by component and [False < True]. *)
Definition scan_before (x y : FileSystemItem) : bool :=
  match is_file x, is_file y with
  | false, true => true
  | true, false => false
  | _, _ => String.leb (Py.lower (display_name x)) (Py.lower (display_name y))
  end.

(** [scan_directory]: the list returned and the manager afterwards.  A
    path that is a regular file passes the existence test and makes
    [os.scandir] raise. *)
Definition scan_directory (self : FileSystemManager) (fs : Os.filesystem)
           (base_path : string) : res (list FileSystemItem * FileSystemManager) :=
  if negb (Os.path_exists fs base_path) then Ok ([], self)
  else
    entries ← Os.scandir fs base_path;
    let found := List.map classify entries in
    Ok (Py.stable_sort scan_before found,
        {| items := foldl register ∅ found; current_path := current_path self |}).

Definition get_item (self : FileSystemManager) (name : string)
  : option FileSystemItem := items self !! name.

(** *** PasswordManager *)

Section WithScrypt.
Variable scrypt : Hash.kdf.

(** [setup_password_for_item(item, password)]; [None] is the default
    argument and [salt] the bytes drawn by [hash_password]. *)
Definition setup_password_for_item (fs : Os.filesystem) (salt : list byte)
           (item : FileSystemItem) (password : option string)
  : res (Os.filesystem * string) :=
  let password :=
    match password with
    | None => Py.slice_to 3 (display_name item)
    | Some p => p
    end in
  let password_file := password_file_path item in
  let password_dir := PosixPath.dirname password_file in
  fs1 ← (if negb (Os.path_exists fs password_dir)
         then Os.makedirs fs password_dir else Ok fs);
  let hashed_password := Hash.hash_password scrypt salt password in
  fs2 ← Hash.save_hashed_password fs1 password_file hashed_password;
  Ok (fs2, password_file).
End WithScrypt.

(** [load_password_hash(item)]: every exception of the load is caught and
    the function falls through to [return None]. *)
Definition load_password_hash (fs : Os.filesystem) (item : FileSystemItem)
  : option (list byte) :=
  let password_file := password_file_path item in
  if Os.path_exists fs password_file then
    match Hash.load_hashed_password fs password_file with
    | Ok blob => Some blob
    | Raise _ => None
    end
  else None.

End Items.

(** ** dashboard.py and manager.py

    dashboard.py repeats the data classes, [PinManager.pin_file_item],
    [unpin_file], [is_pinned], [FileSystemManager.scan_directory] and
    [PasswordManager] of items.py word for word; they are taken from
    [Items].  What follows is what dashboard.py adds or changes. *)

Module Dashboard.

(** [HistoryItem] has no [access_count] here. *)
Record HistoryItem : Type := {
  h_name : string;
  h_full_path : string;
  last_accessed : string
}.

(** *** HistoryManager *)

Fixpoint touch_existing (history_items : list HistoryItem)
         (path current_time : string) : option (list HistoryItem) :=
  match history_items with
  | [] => None
  | item :: rest =>
      if String.eqb (h_full_path item) path
      then Some ({| h_name := h_name item;
                    h_full_path := h_full_path item;
                    last_accessed := current_time |} :: rest)
      else cons item <$> touch_existing rest path current_time
  end.

Definition add_file_to_history (history_items : list HistoryItem)
           (file_item : Items.FileSystemItem) (current_time : string)
  : list HistoryItem :=
  let updated :=
    match touch_existing history_items (Items.full_path file_item) current_time with
    | Some items => items
    | None =>
        history_items ++ [{| h_name := Items.display_name file_item;
                             h_full_path := Items.full_path file_item;
                             last_accessed := current_time |}]
    end in
  take 50 (Py.sort_desc last_accessed updated).

(** [HistoryManager.remove_item] *)
Definition remove_item (history_items : list HistoryItem) (file_path : string)
  : list HistoryItem :=
  List.filter (fun item => negb (String.eqb (h_full_path item) file_path)) history_items.

(** [HistoryManager.update_path]: the body of the loop, for one record.
    Only a record whose path is [old_path] itself is rewritten; its name
    follows when it was the last component of the old path. *)
Definition history_update_record (old_path new_path : string) (item : HistoryItem)
  : HistoryItem :=
  if String.eqb (h_full_path item) old_path
  then {| h_name := if String.eqb (h_name item) (PosixPath.basename old_path)
                    then PosixPath.basename new_path else h_name item;
          h_full_path := new_path;
          last_accessed := last_accessed item |}
  else item.

Definition history_update_path (history_items : list HistoryItem)
           (old_path new_path : string) : list HistoryItem :=
  List.map (history_update_record old_path new_path) history_items.

(** [PinManager.update_path] *)
Definition pin_update_record (old_path new_path : string) (item : Items.PinnedItem)
  : Items.PinnedItem :=
  if String.eqb (Items.p_full_path item) old_path
  then {| Items.p_name :=
            if String.eqb (Items.p_name item) (PosixPath.basename old_path)
            then PosixPath.basename new_path else Items.p_name item;
          Items.p_full_path := new_path;
          Items.pinned_at := Items.pinned_at item |}
  else item.

Definition pin_update_path (pinned_items : list Items.PinnedItem)
           (old_path new_path : string) : list Items.PinnedItem :=
  List.map (pin_update_record old_path new_path) pinned_items.

(** The message boxes the program shows *)
Inductive MessageBox : Type :=
  | Warning (title text : string)
  | Information (title text : string)
  | Critical (title text : string).

(** The characters a name must not contain *)
Definition invalid_chars : list ascii :=
  ["/"; "\"; ":"; "*"; "?"; "034"; "<"; ">"; "|"]%char.

(** [any(char in new_name for char in invalid_chars)] *)
Definition has_invalid_char (new_name : string) : bool :=
  existsb (fun char => Py.contains_char char new_name) invalid_chars.

(** [RenameDialog.accept_dialog] on the text of the input field: the box
    shown when the dialog stays open, or the name it is accepted with. *)
Definition rename_accept_dialog (current_name text : string) : MessageBox + string :=
  let new_name := Py.strip text in
  if String.eqb new_name "" then inl (Warning "Error" "Please enter a name!")
  else if String.eqb new_name current_name
       then inl (Information "Info" "Name unchanged!")
  else if has_invalid_char new_name
       then inl (Warning "Error" "Name contains invalid characters!")
  else inr new_name.

(** [if not self.selected_path: self.selected_path = "data"] *)
Definition effective_selection (selected_path : option string) : string :=
  match selected_path with
  | None | Some "" => "data"
  | Some p => p
  end.

(** [MoveDialog.accept_dialog]; [current_path] is the path of the item and
    [selected_path] the folder chosen in the tree, [None] without a
    choice. *)
Definition move_accept_dialog (current_path : string) (item_type : Items.ItemType)
           (selected_path : option string) : MessageBox + string :=
  let selected_path := effective_selection selected_path in
  if String.eqb selected_path (PosixPath.dirname current_path)
  then inl (Information "Info" "Cannot move to the same location!")
  else if bool_decide (item_type = Items.folder)
          && Py.startswith selected_path current_path
       then inl (Warning "Error" "Cannot move a folder to its own subdirectory!")
  else inr selected_path.

(** [f"-__{new_name}"], the raw name of a folder (also in
    [AddItemDialog.create_item]) *)
Definition new_folder_name (new_name : string) : string :=
  Items.FOLDER_PREFIX +:+ new_name.

(** [new_path] of [FileSystemManager.rename_item]: folders get the marker *)
Definition rename_destination (item : Items.FileSystemItem) (new_name : string)
  : string :=
  match Items.item_type item with
  | Items.folder =>
      PosixPath.join (PosixPath.dirname (Items.full_path item))
                     (new_folder_name new_name)
  | Items.file =>
      PosixPath.join (PosixPath.dirname (Items.full_path item)) new_name
  end.

(** [new_path] of [FileSystemManager.move_item] *)
Definition move_destination (item : Items.FileSystemItem) (target_path : string)
  : string :=
  PosixPath.join target_path (PosixPath.basename (Items.full_path item)).

Section WithExceptionText.
(** [str(e)], the text of an exception *)
Variable str_exn : exn -> string.

(** *** FileSystemManager: each operation gives the file system
    afterwards and the pair it returns *)

Definition fs_rename_item (fs : Os.filesystem) (item : Items.FileSystemItem)
           (new_name : string) : Os.filesystem * (bool * string) :=
  let new_path := rename_destination item new_name in
  if Os.path_exists fs new_path
  then (fs, (false, "An item with this name already exists!"))
  else match Os.rename fs (Items.full_path item) new_path with
       | Ok fs' => (fs', (true, new_path))
       | Raise e => (fs, (false, "Rename error: " +:+ str_exn e))
       end.

Definition fs_move_item (fs : Os.filesystem) (item : Items.FileSystemItem)
           (target_path : string) : Os.filesystem * (bool * string) :=
  let new_path := move_destination item target_path in
  if Os.path_exists fs new_path
  then (fs, (false, "An item with the same name exists at destination!"))
  else match Os.move fs (Items.full_path item) new_path with
       | Ok fs' => (fs', (true, new_path))
       | Raise e => (fs, (false, "Move error: " +:+ str_exn e))
       end.

Definition fs_delete_item (fs : Os.filesystem) (item : Items.FileSystemItem)
  : Os.filesystem * (bool * string) :=
  match Os.rmtree fs (Items.full_path item) with
  | Ok fs' => (fs', (true, "Success"))
  | Raise e => (fs, (false, "Delete error: " +:+ str_exn e))
  end.

(** *** MainWindow: the two indexes it owns.  The refresh of the displays
    that ends each operation changes neither the file system nor the
    indexes and is left out. *)

Record MainWindow : Type := {
  history_manager : list HistoryItem;
  pin_manager : list Items.PinnedItem
}.

(** The block of [rename_item] and of [move_item] under the comment
    "Update history and pins with new path": the history always, the pins
    only for a [FileItem] *)
Definition update_indexes (self : MainWindow) (item : Items.FileSystemItem)
           (old_path new_path : string) : MainWindow :=
  {| history_manager := history_update_path (history_manager self) old_path new_path;
     pin_manager :=
       if Items.is_file item
       then pin_update_path (pin_manager self) old_path new_path
       else pin_manager self |}.

(** [MainWindow.rename_item]; [text] is the content of the input field
    when the dialog is confirmed.  The result is the file system, the
    window and the message box shown, if any. *)
Definition rename_item (self : MainWindow) (fs : Os.filesystem)
           (item : Items.FileSystemItem) (text : string)
  : Os.filesystem * MainWindow * option MessageBox :=
  match rename_accept_dialog (Items.display_name item) text with
  | inl box => (fs, self, Some box)
  | inr new_name =>
      let old_path := Items.full_path item in
      let '(fs', (success, new_path_or_error)) := fs_rename_item fs item new_name in
      if success then
        (fs', update_indexes self item old_path new_path_or_error, None)
      else (fs', self, Some (Critical "Error" new_path_or_error))
  end.

(** [MainWindow.move_item]; [selected_path] is the choice made in
    the dialog when it is confirmed. *)
Definition move_item (self : MainWindow) (fs : Os.filesystem)
           (item : Items.FileSystemItem) (selected_path : option string)
  : Os.filesystem * MainWindow * option MessageBox :=
  match move_accept_dialog (Items.full_path item) (Items.item_type item)
                           selected_path with
  | inl box => (fs, self, Some box)
  | inr target =>
      let old_path := Items.full_path item in
      let '(fs', (success, new_path_or_error)) := fs_move_item fs item target in
      if success then
        (fs', update_indexes self item old_path new_path_or_error, None)
      else (fs', self, Some (Critical "Error" new_path_or_error))
  end.

(** [MainWindow.delete_item]; [reply_yes] is the answer to the
    confirmation question. *)
Definition delete_item (self : MainWindow) (fs : Os.filesystem)
           (item : Items.FileSystemItem) (reply_yes : bool)
  : Os.filesystem * MainWindow * option MessageBox :=
  if reply_yes then
    let '(fs', (success, message)) := fs_delete_item fs item in
    if success then
      (fs',
       {| history_manager := remove_item (history_manager self) (Items.full_path item);
          pin_manager :=
            if Items.is_file item
            then Items.unpin_file (pin_manager self) (Items.full_path item)
            else pin_manager self |},
       None)
    else (fs', self, Some (Critical "Error" message))
  else (fs, self, None).
End WithExceptionText.

(** *** Opening a file *)

(** What [_open_file_with_password_check] does: it opens the content at
    once, the file added to the history, or it shows the login window
    with the hash it loaded. *)
Inductive OpenResult : Type :=
  | OpenedWithoutPassword (history_items : list HistoryItem)
  | LoginWindowShown (expected_password_hash : list byte).

Definition open_file_with_password_check (history_items : list HistoryItem)
           (fs : Os.filesystem) (file_item : Items.FileSystemItem)
           (current_time : string) : OpenResult :=
  match Items.load_password_hash fs file_item with
  | None => OpenedWithoutPassword (add_file_to_history history_items file_item current_time)
  | Some password_hash => LoginWindowShown password_hash
  end.

(** manager.py, [LoginWindow.authenticate]: [on_success] runs exactly when
    [verify_password] returns [True]; an exception it raises leaves the
    window as it is. *)
Definition authenticate (scrypt : Hash.kdf) (expected_password_hash : list byte)
           (entered_password : string) : bool :=
  match Hash.verify_password scrypt expected_password_hash entered_password with
  | Ok true => true
  | _ => false
  end.

End Dashboard.

(** ** Auxiliary definitions of the proofs *)

Module Aux.

(** The 256 bytes, for properties of bytes that are checked by evaluation *)
Definition all_bytes : list byte :=
  List.map (fun n => Py.byte_of_N (N.of_nat n)) (seq 0 256).

(** A key derivation function to run the statements on: the key material
    followed by the salt, cut or padded to [length] bytes *)
Definition toy_kdf : Hash.kdf :=
  fun salt length _ _ _ key_material =>
    take (N.to_nat length) (key_material ++ salt ++ repeat "000"%byte (N.to_nat length)).

(** The character written for a sextet, as the decoder sees it, and the
    test that the decoder reads the sextet back from it *)
Definition seen (n : N) : byte :=
  Base64.urlsafe_decode_translation (Base64.urlsafe_encode_translation (Base64.b2a_char n)).

Definition reads_back (n : N) : bool :=
  negb (bool_decide (seen n = Base64.PAD))
  && bool_decide (Base64.a2b_char (seen n) = Some n).

(** A run of [k] slashes *)
Fixpoint slashes (k : nat) : string :=
  match k with
  | 0 => ""
  | S k' => String "/" (slashes k')
  end.

(** What [dirname] makes of the head of a path *)
Definition strip_head (head : string) : string :=
  match Py.rstrip_slash head with
  | "" => head
  | h => h
  end.

(** Decoding of bytes that went through the translation of the encoder *)
Definition decode_of (s : list byte) : res (list byte) :=
  Base64.a2b_loop 0 0 0
    (List.map Base64.urlsafe_decode_translation
       (List.map Base64.urlsafe_encode_translation s)).

End Aux.

(** ** Sample data *)

Module Samples.

Definition salt : list byte := repeat "007"%byte 16.

(** A store with the folder A, the file doc in it, and the file Diary
    whose credential file is there but cannot be read *)
Definition store : Os.filesystem :=
  list_to_map
    [(["data"], Os.NDir);
     (["data"; "-__A"], Os.NDir);
     (["data"; "-__A"; "doc"], Os.NDir);
     (["data"; "-__A"; "doc"; "content.html"], Os.NFile true []);
     (["data"; "-__Notes"], Os.NDir);
     (["data"; "Diary"], Os.NDir);
     (["data"; "Diary"; "content.html"], Os.NFile true []);
     (["data"; "Diary"; "content.bin"],
      Os.NFile false (Hash.hash_password Aux.toy_kdf salt "abc"))].

(** The two indexes with the record of the file doc *)
Definition window : Dashboard.MainWindow :=
  {| Dashboard.history_manager :=
       [{| Dashboard.h_name := "doc";
           Dashboard.h_full_path := "data/-__A/doc";
           Dashboard.last_accessed := "2024-05-01T10:00:00" |}];
     Dashboard.pin_manager :=
       [{| Items.p_name := "doc";
           Items.p_full_path := "data/-__A/doc";
           Items.pinned_at := "2024-05-01T10:00:05" |}] |}.

(** The same window after a pin file was loaded that also holds a record
    of the path of the folder A *)
Definition window_with_folder_pin : Dashboard.MainWindow :=
  {| Dashboard.history_manager := Dashboard.history_manager window;
     Dashboard.pin_manager :=
       {| Items.p_name := "A";
          Items.p_full_path := "data/-__A";
          Items.pinned_at := "2024-05-01T10:00:09" |}
       :: Dashboard.pin_manager window |}.

(** The text of exceptions is of no concern in the samples. *)
Definition str_exn (e : exn) : string := "error".

Definition folder_A : Items.FileSystemItem := Items.FolderItem "-__A" "data/-__A".
Definition folder_Notes : Items.FileSystemItem := Items.FolderItem "-__Notes" "data/-__Notes".
Definition file_doc : Items.FileSystemItem := Items.FileItem "doc" "data/-__A/doc".
Definition file_Diary : Items.FileSystemItem := Items.FileItem "Diary" "data/Diary".

Definition folder_odd : Items.FileSystemItem := Items.FolderItem "-__a:b" "data/-__a:b".

(** Fifty history records of distinct paths, one a minute *)
Definition digit (n : nat) : ascii := ascii_of_nat (48 + n).

Definition history50 : list Items.HistoryItem :=
  List.map (fun n =>
              {| Items.h_name := String (digit (n / 10)) (String (digit (n mod 10)) "");
                 Items.h_full_path :=
                   "data/" +:+ String (digit (n / 10)) (String (digit (n mod 10)) "");
                 Items.last_accessed :=
                   "2024-05-01T10:"
                   +:+ String (digit (n / 10)) (String (digit (n mod 10)) ":00");
                 Items.access_count := 1 |})
           (seq 0 50).

End Samples.

(** ** Auxiliary definitions of the further proofs *)

Module Extra.

(** The record of a path when it is touched again, items.py and dashboard.py *)
Definition items_bump (now : string) (r : Items.HistoryItem) : Items.HistoryItem :=
  {| Items.h_name := Items.h_name r;
     Items.h_full_path := Items.h_full_path r;
     Items.last_accessed := now;
     Items.access_count := Items.access_count r + 1 |}.

Definition dashboard_bump (now : string) (r : Dashboard.HistoryItem)
  : Dashboard.HistoryItem :=
  {| Dashboard.h_name := Dashboard.h_name r;
     Dashboard.h_full_path := Dashboard.h_full_path r;
     Dashboard.last_accessed := now |}.

(** The test for the record of a path *)
Definition items_at (path : string) (r : Items.HistoryItem) : bool :=
  String.eqb (Items.h_full_path r) path.

Definition dashboard_at (path : string) (r : Dashboard.HistoryItem) : bool :=
  String.eqb (Dashboard.h_full_path r) path.

Definition pin_at (path : string) (r : Items.PinnedItem) : bool :=
  String.eqb (Items.p_full_path r) path.

End Extra.

(** ** dashboard.py: the rest of HistoryManager and of PinManager *)

Module History.

(** [load_history]: [data] is the list of records held by the history
    file, [None] when the file is absent or when reading it fails in any
    way (the exception is caught and the history starts empty). *)
Definition load_history (data : option (list Dashboard.HistoryItem))
  : list Dashboard.HistoryItem :=
  match data with
  | Some records => Py.sort_desc Dashboard.last_accessed records
  | None => []
  end.

(** [get_recent_files(limit)], [history_items[:limit]] for a limit that is
    not negative; the program calls it with the default, 20. *)
Definition get_recent_files (history_items : list Dashboard.HistoryItem) (limit : nat)
  : list Dashboard.HistoryItem :=
  take limit history_items.

Definition clear_history (history_items : list Dashboard.HistoryItem)
  : list Dashboard.HistoryItem := [].

(** The calls that change the history, and a run of them from a list *)
Inductive call : Type :=
  | AddFileToHistory (file_item : Items.FileSystemItem) (current_time : string)
  | RemoveItem (file_path : string)
  | UpdatePath (old_path new_path : string)
  | ClearHistory.

Definition step (history_items : list Dashboard.HistoryItem) (c : call)
  : list Dashboard.HistoryItem :=
  match c with
  | AddFileToHistory file_item current_time =>
      Dashboard.add_file_to_history history_items file_item current_time
  | RemoveItem file_path => Dashboard.remove_item history_items file_path
  | UpdatePath old_path new_path =>
      Dashboard.history_update_path history_items old_path new_path
  | ClearHistory => clear_history history_items
  end.

Definition run (history_items : list Dashboard.HistoryItem) (calls : list call)
  : list Dashboard.HistoryItem :=
  foldl step history_items calls.

End History.

(** ** Browsing: the cursor of FileSystemManager and the file area of the
    main window (items.py and dashboard.py hold the same manager) *)

Module Navigation.

(** [navigate_to_folder(folder_name)]: the manager afterwards and the value
    returned *)
Definition navigate_to_folder (self : Items.FileSystemManager) (folder_name : string)
  : Items.FileSystemManager * bool :=
  match Items.get_item self folder_name with
  | Some folder_item =>
      if bool_decide (Items.item_type folder_item = Items.folder)
      then ({| Items.items := Items.items self;
               Items.current_path := Items.full_path folder_item +:+ "/" |}, true)
      else (self, false)
  | None => (self, false)
  end.

(** [go_back()] *)
Definition go_back (self : Items.FileSystemManager) : Items.FileSystemManager * bool :=
  if negb (String.eqb (Items.current_path self) "data/") then
    let parent_path := PosixPath.dirname (Py.rstrip_slash (Items.current_path self)) in
    ({| Items.items := Items.items self;
        Items.current_path :=
          if String.eqb parent_path "" || String.eqb parent_path "data"
          then "data/" else parent_path +:+ "/" |}, true)
  else (self, false).

Definition can_go_back (self : Items.FileSystemManager) : bool :=
  negb (String.eqb (Items.current_path self) "data/").

(** [scan_directory] with the manager it leaves in every case: when
    [os.scandir] raises, [self.items] has been cleared already. *)
Definition scan_directory (self : Items.FileSystemManager) (fs : Os.filesystem)
           (base_path : string)
  : Items.FileSystemManager * res (list Items.FileSystemItem) :=
  if negb (Os.path_exists fs base_path) then (self, Ok [])
  else
    match Os.scandir fs base_path with
    | Ok entries =>
        let found := List.map Items.classify entries in
        ({| Items.items := foldl Items.register ∅ found;
            Items.current_path := Items.current_path self |},
         Ok (Py.stable_sort Items.scan_before found))
    | Raise e =>
        ({| Items.items := ∅; Items.current_path := Items.current_path self |},
         Raise e)
    end.

(** The file area of the main window: the manager and the items whose
    widgets are in the grid, in the order of the grid *)
Record FilesArea : Type := {
  fs_manager : Items.FileSystemManager;
  shown : list Items.FileSystemItem
}.

Definition init_area : FilesArea :=
  {| fs_manager := Items.init_manager; shown := [] |}.

(** [MainWindow.populate_files].  An exception of the scan ends the slot
    before the grid is touched. *)
Definition populate_files (self : FilesArea) (fs : Os.filesystem) : FilesArea :=
  match scan_directory (fs_manager self) fs (Items.current_path (fs_manager self)) with
  | (manager, Ok items) => {| fs_manager := manager; shown := items |}
  | (manager, Raise _) => {| fs_manager := manager; shown := shown self |}
  end.

(** [MainWindow.on_folder_clicked(folder_name)] *)
Definition on_folder_clicked (self : FilesArea) (fs : Os.filesystem)
           (folder_name : string) : FilesArea :=
  let '(manager, moved) := navigate_to_folder (fs_manager self) folder_name in
  if moved then populate_files {| fs_manager := manager; shown := shown self |} fs
  else self.

(** [MainWindow.go_back()] *)
Definition window_go_back (self : FilesArea) (fs : Os.filesystem) : FilesArea :=
  let '(manager, moved) := go_back (fs_manager self) in
  if moved then populate_files {| fs_manager := manager; shown := shown self |} fs
  else self.

(** What the user does in the file area; each event meets the file system
    of its time. *)
Inductive event : Type :=
  | Refresh
  | FolderClicked (folder_name : string)
  | BackClicked.

Definition handle (self : FilesArea) (step : Os.filesystem * event) : FilesArea :=
  match step.2 with
  | Refresh => populate_files self step.1
  | FolderClicked folder_name => on_folder_clicked self step.1 folder_name
  | BackClicked => window_go_back self step.1
  end.

(** Every name in the file system is a file name: not empty, no slash,
    not one of the two dot names *)
Definition name_ok (c : string) : bool :=
  negb (String.eqb c "") && negb (Py.contains_char "/" c)
  && negb (String.eqb c ".") && negb (String.eqb c "..").

Definition names_ok (fs : Os.filesystem) : bool :=
  forallb (fun kn : list string * Os.node =>
             match last kn.1 with
             | Some c => name_ok c
             | None => true
             end)
          (map_to_list fs).

(** A cursor ends in one slash, after "data" or a path under "data/" *)
Definition cursor_ok (current_path : string) : bool :=
  let s := Py.rstrip_slash current_path in
  String.eqb current_path (s +:+ "/")
  && (String.eqb s "data" || Py.startswith s "data/").

(** An item of a listing under the data directory *)
Definition item_ok (x : Items.FileSystemItem) : bool :=
  Py.startswith (Items.full_path x) "data/"
  && negb (Py.endswith_slash (Items.full_path x)).

Definition area_ok (self : FilesArea) : Prop :=
  cursor_ok (Items.current_path (fs_manager self)) = true
  /\ map_Forall (fun _ x => item_ok x = true) (Items.items (fs_manager self)).

End Navigation.

(** ** dashboard.py: creating items *)

Module AddItem.

(** [SetPasswordDialog.accept_dialog] on the texts of the two fields: the
    box shown when the dialog stays open, or the password it is accepted
    with. *)
Definition set_password_accept_dialog (password_text confirm_text : string)
  : Dashboard.MessageBox + string :=
  let password := Py.strip password_text in
  let confirm := Py.strip confirm_text in
  if String.eqb password ""
  then inl (Dashboard.Warning "Error" "Please enter a password!")
  else if Nat.ltb (String.length password) 3
       then inl (Dashboard.Warning "Error" "Password must be at least 3 characters!")
  else if negb (String.eqb password confirm)
       then inl (Dashboard.Warning "Error" "Passwords do not match!")
  else inr password.

(** The name check of [AddItemDialog.accept_dialog]: the box shown, or the
    name [create_item] is called with *)
Definition accept_dialog_name (text : string) : Dashboard.MessageBox + string :=
  let name := Py.strip text in
  if String.eqb name "" then inl (Dashboard.Warning "Error" "Please enter a name!")
  else if Dashboard.has_invalid_char name
       then inl (Dashboard.Warning "Error" "Name contains invalid characters!")
  else inr name.

Definition item_type_text (item_type : Items.ItemType) : string :=
  match item_type with
  | Items.file => "file"
  | Items.folder => "folder"
  end.

Section WithScrypt.
Variable scrypt : Hash.kdf.
(** [str(e)], the text of an exception *)
Variable str_exn : exn -> string.

(** The [except Exception] of [create_item] *)
Definition failed (fs : Os.filesystem) (item_type : Items.ItemType) (e : exn)
  : Os.filesystem * bool * option Dashboard.MessageBox :=
  (fs, false,
   Some (Dashboard.Critical "Error"
           ("Failed to create " +:+ item_type_text item_type +:+ ": " +:+ str_exn e))).

(** [AddItemDialog.create_item]: the file system afterwards, the value
    returned and the box shown.  [password_dialog] is the outcome of the
    password dialog of a new file: the password it was accepted with, or
    [None] when it was closed; [salt] is what [hash_password] draws.
    [os.makedirs] raises before it creates anything (a regular file stands
    where a directory is needed, and all above it exists), so the file
    system of the handler is the one before the call. *)
Definition create_item (fs : Os.filesystem) (current_path : string)
           (item_type : Items.ItemType) (item_name : string)
           (password_dialog : option string) (salt : list byte)
  : Os.filesystem * bool * option Dashboard.MessageBox :=
  match item_type with
  | Items.folder =>
      let folder_name := Dashboard.new_folder_name item_name in
      let folder_path := PosixPath.join current_path folder_name in
      if Os.path_exists fs folder_path
      then (fs, false,
            Some (Dashboard.Warning "Error"
                    ("A folder named '" +:+ item_name +:+ "' already exists!")))
      else match Os.makedirs fs folder_path with
           | Ok fs1 => (fs1, true, None)
           | Raise e => failed fs item_type e
           end
  | Items.file =>
      let file_dir := PosixPath.join current_path item_name in
      if Os.path_exists fs file_dir
      then (fs, false,
            Some (Dashboard.Warning "Error"
                    ("A file named '" +:+ item_name +:+ "' already exists!")))
      else match Os.makedirs fs file_dir with
           | Raise e => failed fs item_type e
           | Ok fs1 =>
               let content_file := PosixPath.join file_dir "content.html" in
               match Os.write_file fs1 content_file (Py.encode_utf8 "") with
               | Raise e => failed fs1 item_type e
               | Ok fs2 =>
                   match password_dialog with
                   | None =>
                       match Os.rmtree fs2 file_dir with
                       | Ok fs3 => (fs3, false, None)
                       | Raise e => failed fs2 item_type e
                       end
                   | Some user_password =>
                       let password_file := PosixPath.join file_dir "content.bin" in
                       let hashed_password :=
                         Hash.hash_password scrypt salt user_password in
                       match Hash.save_hashed_password fs2 password_file hashed_password with
                       | Ok fs3 => (fs3, true, None)
                       | Raise e => failed fs2 item_type e
                       end
                   end
               end
           end
  end.

(** [AddItemDialog.accept_dialog]: the dialog is accepted when
    [create_item] returns [True]. *)
Definition accept_dialog (fs : Os.filesystem) (current_path : string)
           (item_type : Items.ItemType) (text : string)
           (password_dialog : option string) (salt : list byte)
  : Os.filesystem * bool * option Dashboard.MessageBox :=
  match accept_dialog_name text with
  | inl box => (fs, false, Some box)
  | inr name => create_item fs current_path item_type name password_dialog salt
  end.

End WithScrypt.

End AddItem.

(** ** The shape of a file system *)

Module Store.

(** Every node lies in a directory. *)
Definition tree_ok (fs : Os.filesystem) : bool :=
  forallb (fun kn : list string * Os.node =>
             match Os.node_at fs (Os.parent kn.1) with
             | Some Os.NDir => true
             | _ => false
             end)
          (map_to_list fs).

End Store.

(** ** notepad.py: the editor, run on a content file *)

Module Notepad.

Section WithTextEdit.
(** The text widget of Qt and the codec of text files are outside the
    program.  [str] stands for the texts of Python, [QTextEdit] for the
    state of the editor widget. *)
Variable str : Type.
Variable QTextEdit : Type.
(** [file.read()] of a file opened with [encoding='utf-8'], from its bytes;
    [None] is a [UnicodeDecodeError] *)
Variable decode : list byte -> option str.
(** the bytes that [file.write(text)] puts into such a file *)
Variable encode : str -> list byte.
(** [ClickableTextEdit()], [editor.setHtml(html)] and [editor.toHtml()] *)
Variable ClickableTextEdit : QTextEdit.
Variable setHtml : QTextEdit -> str -> QTextEdit.
Variable toHtml : QTextEdit -> str.
(** the rest of [RichEditor.__init__] on the widget: focus, font size,
    default font, cursor at the end *)
Variable setup : QTextEdit -> QTextEdit.

(** [AUTOSAVE_PATH], from [sys.argv] *)
Definition AUTOSAVE_PATH (argv : list string) : string :=
  match argv with
  | _ :: path :: _ => path
  | _ => "content.html"
  end.

(** [RichEditor.load_autosave]: the widget afterwards; [None] when an
    exception other than [FileNotFoundError] leaves the method *)
Definition load_autosave (fs : Os.filesystem) (path : string) (editor : QTextEdit)
  : option QTextEdit :=
  match Os.read_file fs path with
  | Ok data =>
      match decode data with
      | Some html => Some (setHtml editor html)
      | None => None
      end
  | Raise FileNotFoundError => Some editor
  | Raise _ => None
  end.

(** [with open(path, 'w', encoding='utf-8') as file: file.write(toHtml())]
    inside an event handler: an exception of [open] is reported on the
    console and nothing is written. *)
Definition write_html (fs : Os.filesystem) (path : string) (editor : QTextEdit)
  : Os.filesystem :=
  match Os.write_file fs path (encode (toHtml editor)) with
  | Ok fs' => fs'
  | Raise _ => fs
  end.

(** [RichEditor.closeEvent] *)
Definition closeEvent (fs : Os.filesystem) (path : string) (editor : QTextEdit)
  : Os.filesystem :=
  write_html fs path editor.

(** [RichEditor.manual_save]; [path] is the answer of the file dialog,
    empty when it was cancelled *)
Definition manual_save (fs : Os.filesystem) (editor : QTextEdit) (path : string)
  : Os.filesystem :=
  if String.eqb path "" then fs else write_html fs path editor.

(** What the user does in the window.  Typing and every command other
    than Ctrl+S (Ctrl+O, which reads a file into the widget, among them)
    change the widgets only and write nothing: they are edits. *)
Inductive action : Type :=
  | Edit (f : QTextEdit -> QTextEdit)
  | ManualSave (path : string).

Definition handle (state : Os.filesystem * QTextEdit) (a : action)
  : Os.filesystem * QTextEdit :=
  match a with
  | Edit f => (state.1, f state.2)
  | ManualSave path => (manual_save state.1 state.2 path, state.2)
  end.

(** The path an action saves to, empty for none *)
Definition saved_path (a : action) : string :=
  match a with
  | Edit _ => ""
  | ManualSave path => path
  end.

(** The widget after the actions of a session *)
Definition edited (session : list action) (editor : QTextEdit) : QTextEdit :=
  foldl (fun editor a => match a with Edit f => f editor | ManualSave _ => editor end)
        editor session.

(** [python notepad.py ...] with a user who acts as [session] says and
    then closes the window: the file system afterwards and the exit
    status.  An exception that leaves [RichEditor()] ends the process
    with status 1 before the window is shown. *)
Definition main (fs : Os.filesystem) (argv : list string) (session : list action)
  : Os.filesystem * nat :=
  let path := AUTOSAVE_PATH argv in
  match load_autosave fs path ClickableTextEdit with
  | None => (fs, 1)
  | Some editor =>
      let state := foldl handle (fs, setup editor) session in
      (closeEvent state.1 path state.2, 0)
  end.

End WithTextEdit.

Arguments Edit {QTextEdit} f.
Arguments ManualSave {QTextEdit} path.

End Notepad.

(** ** dashboard.py: opening files from the grid and from the indexes *)

Module Opening.

(** The line feed *)
Definition LF : string := String "010" "".

Section WithEditor.
Variable str : Type.
Variable QTextEdit : Type.
Variable decode : list byte -> option str.
Variable encode : str -> list byte.
Variable ClickableTextEdit : QTextEdit.
Variable setHtml : QTextEdit -> str -> QTextEdit.
Variable toHtml : QTextEdit -> str.
Variable setup : QTextEdit -> QTextEdit.
(** [str(e)] of the [CalledProcessError] of [subprocess.run], from the
    content file of the command and the exit status *)
Variable str_called_process_error : string -> nat -> string.

(** [MainWindow.open_file_content]: the content file is created when it
    is missing, then the editor runs on it and the call waits for its end;
    [session] is what the user does there.  An exception of the first part
    is not caught; a failed run of the editor is shown in a box. *)
Definition open_file_content (fs : Os.filesystem) (file_item : Items.FileSystemItem)
           (session : list (Notepad.action QTextEdit))
  : res (Os.filesystem * option Dashboard.MessageBox) :=
  let content_file := Items.content_file_path file_item in
  fs1 ← (if negb (Os.path_exists fs content_file) then
           let content_dir := PosixPath.dirname content_file in
           fs0 ← (if negb (Os.path_exists fs content_dir)
                  then Os.makedirs fs content_dir else Ok fs);
           Os.write_file fs0 content_file (Py.encode_utf8 LF)
         else Ok fs);
  let '(fs2, returncode) :=
    Notepad.main str QTextEdit decode encode ClickableTextEdit setHtml toHtml setup
                 fs1 ["notepad.py"; content_file] session in
  if Nat.eqb returncode 0 then Ok (fs2, None)
  else Ok (fs2,
           Some (Dashboard.Critical
                   "Error"
                   ("Failed to open notepad: "
                    +:+ str_called_process_error content_file returncode))).

End WithEditor.

(** The warning of the two handlers below *)
Definition file_not_found (file_path : string) : Dashboard.MessageBox :=
  Dashboard.Warning "File Not Found"
                    ("This file no longer exists:" +:+ LF +:+ file_path).

(** [MainWindow.on_history_file_clicked(file_path)]: the warning, or what
    [_open_file_with_password_check] does with the item made from the
    path *)
Definition on_history_file_clicked (history_items : list Dashboard.HistoryItem)
           (fs : Os.filesystem) (file_path current_time : string)
  : Dashboard.MessageBox + Dashboard.OpenResult :=
  if negb (Os.path_exists fs file_path) then inl (file_not_found file_path)
  else inr (Dashboard.open_file_with_password_check
              history_items fs
              (Items.FileItem (PosixPath.basename file_path) file_path) current_time).

(** [MainWindow.on_pinned_file_clicked(file_path)] *)
Definition on_pinned_file_clicked (history_items : list Dashboard.HistoryItem)
           (fs : Os.filesystem) (file_path current_time : string)
  : Dashboard.MessageBox + Dashboard.OpenResult :=
  if negb (Os.path_exists fs file_path) then inl (file_not_found file_path)
  else inr (Dashboard.open_file_with_password_check
              history_items fs
              (Items.FileItem (PosixPath.basename file_path) file_path) current_time).

(** [MainWindow.on_file_clicked(file_name)]: [None] when the name is not
    that of a File item of the manager *)
Definition on_file_clicked (history_items : list Dashboard.HistoryItem)
           (fs : Os.filesystem) (fs_manager : Items.FileSystemManager)
           (file_name current_time : string) : option Dashboard.OpenResult :=
  match Items.get_item fs_manager file_name with
  | Some file_item =>
      if Items.is_file file_item
      then Some (Dashboard.open_file_with_password_check
                   history_items fs file_item current_time)
      else None
  | None => None
  end.

(** [MainWindow.pin_file(file_item)]: the pins afterwards and the box
    shown when the file was pinned already *)
Definition pin_file (pinned_items : list Items.PinnedItem)
           (file_item : Items.FileSystemItem) (current_time : string)
  : list Items.PinnedItem * option Dashboard.MessageBox :=
  let '(pins, pinned) := Items.pin_file_item pinned_items file_item current_time in
  if pinned then (pins, None)
  else (pins,
        Some (Dashboard.Information
                "Already Pinned"
                ("'" +:+ Items.display_name file_item +:+ "' is already pinned!"))).

(** [MainWindow.pin_file_by_path(file_path)] *)
Definition pin_file_by_path (pinned_items : list Items.PinnedItem)
           (fs : Os.filesystem) (file_path current_time : string)
  : list Items.PinnedItem * option Dashboard.MessageBox :=
  if negb (Os.path_exists fs file_path) then (pinned_items, None)
  else pin_file pinned_items
                (Items.FileItem (PosixPath.basename file_path) file_path) current_time.

End Opening.

(** ** pass_changer.py and [PasswordManager.change_password] *)

Module PassChanger.

(** The dialog: [old_password_entry] is [None] in the code when the
    credential file did not exist as the dialog was built. *)
Record ChangePasswordDialog : Type := {
  filePath : string;
  currentHash : option (list byte);
  old_password_entry : bool
}.

(** [ChangePasswordDialog(filePath, currentHash=currentHash)] *)
Definition init (fs : Os.filesystem) (filePath : string)
           (currentHash : option (list byte)) : ChangePasswordDialog :=
  {| filePath := filePath;
     currentHash := currentHash;
     old_password_entry := Os.path_exists fs filePath |}.

(** How a press on the save button ends.  The texts of the boxes hold
    characters that are not code points below 256; each box is named
    here by its condition. *)
Inductive Outcome : Type :=
  | LoadError (e : exn)      (* critical: the credential file cannot be loaded *)
  | NoStoredHash             (* critical: no credential although the file was there *)
  | WrongOldPassword         (* warning: the old password is wrong *)
  | EmptyNewPassword         (* warning: the new password is empty *)
  | NewPasswordsDiffer       (* warning: the two new passwords differ *)
  | Saved                    (* information, and the dialog is accepted *)
  | SaveError (e : exn).     (* critical: saving failed *)

Section WithScrypt.
Variable scrypt : Hash.kdf.

(** [save_new_password]: the file system afterwards and the outcome; an
    exception that nothing catches ends the slot.  [old_pw] is the text of
    the old password field, the empty string when the field is absent. *)
Definition save_new_password (self : ChangePasswordDialog) (fs : Os.filesystem)
           (salt : list byte) (old_pw_text new_pw confirm_pw : string)
  : Os.filesystem * res Outcome :=
  let old_pw := if old_password_entry self then old_pw_text else "" in
  match Os.makedirs fs (PosixPath.dirname (filePath self)) with
  | Raise e => (fs, Raise e)
  | Ok fs1 =>
      let loaded : Outcome + option (list byte) :=
        match currentHash self with
        | Some h => inr (Some h)
        | None =>
            if Os.path_exists fs1 (filePath self) then
              match Hash.load_hashed_password fs1 (filePath self) with
              | Ok h => inr (Some h)
              | Raise e => inl (LoadError e)
              end
            else inr None
        end in
      match loaded with
      | inl box => (fs1, Ok box)
      | inr stored_hash =>
          let checked : res (option Outcome) :=
            if old_password_entry self then
              match stored_hash with
              | None => Ok (Some NoStoredHash)
              | Some h =>
                  match Hash.verify_password scrypt h old_pw with
                  | Raise e => Raise e
                  | Ok true => Ok None
                  | Ok false => Ok (Some WrongOldPassword)
                  end
              end
            else Ok None in
          match checked with
          | Raise e => (fs1, Raise e)
          | Ok (Some box) => (fs1, Ok box)
          | Ok None =>
              if String.eqb new_pw "" then (fs1, Ok EmptyNewPassword)
              else if negb (String.eqb new_pw confirm_pw)
                   then (fs1, Ok NewPasswordsDiffer)
              else
                let new_hashed_pw := Hash.hash_password scrypt salt new_pw in
                match Hash.save_hashed_password fs1 (filePath self) new_hashed_pw with
                | Ok fs2 => (fs2, Ok Saved)
                | Raise e => (fs1, Ok (SaveError e))
                end
          end
      end
  end.

(** [PasswordManager.change_password(item)] with one press on the save
    button of the dialog it opens *)
Definition change_password (fs : Os.filesystem) (item : Items.FileSystemItem)
           (salt : list byte) (old_pw_text new_pw confirm_pw : string)
  : Os.filesystem * res Outcome :=
  let password_file := Items.password_file_path item in
  let current_hash := Items.load_password_hash fs item in
  let password_dir := PosixPath.dirname password_file in
  match (if negb (Os.path_exists fs password_dir)
         then Os.makedirs fs password_dir else Ok fs) with
  | Raise e => (fs, Raise e)
  | Ok fs0 =>
      save_new_password (init fs0 password_file current_hash) fs0 salt
                        old_pw_text new_pw confirm_pw
  end.

End WithScrypt.

End PassChanger.

(** ** Further sample data *)

Module Cases.

(** The sample store with a readable credential for the file doc, derived
    from the password "doc" *)
Definition locked_store : Os.filesystem :=
  <[["data"; "-__A"; "doc"; "content.bin"] :=
      Os.NFile true (Hash.hash_password Aux.toy_kdf Samples.salt "doc")]> Samples.store.

Definition other_salt : list byte := repeat "009"%byte 16.

(** The program directory on a first run *)
Definition first_run_store : Os.filesystem :=
  list_to_map [(["sources"], Os.NDir); (["data"], Os.NDir)].

(** A widget to run the editor on: its state is the HTML it shows, a text
    is its bytes *)
Definition toy_setHtml (editor html : list byte) : list byte := html.

Definition toy_str_error (content_file : string) (returncode : nat) : string :=
  "exit status 1".

(** The store with the directory of a file Empty that has no content file
    yet *)
Definition store_with_empty : Os.filesystem :=
  <[["data"; "Empty"] := Os.NDir]> Samples.store.

End Cases.

(** ** main.py: the start of the program *)

Module Main.

Definition MAIN_PASSWORD_HASH_FILE : string := "sources/main.bin".

(** How the start ends: [sys.exit(code)], or the login window shown with
    the credential it expects; the dashboard is launched by [on_success]
    of that window only. *)
Inductive Startup : Type :=
  | Exit (code : nat)
  | Login (expected_password_hash : list byte).

Section WithScrypt.
Variable scrypt : Hash.kdf.

(** The block under [if __name__ == "__main__"] up to [login.show()].
    [new_main_password] and [ok] are what [QInputDialog.getText] returns on
    a first run and [salt] what [hash_password] draws then.  Only the load
    stands in a [try]. *)
Definition main (fs : Os.filesystem) (salt : list byte)
           (new_main_password : string) (ok : bool)
  : res (Os.filesystem * Startup) :=
  fs1 ← Os.makedirs fs (PosixPath.dirname MAIN_PASSWORD_HASH_FILE);
  if negb (Os.path_exists fs1 MAIN_PASSWORD_HASH_FILE) then
    if ok && negb (String.eqb new_main_password "") then
      let main_app_password_hash := Hash.hash_password scrypt salt new_main_password in
      fs2 ← Hash.save_hashed_password fs1 MAIN_PASSWORD_HASH_FILE main_app_password_hash;
      Ok (fs2, Login main_app_password_hash)
    else Ok (fs1, Exit 1)
  else
    match Hash.load_hashed_password fs1 MAIN_PASSWORD_HASH_FILE with
    | Ok main_app_password_hash => Ok (fs1, Login main_app_password_hash)
    | Raise _ => Ok (fs1, Exit 1)
    end.

End WithScrypt.

End Main.

(** ** dashboard.py: texts and cells of the grids *)

Module Layout.

Local Open Scope Z_scope.

(** [s[:n]] for an integer [n]: a negative [n] counts from the end *)
Definition slice_to_int (s : string) (n : Z) : string :=
  if n <? 0 then Py.slice_to (Z.to_nat (Z.of_nat (String.length s) + n)) s
  else Py.slice_to (Z.to_nat n) s.

Section WithFontMetrics.
(** [font_metrics.horizontalAdvance] *)
Variable horizontalAdvance : string -> Z.

(** The [while left <= right] loop of [truncate_text] *)
Equations search (text : string) (max_width : Z) (left_ right_ : Z) (result : string)
  : string by wf (Z.to_nat (right_ - left_ + 1)) lt :=
  search text max_width left_ right_ result with Z_le_dec left_ right_ := {
    | Specif.left _ =>
        let mid := (left_ + right_) / 2 in
        let truncated := slice_to_int text mid +:+ "..." in
        if horizontalAdvance truncated <=? max_width
        then search text max_width (mid + 1) right_ truncated
        else search text max_width left_ (mid - 1) result
    | Specif.right _ => result }.
Next Obligation.
  intros.
  match goal with
  | H : (?l <= ?r)%Z |- _ =>
      assert (l <= (l + r) / 2) by (apply Z.div_le_lower_bound; lia)
  end.
  lia.
Defined.
Next Obligation.
  intros.
  match goal with
  | H : (?l <= ?r)%Z |- _ =>
      assert ((l + r) / 2 <= r) by (apply Z.div_le_upper_bound; lia)
  end.
  lia.
Defined.

(** [truncate_text(text, max_width, font_metrics)] *)
Definition truncate_text (text : string) (max_width : Z) : string :=
  if horizontalAdvance text <=? max_width then text
  else
    let ellipsis := "..." in
    let ellipsis_width := horizontalAdvance ellipsis in
    if max_width <=? ellipsis_width then ""
    else search text max_width 0 (Z.of_nat (String.length text)) "".

End WithFontMetrics.

(** [FileGridManager.populate_grid]: the cells of the item widgets.  The
    state of the loop is the cell of the next widget and the widgets
    placed; the add widget stands at (0, 0) before the loop. *)
Definition place {A} (widgets_per_row : Z) (st : Z * Z * list (Z * Z * A)) (item : A)
  : Z * Z * list (Z * Z * A) :=
  let '(row, col, placed) := st in
  let placed := placed ++ [(row, col, item)] in
  let col := col + 1 in
  if widgets_per_row <=? col then (row + 1, 0, placed) else (row, col, placed).

Definition populate_grid {A} (widgets_per_row : Z) (items : list A)
  : Z * Z * list (Z * Z * A) :=
  foldl (place widgets_per_row) (0, 1, []) items.

End Layout.

(** ** dashboard.py: the history area, the quick access area and the
    signals of the grid widgets *)

Module Panels.

(** [HistoryGridManager.populate_history]: the widgets added to the grid,
    each with its row.  A record whose path does not exist gets no widget
    and leaves its row empty. *)
Definition populate_history (history_items : list Dashboard.HistoryItem)
           (fs : Os.filesystem) : list (nat * Dashboard.HistoryItem) :=
  let recent_files := History.get_recent_files history_items 20 in
  omap (fun entry : nat * Dashboard.HistoryItem =>
          if negb (Os.path_exists fs (Dashboard.h_full_path entry.2)) then None
          else Some entry)
       (imap pair recent_files).

(** [QuickAccessManager.populate_quick_access], over all pins *)
Definition populate_quick_access (pinned_items : list Items.PinnedItem)
           (fs : Os.filesystem) : list (nat * Items.PinnedItem) :=
  omap (fun entry : nat * Items.PinnedItem =>
          if negb (Os.path_exists fs (Items.p_full_path entry.2)) then None
          else Some entry)
       (imap pair pinned_items).

(** What the widget of an item emits when it is clicked: [FolderWidget]
    the display name of its folder, [FileWidget] the name of its file *)
Definition clicked (x : Items.FileSystemItem) : string :=
  match Items.item_type x with
  | Items.folder => Items.display_name x
  | Items.file => Items.name x
  end.

End Panels.

(** * Properties *)

(** ** The primitives on known values *)

Example join_after_slash : PosixPath.join "data/" "-__Notes" = "data/-__Notes".
Proof. reflexivity. Qed.

Example join_inserts_slash : PosixPath.join "data/-__A" "doc" = "data/-__A/doc".
Proof. reflexivity. Qed.

Example join_absolute : PosixPath.join "data" "/tmp" = "/tmp".
Proof. reflexivity. Qed.

Example dirname_of_item : PosixPath.dirname "data/-__A/doc" = "data/-__A".
Proof. reflexivity. Qed.

Example dirname_of_root : PosixPath.dirname "/" = "/".
Proof. reflexivity. Qed.

Example dirname_of_name : PosixPath.dirname "doc" = "".
Proof. reflexivity. Qed.

Example basename_of_item : PosixPath.basename "data/-__A/doc" = "doc".
Proof. reflexivity. Qed.

Example basename_after_slash : PosixPath.basename "data/-__A/" = "".
Proof. reflexivity. Qed.

Example strip_of_name : Py.strip "  Notes " = "Notes".
Proof. reflexivity. Qed.

Example lower_of_name : Py.lower "NoTes-1" = "notes-1".
Proof. reflexivity. Qed.

Example resolve_of_path : Os.resolve "data//-__A/./doc/" = ["data"; "-__A"; "doc"].
Proof. reflexivity. Qed.

Example sort_desc_is_stable :
  Py.sort_desc (fun x : string * nat => x.1) [("b", 1); ("c", 2); ("b", 3); ("a", 4)]
  = [("c", 2); ("b", 1); ("b", 3); ("a", 4)].
Proof. reflexivity. Qed.

Example b64encode_group :
  Base64.urlsafe_b64encode (list_byte_of_string "Man") = list_byte_of_string "TWFu".
Proof. reflexivity. Qed.

Example b64encode_padded :
  Base64.urlsafe_b64encode (list_byte_of_string "Ma") = list_byte_of_string "TWE=".
Proof. reflexivity. Qed.

Example b64encode_urlsafe :
  Base64.urlsafe_b64encode ["251"; "255"; "254"]%byte = list_byte_of_string "-__-".
Proof. reflexivity. Qed.

Example b64decode_skips_foreign_characters :
  Base64.urlsafe_b64decode (list_byte_of_string "T W.F u") = Ok (list_byte_of_string "Man").
Proof. reflexivity. Qed.

Example b64decode_incomplete_quad :
  Base64.urlsafe_b64decode (list_byte_of_string "TWF") = Raise BinasciiError.
Proof. reflexivity. Qed.

Example scan_of_sample_store :
  match Items.scan_directory Items.init_manager Samples.store "data/" with
  | Ok (found, _) => found = [Samples.folder_A; Samples.folder_Notes; Samples.file_Diary]
  | Raise _ => False
  end.
Proof. vm_compute. reflexivity. Qed.

(** ** The stable sort *)

Section StableSort.
Context {A : Type} (before : A -> A -> bool).

Lemma insert_sorted_perm x l : Py.insert_sorted before x l ≡ₚ x :: l.
Proof.
  induction l as [|y l IH]; simpl; [done|].
  destruct (before x y); [done|].
  rewrite IH. apply Permutation_swap.
Qed.

Lemma stable_sort_perm l : Py.stable_sort before l ≡ₚ l.
Proof.
  induction l as [|x l IH]; simpl; [done|].
  rewrite insert_sorted_perm. by f_equiv.
Qed.

Lemma stable_sort_length l : length (Py.stable_sort before l) = length l.
Proof. by rewrite stable_sort_perm. Qed.

Hypothesis before_total : forall x y, before x y = false -> before y x = true.

Lemma insert_sorted_HdRel a x l :
  before a x = true -> HdRel (fun u v => before u v = true) a l ->
  HdRel (fun u v => before u v = true) a (Py.insert_sorted before x l).
Proof.
  intros Hax Hal. destruct l as [|y l]; simpl.
  - by constructor.
  - destruct (before x y); constructor; [done|]. by inversion Hal.
Qed.

Lemma insert_sorted_Sorted x l :
  Sorted (fun u v => before u v = true) l ->
  Sorted (fun u v => before u v = true) (Py.insert_sorted before x l).
Proof.
  induction 1 as [|y l Hl IH Hhd]; simpl.
  - repeat constructor.
  - destruct (before x y) eqn:Hxy.
    + constructor; [by constructor|by constructor].
    + constructor; [done|]. apply insert_sorted_HdRel; auto.
Qed.

Lemma stable_sort_Sorted l :
  Sorted (fun u v => before u v = true) (Py.stable_sort before l).
Proof.
  induction l as [|x l IH]; simpl; [constructor|].
  by apply insert_sorted_Sorted.
Qed.

Hypothesis before_trans :
  forall x y z, before x y = true -> before y z = true -> before x z = true.

Lemma stable_sort_StronglySorted l :
  StronglySorted (fun u v => before u v = true) (Py.stable_sort before l).
Proof.
  apply Sorted_StronglySorted; [|apply stable_sort_Sorted].
  intros x y z. apply before_trans.
Qed.
End StableSort.

Lemma string_leb_total s1 s2 : String.leb s1 s2 = false -> String.leb s2 s1 = true.
Proof. destruct (String.leb_total s1 s2) as [H|H]; congruence. Qed.

Lemma string_leb_trans s1 s2 s3 :
  String.leb s1 s2 = true -> String.leb s2 s3 = true -> String.leb s1 s3 = true.
Proof.
  intros H1 H2. apply Is_true_true. apply Is_true_true in H1, H2.
  exact (transitivity (R := String.le) H1 H2).
Qed.

Lemma sort_desc_perm {A} (key : A -> string) l : Py.sort_desc key l ≡ₚ l.
Proof. apply stable_sort_perm. Qed.

Lemma sort_desc_length {A} (key : A -> string) l :
  length (Py.sort_desc key l) = length l.
Proof. apply stable_sort_length. Qed.

Lemma sort_desc_StronglySorted {A} (key : A -> string) l :
  StronglySorted (fun u v => String.leb (key v) (key u) = true) (Py.sort_desc key l).
Proof.
  apply (stable_sort_StronglySorted (fun x y => String.leb (key y) (key x))).
  - intros x y. apply string_leb_total.
  - intros x y z Hxy Hyz. by apply (string_leb_trans _ (key y)).
Qed.

(** A list of [S n] elements sorted downwards: cutting it to [n] drops one
    element, and no element kept has a smaller key. *)
Lemma take_sorted_desc_drops_least {A} (key : A -> string) (l : list A) n :
  length l = S n ->
  exists e, take n (Py.sort_desc key l) ++ [e] = Py.sort_desc key l
            /\ forall r, r ∈ take n (Py.sort_desc key l) -> String.leb (key e) (key r) = true.
Proof.
  intros Hlen.
  pose proof (sort_desc_length key l) as Hs. rewrite Hlen in Hs.
  pose proof (sort_desc_StronglySorted key l) as Hss.
  rewrite <- (take_drop n (Py.sort_desc key l)) in Hss.
  destruct (drop n (Py.sort_desc key l)) as [|e [|e' t]] eqn:Hd.
  - apply (f_equal length) in Hd. rewrite length_drop in Hd. simpl in Hd. lia.
  - exists e. split.
    + rewrite <- Hd. apply take_drop.
    + intros r Hr. eapply (StronglySorted_app_1_elem_of _ _ _ r e) in Hss; [done|done|].
      by apply list_elem_of_singleton.
  - apply (f_equal length) in Hd. rewrite length_drop in Hd. simpl in Hd. lia.
Qed.

(** ** The name codec *)

Lemma startswith_prefix_app (p s : string) : Py.startswith (p +:+ s) p = true.
Proof.
  unfold Py.startswith. induction p as [|c p IH]; simpl.
  - by destruct s.
  - rewrite IH. by destruct (ascii_dec c c).
Qed.

Lemma slice_from_app (p s : string) : Py.slice_from (String.length p) (p +:+ s) = s.
Proof. induction p as [|c p IH]; simpl; [by destruct s|done]. Qed.

(** Whatever the name, a raw name built with the marker reads back as a
    folder with that display name. *)
Lemma classify_new_folder_name (new_name path : string) :
  let item := Items.classify {| Os.entry_name := Dashboard.new_folder_name new_name;
                                Os.entry_path := path |} in
  Items.item_type item = Items.folder /\ Items.display_name item = new_name.
Proof.
  unfold Items.classify, Dashboard.new_folder_name; simpl.
  rewrite startswith_prefix_app. unfold Items.display_name; simpl.
  rewrite startswith_prefix_app. split; [done|].
  apply (slice_from_app Items.FOLDER_PREFIX).
Qed.

(** C9. For every display name that passes the validation of the dialogs
    (not empty, none of the nine characters of [invalid_chars]), the raw folder
    name built from it by prefixing the marker is classified by the scan as
    a Folder whose display name is exactly the original name. *)
Theorem folder_name_round_trip (display_name path : string) :
  display_name <> "" ->
  Dashboard.has_invalid_char display_name = false ->
  let raw_name := Dashboard.new_folder_name display_name in
  let item := Items.classify {| Os.entry_name := raw_name; Os.entry_path := path |} in
  raw_name = "-__" +:+ display_name
  /\ Items.item_type item = Items.folder
  /\ Items.display_name item = display_name.
Proof.
  intros _ _. split; [done|]. apply classify_new_folder_name.
Qed.

Lemma folder_name_round_trip_witness :
  let item := Items.classify {| Os.entry_name := "-__Notes"; Os.entry_path := "data/-__Notes" |} in
  Dashboard.new_folder_name "Notes" = "-__Notes"
  /\ Items.item_type item = Items.folder
  /\ Items.display_name item = "Notes".
Proof.
  apply (folder_name_round_trip "Notes" "data/-__Notes"); [discriminate | reflexivity].
Defined.

(** ** The bounds of the two indexes (items.py) *)

Lemma touch_existing_fresh (h : list Items.HistoryItem) (path now : string) :
  (forall r, r ∈ h -> Items.h_full_path r <> path) ->
  Items.touch_existing h path now = None.
Proof.
  induction h as [|r h IH]; intros Hfresh; simpl; [done|].
  destruct (String.eqb_spec (Items.h_full_path r) path) as [Heq|_].
  - exfalso. apply (Hfresh r); [left|done].
  - rewrite IH; [done|]. intros r' Hr'. apply Hfresh. by right.
Qed.

Lemma add_file_to_history_bound h item now :
  length (Items.add_file_to_history h item now) <= 50.
Proof. unfold Items.add_file_to_history. rewrite length_take. lia. Qed.

Lemma touch_all_bound h calls :
  length h <= 50 -> length (Items.touch_all h calls) <= 50.
Proof.
  revert h. induction calls as [|call calls IH]; intros h Hh; simpl; [done|].
  apply IH, add_file_to_history_bound.
Qed.

(** After at least one call the bound holds whatever was loaded. *)
Lemma touch_all_bound_nonempty h call calls :
  length (Items.touch_all h (call :: calls)) <= 50.
Proof. simpl. apply touch_all_bound, add_file_to_history_bound. Qed.

Lemma pin_file_item_bound p item now :
  length p <= 20 -> length (Items.pin_file_item p item now).1 <= 20.
Proof.
  intros Hp. unfold Items.pin_file_item.
  destruct (Items.is_pinned p (Items.full_path item)); simpl; [done|].
  rewrite length_take. lia.
Qed.

Lemma unpin_file_bound p path :
  length p <= 20 -> length (Items.unpin_file p path) <= 20.
Proof.
  intros Hp. unfold Items.unpin_file.
  pose proof (List.filter_length_le
                (fun item => negb (Items.p_full_path item =? path)) p). lia.
Qed.

Lemma pin_all_bound p calls :
  length p <= 20 -> length (Items.pin_all p calls) <= 20.
Proof.
  revert p. induction calls as [|call calls IH]; intros p Hp; simpl; [done|].
  by apply IH, pin_file_item_bound.
Qed.

(** dashboard.py keeps the same bound. *)
Lemma dashboard_add_file_to_history_bound h item now :
  length (Dashboard.add_file_to_history h item now) <= 50.
Proof. unfold Dashboard.add_file_to_history. rewrite length_take. lia. Qed.

(** The 51st path: the record cut off is the last of the sorted list. *)
Lemma add_file_to_history_evicts h item now :
  length h = 50 ->
  (forall r, r ∈ h -> Items.h_full_path r <> Items.full_path item) ->
  let added := {| Items.h_name := Items.display_name item;
                  Items.h_full_path := Items.full_path item;
                  Items.last_accessed := now;
                  Items.access_count := 1 |} in
  let h' := Items.add_file_to_history h item now in
  length h' = 50
  /\ exists evicted,
       h' ++ [evicted] ≡ₚ h ++ [added]
       /\ forall r, r ∈ h' ->
            String.leb (Items.last_accessed evicted) (Items.last_accessed r) = true.
Proof.
  intros Hlen Hfresh added h'. subst h'. unfold Items.add_file_to_history.
  rewrite (touch_existing_fresh _ _ _ Hfresh). fold added.
  assert (Hl : length (h ++ [added]) = 51) by (rewrite length_app; simpl; lia).
  destruct (take_sorted_desc_drops_least Items.last_accessed (h ++ [added]) 50 Hl)
    as (e & Hsplit & Hleast).
  split.
  - rewrite length_take, sort_desc_length, Hl. done.
  - exists e. split; [|done]. rewrite Hsplit. apply sort_desc_perm.
Qed.

(** C7. Starting from an index within its bound, any sequence of touches
    leaves at most 50 history records; touching a path that is not among 50
    records leaves exactly 50, and the one record that went (of the 50 and
    the new one) has a timestamp no later than any record kept; starting
    from at most 20 pins, any sequence of pins leaves at most 20. *)
Theorem index_bounds :
  (forall (h0 : list Items.HistoryItem) (touches : list (Items.FileSystemItem * string)),
      length h0 <= 50 -> length (Items.touch_all h0 touches) <= 50)
  /\ (forall (h : list Items.HistoryItem) (item : Items.FileSystemItem) (now : string),
        length h = 50 ->
        (forall r, r ∈ h -> Items.h_full_path r <> Items.full_path item) ->
        let added := {| Items.h_name := Items.display_name item;
                        Items.h_full_path := Items.full_path item;
                        Items.last_accessed := now;
                        Items.access_count := 1 |} in
        let h' := Items.add_file_to_history h item now in
        length h' = 50
        /\ exists evicted,
             h' ++ [evicted] ≡ₚ h ++ [added]
             /\ forall r, r ∈ h' ->
                  String.leb (Items.last_accessed evicted) (Items.last_accessed r) = true)
  /\ (forall (p0 : list Items.PinnedItem) (pins : list (Items.FileSystemItem * string)),
        length p0 <= 20 -> length (Items.pin_all p0 pins) <= 20).
Proof.
  split; [|split].
  - intros h0 touches. apply touch_all_bound.
  - intros h item now. apply add_file_to_history_evicts.
  - intros p0 pins. apply pin_all_bound.
Qed.

(** ** Scanning a directory *)

Lemma StronglySorted_lookup {A} (R : A -> A -> Prop) (l : list A) i j x y :
  StronglySorted R l -> i < j -> l !! i = Some x -> l !! j = Some y -> R x y.
Proof.
  intros Hs. revert i j. induction Hs as [|a l Hs IH Hall]; intros i j Hij Hi Hj.
  - done.
  - destruct j as [|j]; [lia|]. destruct i as [|i]; simpl in *.
    + injection Hi as <-. rewrite List.Forall_forall in Hall.
      apply Hall. apply list_elem_of_In. by eapply list_elem_of_lookup_2.
    + apply (IH i j); [lia|done..].
Qed.

Lemma scan_before_total x y :
  Items.scan_before x y = false -> Items.scan_before y x = true.
Proof.
  unfold Items.scan_before.
  destruct (Items.is_file x), (Items.is_file y); try done; apply string_leb_total.
Qed.

Lemma scan_before_trans x y z :
  Items.scan_before x y = true -> Items.scan_before y z = true ->
  Items.scan_before x z = true.
Proof.
  unfold Items.scan_before.
  destruct (Items.is_file x), (Items.is_file y), (Items.is_file z);
    try done; apply string_leb_trans.
Qed.

(** What the order of the scan says of two items, the first in front *)
Lemma scan_before_meaning x y :
  Items.scan_before x y = true ->
  (Items.item_type x = Items.file -> Items.item_type y = Items.file)
  /\ (Items.item_type x = Items.item_type y ->
      String.leb (Py.lower (Items.display_name x)) (Py.lower (Items.display_name y)) = true).
Proof.
  unfold Items.scan_before, Items.is_file.
  destruct (Items.item_type x), (Items.item_type y); simpl; intros H; split; done.
Qed.

(** The entries of a directory are its children in the file system. *)
Lemma scandir_entries (fs : Os.filesystem) (p : string) entries :
  Os.scandir fs p = Ok entries ->
  forall e, e ∈ entries <->
    exists name, is_Some (fs !! (Os.resolve p ++ [name]))
                 /\ e = {| Os.entry_name := name; Os.entry_path := PosixPath.join p name |}.
Proof.
  unfold Os.scandir. destruct (p =? "")%string; [done|].
  destruct (Os.node_at fs (Os.resolve p)) as [[|]|]; try done.
  intros [= <-] e. rewrite list_elem_of_omap. split.
  - intros ([k n] & Hkn & He). simpl in He.
    destruct (last k) as [name|] eqn:Hlast; [|done].
    case_bool_decide as Hk; [|done]. injection He as <-.
    exists name. split; [|done]. rewrite <- Hk.
    apply elem_of_map_to_list in Hkn. by exists n.
  - intros (name & [n Hn] & ->).
    exists (Os.resolve p ++ [name], n). split.
    + by apply elem_of_map_to_list.
    + simpl. rewrite last_snoc. by rewrite bool_decide_eq_true_2.
Qed.

Lemma path_isdir_exists fs p : Os.path_isdir fs p = true -> Os.path_exists fs p = true.
Proof.
  unfold Os.path_isdir, Os.path_exists.
  destruct (negb (p =? "")%string); [|done]. simpl.
  destruct (Os.node_at fs (Os.resolve p)) as [[|]|];
    first [done | intros _; apply bool_decide_eq_true_2; by eexists].
Qed.

(** C8. Scanning a path that does not exist returns the empty list.
    Scanning a directory returns one item for each of its entries, and in
    the list returned no File item stands in front of a Folder item and two
    items of the same kind stand in the order of their lower-cased display
    names. *)
Theorem scan_directory_sorted
  (self : Items.FileSystemManager) (fs : Os.filesystem) (base_path : string) :
  (Os.path_exists fs base_path = false ->
   Items.scan_directory self fs base_path = Ok ([], self))
  /\ (Os.path_isdir fs base_path = true ->
      exists entries items self',
        Os.scandir fs base_path = Ok entries
        /\ (forall e, e ∈ entries <->
              exists name, is_Some (fs !! (Os.resolve base_path ++ [name]))
                           /\ e = {| Os.entry_name := name;
                                     Os.entry_path := PosixPath.join base_path name |})
        /\ Items.scan_directory self fs base_path = Ok (items, self')
        /\ items ≡ₚ List.map Items.classify entries
        /\ forall i j x y, i < j -> items !! i = Some x -> items !! j = Some y ->
             (Items.item_type x = Items.file -> Items.item_type y = Items.file)
             /\ (Items.item_type x = Items.item_type y ->
                 String.leb (Py.lower (Items.display_name x))
                            (Py.lower (Items.display_name y)) = true)).
Proof.
  split.
  - intros Hno. unfold Items.scan_directory. by rewrite Hno.
  - intros Hdir. pose proof (path_isdir_exists _ _ Hdir) as Hex.
    unfold Items.scan_directory. rewrite Hex. simpl.
    destruct (Os.scandir fs base_path) as [entries|e] eqn:Hscan.
    + exists entries. eexists. eexists. split; [done|]. split.
      { by apply scandir_entries. }
      split; [reflexivity|]. split; [apply stable_sort_perm|].
      intros i j x y Hij Hi Hj. apply scan_before_meaning.
      eapply (StronglySorted_lookup (fun u v => Items.scan_before u v = true));
        [|exact Hij|exact Hi|exact Hj].
      apply stable_sort_StronglySorted;
        [apply scan_before_total|apply scan_before_trans].
    + exfalso. unfold Os.scandir, Os.path_isdir in *.
      destruct (base_path =? "")%string; [done|]. simpl in Hdir.
      destruct (Os.node_at fs (Os.resolve base_path)) as [[|]|]; done.
Qed.

(** ** base64 *)

Lemma all_bytes_complete (b : byte) : In b Aux.all_bytes.
Proof.
  assert (H : existsb (fun c => bool_decide (c = b)) Aux.all_bytes = true)
    by (destruct b; vm_compute; reflexivity).
  apply existsb_exists in H as (c & Hc & Heq).
  by apply bool_decide_eq_true in Heq as <-.
Qed.

Lemma for_all_bytes (P : byte -> bool) :
  forallb P Aux.all_bytes = true -> forall a, P a = true.
Proof.
  intros H a. rewrite forallb_forall in H. apply H, all_bytes_complete.
Qed.

Lemma for_all_byte_pairs (P : byte -> byte -> bool) :
  forallb (fun a => forallb (P a) Aux.all_bytes) Aux.all_bytes = true ->
  forall a b, P a b = true.
Proof.
  intros H a b. apply (for_all_bytes (P a)).
  apply (for_all_bytes (fun a => forallb (P a) Aux.all_bytes) H).
Qed.

Lemma reads_back_1 a : Aux.reads_back (Base64.sextet1 a) = true.
Proof. revert a. apply for_all_bytes. vm_compute. reflexivity. Qed.

Lemma reads_back_2 a b : Aux.reads_back (Base64.sextet2 a b) = true.
Proof. revert a b. apply for_all_byte_pairs. vm_compute. reflexivity. Qed.

Lemma reads_back_3 b c : Aux.reads_back (Base64.sextet3 b c) = true.
Proof. revert b c. apply for_all_byte_pairs. vm_compute. reflexivity. Qed.

Lemma reads_back_4 c : Aux.reads_back (Base64.sextet4 c) = true.
Proof. revert c. apply for_all_bytes. vm_compute. reflexivity. Qed.

(** The bytes the decoder puts together from the sextets *)
Lemma first_byte a b :
  Py.byte_of_N (N.lor (N.shiftl (Base64.sextet1 a) 2)
                      (N.shiftr (Base64.sextet2 a b) 4)) = a.
Proof.
  refine (bool_decide_eq_true_1 _ (for_all_byte_pairs
           (fun a b => bool_decide
              (Py.byte_of_N (N.lor (N.shiftl (Base64.sextet1 a) 2)
                                   (N.shiftr (Base64.sextet2 a b) 4)) = a)) _ a b)).
  vm_compute. reflexivity.
Qed.

Lemma second_left a b :
  N.land (Base64.sextet2 a b) 15 = N.shiftr (Byte.to_N b) 4.
Proof.
  refine (bool_decide_eq_true_1 _ (for_all_byte_pairs
           (fun a b => bool_decide
              (N.land (Base64.sextet2 a b) 15 = N.shiftr (Byte.to_N b) 4)) _ a b)).
  vm_compute. reflexivity.
Qed.

Lemma second_byte b c :
  Py.byte_of_N (N.lor (N.shiftl (N.shiftr (Byte.to_N b) 4) 4)
                      (N.shiftr (Base64.sextet3 b c) 2)) = b.
Proof.
  refine (bool_decide_eq_true_1 _ (for_all_byte_pairs
           (fun b c => bool_decide
              (Py.byte_of_N (N.lor (N.shiftl (N.shiftr (Byte.to_N b) 4) 4)
                                   (N.shiftr (Base64.sextet3 b c) 2)) = b)) _ b c)).
  vm_compute. reflexivity.
Qed.

Lemma third_left b c :
  N.land (Base64.sextet3 b c) 3 = N.shiftr (Byte.to_N c) 6.
Proof.
  refine (bool_decide_eq_true_1 _ (for_all_byte_pairs
           (fun b c => bool_decide
              (N.land (Base64.sextet3 b c) 3 = N.shiftr (Byte.to_N c) 6)) _ b c)).
  vm_compute. reflexivity.
Qed.

Lemma third_byte c :
  Py.byte_of_N (N.lor (N.shiftl (N.shiftr (Byte.to_N c) 6) 6) (Base64.sextet4 c)) = c.
Proof.
  refine (bool_decide_eq_true_1 _ (for_all_bytes
           (fun c => bool_decide
              (Py.byte_of_N (N.lor (N.shiftl (N.shiftr (Byte.to_N c) 6) 6)
                                   (Base64.sextet4 c)) = c)) _ c)).
  vm_compute. reflexivity.
Qed.

(** One step of the decoder on a character of the alphabet *)
Lemma a2b_loop_char quad_pos leftchar pads n rest :
  Aux.reads_back n = true ->
  Base64.a2b_loop quad_pos leftchar pads (Aux.seen n :: rest) =
    match quad_pos with
    | 0 => Base64.a2b_loop 1 n 0 rest
    | 1 => Base64.emit (Py.byte_of_N (N.lor (N.shiftl leftchar 2) (N.shiftr n 4)))
                       (Base64.a2b_loop 2 (N.land n 15) 0 rest)
    | 2 => Base64.emit (Py.byte_of_N (N.lor (N.shiftl leftchar 4) (N.shiftr n 2)))
                       (Base64.a2b_loop 3 (N.land n 3) 0 rest)
    | _ => Base64.emit (Py.byte_of_N (N.lor (N.shiftl leftchar 6) n))
                       (Base64.a2b_loop 0 0 0 rest)
    end.
Proof.
  unfold Aux.reads_back. intros [Hpad Hval]%andb_true_iff.
  apply negb_true_iff, bool_decide_eq_false_1 in Hpad.
  apply bool_decide_eq_true_1 in Hval.
  cbn [Base64.a2b_loop]. rewrite (bool_decide_eq_false_2 _ Hpad), Hval. done.
Qed.

Lemma decode_group a b c rest :
  Aux.decode_of (Base64.b2a_char (Base64.sextet1 a) :: Base64.b2a_char (Base64.sextet2 a b)
             :: Base64.b2a_char (Base64.sextet3 b c) :: Base64.b2a_char (Base64.sextet4 c)
             :: rest)
  = Base64.emit a (Base64.emit b (Base64.emit c (Aux.decode_of rest))).
Proof.
  unfold Aux.decode_of. cbn [List.map].
  change (Base64.urlsafe_decode_translation (Base64.urlsafe_encode_translation (Base64.b2a_char ?n)))
    with (Aux.seen n).
  rewrite (a2b_loop_char 0 _ _ _ _ (reads_back_1 a)).
  rewrite (a2b_loop_char 1 _ _ _ _ (reads_back_2 a b)), first_byte, second_left.
  rewrite (a2b_loop_char 2 _ _ _ _ (reads_back_3 b c)), second_byte, third_left.
  rewrite (a2b_loop_char 3 _ _ _ _ (reads_back_4 c)), third_byte.
  done.
Qed.

Lemma decode_one a :
  Aux.decode_of [Base64.b2a_char (Base64.sextet1 a);
             Base64.b2a_char (Base64.sextet2 a "000"%byte); Base64.PAD; Base64.PAD]
  = Ok [a].
Proof.
  unfold Aux.decode_of. cbn [List.map].
  change (Base64.urlsafe_decode_translation (Base64.urlsafe_encode_translation (Base64.b2a_char ?n)))
    with (Aux.seen n).
  rewrite (a2b_loop_char 0 _ _ _ _ (reads_back_1 a)).
  rewrite (a2b_loop_char 1 _ _ _ _ (reads_back_2 a _)), first_byte.
  reflexivity.
Qed.

Lemma decode_two a b :
  Aux.decode_of [Base64.b2a_char (Base64.sextet1 a); Base64.b2a_char (Base64.sextet2 a b);
             Base64.b2a_char (Base64.sextet3 b "000"%byte); Base64.PAD]
  = Ok [a; b].
Proof.
  unfold Aux.decode_of. cbn [List.map].
  change (Base64.urlsafe_decode_translation (Base64.urlsafe_encode_translation (Base64.b2a_char ?n)))
    with (Aux.seen n).
  rewrite (a2b_loop_char 0 _ _ _ _ (reads_back_1 a)).
  rewrite (a2b_loop_char 1 _ _ _ _ (reads_back_2 a b)), first_byte, second_left.
  rewrite (a2b_loop_char 2 _ _ _ _ (reads_back_3 b _)), second_byte.
  reflexivity.
Qed.

(** Decoding what was encoded gives the bytes back. *)
Lemma urlsafe_b64_round_trip (s : list byte) :
  Base64.urlsafe_b64decode (Base64.urlsafe_b64encode s) = Ok s.
Proof.
  change (Aux.decode_of (Base64.b2a_base64 s) = Ok s).
  cut (Aux.decode_of (Base64.b2a_base64 s) = Ok s
       /\ (forall a, Aux.decode_of (Base64.b2a_base64 (a :: s)) = Ok (a :: s))
       /\ (forall a b, Aux.decode_of (Base64.b2a_base64 (a :: b :: s)) = Ok (a :: b :: s))).
  { tauto. }
  induction s as [|c s (IH0 & IH1 & IH2)].
  - split; [done|]. split; intros; [apply decode_one|apply decode_two].
  - split; [apply IH1|]. split; [intros a; apply IH2|].
    intros a b. cbn [Base64.b2a_base64]. rewrite decode_group, IH0. done.
Qed.

(** ** The credential: derive and verify (hash.py) *)

(** Verifying against a credential just derived compares the key of the
    candidate with the key of the password, both under the salt drawn. *)
Lemma verify_hash_password (scrypt : Hash.kdf) (salt : list byte) (p q : string) :
  length salt = 16 ->
  Hash.verify_password scrypt (Hash.hash_password scrypt salt p) q
  = Ok (bool_decide (scrypt salt 32%N (2 ^ 14)%N 8%N 1%N (Py.encode_utf8 q)
                     = scrypt salt 32%N (2 ^ 14)%N 8%N 1%N (Py.encode_utf8 p))).
Proof.
  intros Hsalt. unfold Hash.verify_password, Hash.hash_password.
  rewrite urlsafe_b64_round_trip. simpl.
  rewrite take_app_length' by done. rewrite drop_app_length' by done. done.
Qed.

(** C5. A credential derived from a password verifies with that password;
    it does not verify with the password extended by the character x,
    provided the key derivation function, under the salt drawn, gives the
    two passwords different keys. *)
Theorem derive_verify_round_trip (scrypt : Hash.kdf) (salt : list byte) (p : string) :
  length salt = 16 ->
  scrypt salt 32%N (2 ^ 14)%N 8%N 1%N (Py.encode_utf8 (p +:+ "x"))
    <> scrypt salt 32%N (2 ^ 14)%N 8%N 1%N (Py.encode_utf8 p) ->
  Hash.verify_password scrypt (Hash.hash_password scrypt salt p) p = Ok true
  /\ Hash.verify_password scrypt (Hash.hash_password scrypt salt p) (p +:+ "x") = Ok false.
Proof.
  intros Hsalt Hkeys. rewrite !verify_hash_password by done. split.
  - by rewrite bool_decide_eq_true_2.
  - by rewrite bool_decide_eq_false_2.
Qed.

Lemma derive_verify_round_trip_witness :
  let salt := repeat "007"%byte 16 in
  Hash.verify_password Aux.toy_kdf (Hash.hash_password Aux.toy_kdf salt "abc") "abc" = Ok true
  /\ Hash.verify_password Aux.toy_kdf (Hash.hash_password Aux.toy_kdf salt "abc") "abcx" = Ok false.
Proof.
  apply (derive_verify_round_trip Aux.toy_kdf (repeat "007"%byte 16) "abc").
  - reflexivity.
  - vm_compute. discriminate.
Defined.

(** ** Paths *)

Lemma app_cons c (s t : string) : String c s +:+ t = String c (s +:+ t).
Proof. reflexivity. Qed.

Lemma app_empty_r (s : string) : s +:+ "" = s.
Proof. induction s as [|c s IH]; [done|]. by rewrite app_cons, IH. Qed.

Lemma app_assoc_str (s t u : string) : (s +:+ t) +:+ u = s +:+ (t +:+ u).
Proof. induction s as [|c s IH]; [done|]. by rewrite !app_cons, IH. Qed.

Lemma length_app_str (s t : string) :
  String.length (s +:+ t) = String.length s + String.length t.
Proof. induction s as [|c s IH]; [done|]. rewrite app_cons. simpl. by rewrite IH. Qed.


(** *** The last slash *)




Lemma split_last_slash_noslash (b : string) :
  Py.contains_char "/" b = false -> PosixPath.split_last_slash b = ("", b).
Proof.
  induction b as [|c b IH]; [done|].
  cbn [Py.contains_char PosixPath.split_last_slash].
  intros [Hc Hb]%orb_false_iff. rewrite (IH Hb).
  rewrite Ascii.eqb_sym in Hc. by rewrite Hc.
Qed.

Lemma split_last_slash_app (x b : string) :
  Py.contains_char "/" b = false ->
  PosixPath.split_last_slash (x +:+ String "/" b) = (x +:+ "/", b).
Proof.
  intros Hb. induction x as [|c x IH].
  - change ("" +:+ String "/" b) with (String "/" b). simpl.
    by rewrite (split_last_slash_noslash b Hb).
  - rewrite !app_cons. simpl. rewrite IH. by destruct x.
Qed.

(** *** Resolution *)

Lemma split_slash_nonnil (s : string) : Os.split_slash s <> [].
Proof.
  induction s as [|c s IH]; simpl; [done|].
  destruct (Ascii.eqb c "/"); [done|]. by destruct (Os.split_slash s).
Qed.

Lemma split_slash_app (a b : string) :
  Os.split_slash (a +:+ String "/" b) = Os.split_slash a ++ Os.split_slash b.
Proof.
  induction a as [|c a IH].
  - reflexivity.
  - rewrite app_cons. simpl. rewrite IH.
    destruct (Ascii.eqb c "/"); [done|].
    pose proof (split_slash_nonnil a). by destruct (Os.split_slash a).
Qed.

Lemma split_slash_noslash (b : string) :
  Py.contains_char "/" b = false -> Os.split_slash b = [b].
Proof.
  induction b as [|c b IH]; [done|].
  cbn [Py.contains_char Os.split_slash].
  intros [Hc Hb]%orb_false_iff. rewrite Ascii.eqb_sym in Hc.
  by rewrite Hc, (IH Hb).
Qed.

Lemma split_slash_slashes k :
  List.filter Os.is_component (Os.split_slash (Aux.slashes k)) = [].
Proof. induction k as [|k IH]; simpl; [done|]. exact IH. Qed.

Lemma startswith_slash_app (r s : string) :
  r <> "" -> Py.startswith (r +:+ s) "/" = Py.startswith r "/".
Proof.
  intros Hr. destruct r as [|c r]; [done|]. rewrite app_cons.
  unfold Py.startswith. cbn [String.prefix].
  destruct (ascii_dec "/" c); [|done]. by destruct (r +:+ s), r.
Qed.

Lemma resolve_app_slashes (r : string) k :
  r <> "" -> Os.resolve (r +:+ Aux.slashes k) = Os.resolve r.
Proof.
  intros Hr. unfold Os.resolve. rewrite (startswith_slash_app _ _ Hr). f_equal.
  destruct k as [|k]; simpl.
  - by rewrite app_empty_r.
  - rewrite split_slash_app, List.filter_app, split_slash_slashes.
    by rewrite app_nil_r.
Qed.

Lemma rstrip_slash_decomp (h : string) :
  exists k, h = Py.rstrip_slash h +:+ Aux.slashes k.
Proof.
  induction h as [|c h [k IH]]; simpl.
  - by exists 0.
  - destruct (Py.rstrip_slash h) as [|d r] eqn:Hr.
    + destruct (Ascii.eqb_spec c "/") as [->|_].
      * exists (S k). simpl. by rewrite IH at 1.
      * exists k. rewrite app_cons. by rewrite IH at 1.
    + exists k. rewrite app_cons. by rewrite IH at 1.
Qed.

Lemma resolve_strip_head (h : string) : Os.resolve (Aux.strip_head h) = Os.resolve h.
Proof.
  unfold Aux.strip_head. destruct (rstrip_slash_decomp h) as [k Hk].
  destruct (Py.rstrip_slash h) as [|d r] eqn:Hr; [done|].
  rewrite Hk. by rewrite resolve_app_slashes.
Qed.

Lemma strip_head_nonempty (h : string) : h <> "" -> Aux.strip_head h <> "".
Proof. unfold Aux.strip_head. by destruct (Py.rstrip_slash h). Qed.

Lemma endswith_slash_decomp (d : string) :
  Py.endswith_slash d = true -> exists x, d = x +:+ "/".
Proof.
  induction d as [|c d IH]; simpl; [done|].
  destruct d as [|c' d'].
  - intros ->%Ascii.eqb_eq. by exists "".
  - intros H. destruct (IH H) as [x Hx]. exists (String c x).
    by rewrite app_cons, <- Hx.
Qed.

Lemma startswith_slash_noslash (b : string) :
  Py.contains_char "/" b = false -> Py.startswith b "/" = false.
Proof.
  unfold Py.startswith. destruct b as [|c b]; [done|].
  cbn [Py.contains_char String.prefix].
  intros [Hc _]%orb_false_iff. apply Ascii.eqb_neq in Hc.
  by destruct (ascii_dec "/" c).
Qed.

(** Joining a slash-free name to a directory: the path is the directory,
    a slash and the name. *)
Lemma join_decomp (d b : string) :
  d <> "" -> Py.contains_char "/" b = false ->
  exists x, PosixPath.join d b = x +:+ String "/" b
            /\ Os.resolve (x +:+ "/") = Os.resolve d.
Proof.
  intros Hd Hb. unfold PosixPath.join.
  rewrite (startswith_slash_noslash b Hb).
  destruct (String.eqb_spec d "") as [|_]; [done|]. simpl.
  destruct (Py.endswith_slash d) eqn:Hend.
  - destruct (endswith_slash_decomp d Hend) as [x ->].
    exists x. split; [|done]. by rewrite app_assoc_str.
  - exists d. split; [done|]. by apply (resolve_app_slashes d 1).
Qed.

Lemma resolve_app_component (x b : string) :
  Py.contains_char "/" b = false -> Os.is_component b = true ->
  Os.resolve (x +:+ String "/" b) = Os.resolve (x +:+ "/") ++ [b].
Proof.
  intros Hb Hc. unfold Os.resolve.
  rewrite !split_slash_app, !List.filter_app, (split_slash_noslash b Hb).
  simpl. rewrite Hc.
  assert (Py.startswith (x +:+ String "/" b) "/" = Py.startswith (x +:+ "/") "/") as ->.
  { destruct x as [|c x]; [by destruct b|].
    rewrite !(startswith_slash_app (String c x)) by done. done. }
  by rewrite app_nil_r, app_assoc.
Qed.

Lemma resolve_join (d b : string) :
  d <> "" -> Py.contains_char "/" b = false -> Os.is_component b = true ->
  Os.resolve (PosixPath.join d b) = Os.resolve d ++ [b].
Proof.
  intros Hd Hb Hc. destruct (join_decomp d b Hd Hb) as (x & -> & <-).
  by apply resolve_app_component.
Qed.

Lemma dirname_join (d b : string) :
  d <> "" -> Py.contains_char "/" b = false ->
  PosixPath.dirname (PosixPath.join d b) <> ""
  /\ Os.resolve (PosixPath.dirname (PosixPath.join d b)) = Os.resolve d.
Proof.
  intros Hd Hb. destruct (join_decomp d b Hd Hb) as (x & -> & <-).
  unfold PosixPath.dirname. rewrite (split_last_slash_app x b Hb). simpl.
  change (match Py.rstrip_slash (x +:+ "/") with "" => x +:+ "/" | String a s => String a s end)
    with (Aux.strip_head (x +:+ "/")).
  split; [|apply resolve_strip_head].
  apply strip_head_nonempty. by destruct x.
Qed.

Lemma join_nonempty (d b : string) : d <> "" -> PosixPath.join d b <> "".
Proof.
  intros Hd. unfold PosixPath.join. destruct (Py.startswith b "/") eqn:Hb.
  - by destruct b.
  - destruct d; [done|]. by destruct (_ || _).
Qed.

(** ** The credential file (PasswordManager) *)

Lemma node_at_snoc (fs : Os.filesystem) (l : list string) (c : string) :
  c <> "/" -> Os.node_at fs (l ++ [c]) = fs !! (l ++ [c]).
Proof.
  intros Hc. unfold Os.node_at. rewrite bool_decide_eq_false_2; [done|].
  intros [H|H].
  - by destruct l.
  - destruct l as [|a [|b l]]; simplify_eq/=.
Qed.

Lemma path_isdir_node (fs : Os.filesystem) (p : string) :
  Os.path_isdir fs p = true -> p <> "" /\ Os.node_at fs (Os.resolve p) = Some Os.NDir.
Proof.
  unfold Os.path_isdir. destruct (String.eqb_spec p "") as [|Hp]; [done|]. simpl.
  by destruct (Os.node_at fs (Os.resolve p)) as [[|]|].
Qed.

(** Where the credential file of an item lies *)
Lemma password_file_path_resolve (item : Items.FileSystemItem) :
  Items.full_path item <> "" ->
  Py.contains_char "/" (Items.name item) = false ->
  let pf := Items.password_file_path item in
  pf <> ""
  /\ Os.resolve pf = Os.resolve (Items.full_path item) ++ ["content.bin"]
  /\ PosixPath.dirname pf <> ""
  /\ Os.resolve (PosixPath.dirname pf) = Os.resolve (Items.full_path item).
Proof.
  intros Hfp Hname pf. subst pf. unfold Items.password_file_path.
  destruct (dirname_join _ _ Hfp Hname) as [Hdir Hres].
  destruct (dirname_join _ "content.bin" Hdir eq_refl) as [Hpd Hpdres].
  split; [by apply join_nonempty|]. split; [|split; [done|]].
  - by rewrite resolve_join, Hres.
  - by rewrite Hpdres, Hres.
Qed.

(** C10. For a File item whose directory exists and whose credential file
    is absent or readable, [setup_password_for_item] without a password
    succeeds and stores the credential derived from the first three
    characters of the display name: loading it back gives that credential,
    and it verifies with those characters. *)
Theorem default_password_credential
  (scrypt : Hash.kdf) (fs : Os.filesystem) (salt : list byte)
  (item : Items.FileSystemItem) :
  Items.item_type item = Items.file ->
  Py.contains_char "/" (Items.name item) = false ->
  Os.path_isdir fs (Items.full_path item) = true ->
  (Os.path_exists fs (Items.password_file_path item) = false
   \/ exists old, Os.read_file fs (Items.password_file_path item) = Ok old) ->
  length salt = 16 ->
  let default_password := Py.slice_to 3 (Items.display_name item) in
  exists fs' blob,
    Items.setup_password_for_item scrypt fs salt item None
      = Ok (fs', Items.password_file_path item)
    /\ Items.load_password_hash fs' item = Some blob
    /\ blob = Hash.hash_password scrypt salt default_password
    /\ Hash.verify_password scrypt blob default_password = Ok true.
Proof.
  intros _ Hname Hdir Hcred Hsalt default_password.
  destruct (path_isdir_node _ _ Hdir) as [Hfp Hnode].
  destruct (password_file_path_resolve item Hfp Hname) as (Hpf & Hk & Hpd & Hkd).
  set (pf := Items.password_file_path item) in *.
  set (blob := Hash.hash_password scrypt salt default_password).
  assert (Hat : forall fs0 : Os.filesystem,
             Os.node_at fs0 (Os.resolve pf) = fs0 !! Os.resolve pf).
  { intros fs0. rewrite Hk. by apply node_at_snoc. }
  assert (Hold : fs !! Os.resolve pf = None
                 \/ exists old, fs !! Os.resolve pf = Some (Os.NFile true old)).
  { destruct Hcred as [Hno|[old Hold]].
    - left. unfold Os.path_exists in Hno. rewrite Hat in Hno.
      destruct (String.eqb_spec pf "") as [|_]; [done|]. simpl in Hno.
      apply bool_decide_eq_false_1 in Hno.
      destruct (fs !! Os.resolve pf); [|done]. exfalso. apply Hno. by eexists.
    - right. unfold Os.read_file in Hold. rewrite Hat in Hold.
      destruct (String.eqb_spec pf "") as [|_]; [done|].
      destruct (fs !! Os.resolve pf) as [[[|] data|]|]; try done.
      injection Hold as ->. by exists old. }
  exists (<[Os.resolve pf := Os.NFile true blob]> fs), blob.
  assert (Hparent : Os.node_at fs (Os.parent (Os.resolve pf)) = Some Os.NDir).
  { unfold Os.parent. by rewrite Hk, removelast_last. }
  split; [|split; [|split; [done|]]].
  - unfold Items.setup_password_for_item. fold pf. fold default_password. fold blob.
    assert (Os.path_exists fs (PosixPath.dirname pf) = true) as ->.
    { unfold Os.path_exists. rewrite Hkd, Hnode.
      destruct (String.eqb_spec (PosixPath.dirname pf) "") as [|_]; [done|]. simpl.
      first [done | apply bool_decide_eq_true_2; by eexists]. }
    simpl. unfold Hash.save_hashed_password, Os.write_file.
    destruct (String.eqb_spec pf "") as [|_]; [done|].
    rewrite Hparent, Hat.
    by destruct Hold as [->|[old ->]].
  - unfold Items.load_password_hash, Hash.load_hashed_password. fold pf.
    assert (Os.path_exists (<[Os.resolve pf := Os.NFile true blob]> fs) pf = true) as ->.
    { unfold Os.path_exists. rewrite Hat, lookup_insert_eq.
      destruct (String.eqb_spec pf "") as [|_]; [done|]. simpl.
      first [done | apply bool_decide_eq_true_2; by eexists]. }
    simpl. unfold Os.read_file.
    destruct (String.eqb_spec pf "") as [|_]; [done|].
    by rewrite Hat, lookup_insert_eq.
  - unfold blob. rewrite verify_hash_password by done.
    by rewrite bool_decide_eq_true_2.
Qed.

Lemma default_password_credential_witness :
  exists fs' blob,
    Items.setup_password_for_item Aux.toy_kdf Samples.store Samples.salt Samples.file_doc None
      = Ok (fs', "data/-__A/doc/content.bin")
    /\ Items.load_password_hash fs' Samples.file_doc = Some blob
    /\ blob = Hash.hash_password Aux.toy_kdf Samples.salt "doc"
    /\ Hash.verify_password Aux.toy_kdf blob "doc" = Ok true.
Proof.
  apply (default_password_credential Aux.toy_kdf Samples.store Samples.salt Samples.file_doc).
  - reflexivity.
  - reflexivity.
  - vm_compute. reflexivity.
  - left. vm_compute. reflexivity.
  - reflexivity.
Defined.

(** ** Opening a file behind its credential *)

(** A credential file that is there and whose load raises leaves
    [load_password_hash] with nothing, and the file is opened without the
    login window. *)
Lemma load_failure_opens_directly
  (history_items : list Dashboard.HistoryItem) (fs : Os.filesystem)
  (item : Items.FileSystemItem) (now : string) (e : exn) :
  Os.path_exists fs (Items.password_file_path item) = true ->
  Hash.load_hashed_password fs (Items.password_file_path item) = Raise e ->
  Dashboard.open_file_with_password_check history_items fs item now
  = Dashboard.OpenedWithoutPassword
      (Dashboard.add_file_to_history history_items item now).
Proof.
  intros Hex Hload. unfold Dashboard.open_file_with_password_check,
    Items.load_password_hash. by rewrite Hex, Hload.
Qed.

(** A credential that was loaded always leads to the login window, and the
    login succeeds only if the blob decodes and the key of the password
    entered is the key stored: a blob that does not parse opens nothing. *)
Lemma loaded_credential_needs_password
  (scrypt : Hash.kdf) (history_items : list Dashboard.HistoryItem)
  (fs : Os.filesystem) (item : Items.FileSystemItem) (now : string)
  (blob : list byte) :
  Items.load_password_hash fs item = Some blob ->
  Dashboard.open_file_with_password_check history_items fs item now
  = Dashboard.LoginWindowShown blob
  /\ forall entered,
       Dashboard.authenticate scrypt blob entered = true ->
       exists decoded,
         Base64.urlsafe_b64decode blob = Ok decoded
         /\ scrypt (take 16 decoded) 32%N (2 ^ 14)%N 8%N 1%N (Py.encode_utf8 entered)
            = drop 16 decoded.
Proof.
  intros Hload. split.
  - unfold Dashboard.open_file_with_password_check. by rewrite Hload.
  - intros entered. unfold Dashboard.authenticate, Hash.verify_password.
    destruct (Base64.urlsafe_b64decode blob) as [decoded|]; simpl; [|done].
    case_bool_decide; [|done]. intros _. by exists decoded.
Qed.

(** C2. The code at the failing input: the credential file of Diary exists,
    reading it raises, and the file is opened without the login window. *)
Theorem unreadable_credential_opens_without_password :
  Os.path_exists Samples.store (Items.password_file_path Samples.file_Diary) = true
  /\ Hash.load_hashed_password Samples.store
       (Items.password_file_path Samples.file_Diary) = Raise PermissionError
  /\ Dashboard.open_file_with_password_check [] Samples.store Samples.file_Diary
       "2024-05-02T09:00:00"
     = Dashboard.OpenedWithoutPassword
         [{| Dashboard.h_name := "Diary";
             Dashboard.h_full_path := "data/Diary";
             Dashboard.last_accessed := "2024-05-02T09:00:00" |}].
Proof. vm_compute. done. Qed.

(** ** Rename, move and delete *)

(** Without success the operations of [FileSystemManager] leave the file
    system as it was. *)
Lemma fs_operations_fail_clean (str_exn : exn -> string) (fs : Os.filesystem)
      (item : Items.FileSystemItem) (arg : string) :
  ((Dashboard.fs_rename_item str_exn fs item arg).2.1 = false ->
   (Dashboard.fs_rename_item str_exn fs item arg).1 = fs)
  /\ ((Dashboard.fs_move_item str_exn fs item arg).2.1 = false ->
      (Dashboard.fs_move_item str_exn fs item arg).1 = fs)
  /\ ((Dashboard.fs_delete_item str_exn fs item).2.1 = false ->
      (Dashboard.fs_delete_item str_exn fs item).1 = fs).
Proof.
  unfold Dashboard.fs_rename_item, Dashboard.fs_move_item, Dashboard.fs_delete_item.
  repeat split.
  - destruct (Os.path_exists _ _); [done|]. by destruct (Os.rename _ _ _).
  - destruct (Os.path_exists _ _); [done|]. by destruct (Os.move _ _ _).
  - by destruct (Os.rmtree _ _).
Qed.

(** *** Validation of names *)

Lemma contains_char_lstrip c s :
  Py.is_space c = false -> Py.contains_char c (Py.lstrip s) = Py.contains_char c s.
Proof.
  intros Hc. induction s as [|d s IH]; [done|].
  cbn [Py.lstrip]. destruct (Py.is_space d) eqn:Hd; [|done].
  rewrite IH. cbn [Py.contains_char].
  destruct (Ascii.eqb_spec c d) as [->|_]; [congruence|done].
Qed.

Lemma contains_char_rstrip c s :
  Py.is_space c = false -> Py.contains_char c (Py.rstrip s) = Py.contains_char c s.
Proof.
  intros Hc. induction s as [|d s IH]; [done|].
  cbn [Py.rstrip Py.contains_char]. rewrite <- IH.
  destruct (Py.rstrip s) as [|e r].
  - destruct (Py.is_space d) eqn:Hd; cbn [Py.contains_char]; [|done].
    destruct (Ascii.eqb_spec c d) as [->|_]; [congruence|done].
  - done.
Qed.

Lemma has_invalid_char_strip s :
  Dashboard.has_invalid_char (Py.strip s) = Dashboard.has_invalid_char s.
Proof.
  unfold Dashboard.has_invalid_char, Dashboard.invalid_chars, Py.strip.
  cbn [existsb].
  by rewrite !contains_char_rstrip, !contains_char_lstrip by reflexivity.
Qed.

(** C6, as the code has it. With [new_name] the text of the input field
    without the white space around it: an empty [new_name], and a text with
    one of the nine invalid characters whose [new_name] differs from the
    current display name, are refused with a warning; a [new_name] that is the
    current display name is answered with the information that nothing
    changed; a valid, changed name whose destination exists is refused with
    the collision message. In all four cases the file system and the two
    indexes stay as they were. *)
Theorem rename_rejections
  (str_exn : exn -> string) (self : Dashboard.MainWindow) (fs : Os.filesystem)
  (item : Items.FileSystemItem) (text : string) :
  let new_name := Py.strip text in
  let outcome := Dashboard.rename_item str_exn self fs item text in
  (new_name = "" ->
   outcome = (fs, self, Some (Dashboard.Warning "Error" "Please enter a name!")))
  /\ (Dashboard.has_invalid_char text = true ->
      new_name <> Items.display_name item ->
      outcome = (fs, self, Some (Dashboard.Warning "Error" "Name contains invalid characters!")))
  /\ (new_name <> "" ->
      new_name = Items.display_name item ->
      outcome = (fs, self, Some (Dashboard.Information "Info" "Name unchanged!")))
  /\ (new_name <> "" ->
      new_name <> Items.display_name item ->
      Dashboard.has_invalid_char text = false ->
      Os.path_exists fs (Dashboard.rename_destination item new_name) = true ->
      outcome = (fs, self,
                 Some (Dashboard.Critical "Error" "An item with this name already exists!"))).
Proof.
  intros new_name outcome. subst outcome.
  unfold Dashboard.rename_item, Dashboard.rename_accept_dialog. fold new_name.
  pose proof (has_invalid_char_strip text) as Hstrip. fold new_name in Hstrip.
  repeat split.
  - intros Hempty. by rewrite Hempty.
  - intros Hbad Hchanged. rewrite Hbad in Hstrip.
    destruct (String.eqb_spec new_name "") as [Hempty|_].
    { by rewrite Hempty in Hstrip. }
    destruct (String.eqb_spec new_name (Items.display_name item)); [done|].
    by rewrite Hstrip.
  - intros Hne Hsame.
    destruct (String.eqb_spec new_name "") as [|_]; [done|].
    by destruct (String.eqb_spec new_name (Items.display_name item)).
  - intros Hne Hchanged Hgood Hexists. rewrite Hgood in Hstrip.
    destruct (String.eqb_spec new_name "") as [|_]; [done|].
    destruct (String.eqb_spec new_name (Items.display_name item)); [done|].
    rewrite Hstrip. unfold Dashboard.fs_rename_item. by rewrite Hexists.
Qed.

(** *** Moving a folder into itself *)


Lemma basename_noslash (p : string) :
  Py.contains_char "/" (PosixPath.basename p) = false.
Proof.
  unfold PosixPath.basename. induction p as [|c p IH]; [done|].
  cbn [PosixPath.split_last_slash].
  destruct (PosixPath.split_last_slash p) as [[|d h] t]; simpl in IH |- *; [|done].
  destruct (Ascii.eqb_spec c "/") as [->|Hc]; [done|].
  cbn [snd Py.contains_char]. rewrite IH.
  by destruct (Ascii.eqb_spec "/" c) as [<-|_].
Qed.

Lemma is_prefix_app (k t r : list string) :
  Os.is_prefix k t = true -> Os.is_prefix k (t ++ r) = true.
Proof.
  revert t. induction k as [|c k IH]; intros [|d t]; simpl; try done.
  intros [-> Hk]%andb_true_iff. by rewrite IH.
Qed.

Lemma is_prefix_length (k t : list string) :
  Os.is_prefix k t = true -> length k <= length t.
Proof.
  revert t. induction k as [|c k IH]; intros [|d t]; simpl; try done; [lia|].
  intros [_ Hk]%andb_true_iff. apply IH in Hk. lia.
Qed.




(** [shutil.move] of a directory to a free path at or below itself
    raises. *)
Lemma move_below_itself_raises (fs : Os.filesystem) (src target : string) :
  Os.path_isdir fs src = true ->
  Os.is_component (PosixPath.basename src) = true ->
  target <> "" ->
  Os.is_prefix (Os.resolve src) (Os.resolve target) = true ->
  Os.path_exists fs (PosixPath.join target (PosixPath.basename src)) = false ->
  Os.move fs src (PosixPath.join target (PosixPath.basename src)) = Raise ShutilError.
Proof.
  intros Hdir Hcomp Htarget Hprefix Hex.
  destruct (path_isdir_node _ _ Hdir) as [Hsrc Hnode].
  set (new_path := PosixPath.join target _) in *.
  assert (Hkd : Os.resolve new_path = Os.resolve target ++ [PosixPath.basename src]).
  { apply resolve_join; [done|apply basename_noslash|done]. }
  unfold Os.move. rewrite Hex. unfold Os.rename.
  destruct (String.eqb_spec src "") as [|_]; [done|].
  destruct (String.eqb_spec new_path "") as [Hnp|_].
  { by apply join_nonempty in Hnp. }
  simpl. rewrite Hnode, Hkd.
  rewrite bool_decide_eq_false_2.
  - rewrite (is_prefix_app _ _ _ Hprefix). by rewrite Hdir.
  - intros Heq. apply is_prefix_length in Hprefix.
    rewrite Heq, length_app in Hprefix. simpl in Hprefix. lia.
Qed.


(** *** The same move at the level of [FileSystemManager] *)

(** Without the dialog, [FileSystemManager.move_item] does not check the
    target; for a folder moved to itself or below itself the move is stopped
    by [shutil.move] (or by the test for an existing destination), reported
    as a failure, and the file system is unchanged. *)
Lemma fs_move_item_into_itself_fails
  (str_exn : exn -> string) (fs : Os.filesystem) (item : Items.FileSystemItem)
  (target : string) :
  Os.path_isdir fs (Items.full_path item) = true ->
  Os.is_component (PosixPath.basename (Items.full_path item)) = true ->
  target <> "" ->
  Os.is_prefix (Os.resolve (Items.full_path item)) (Os.resolve target) = true ->
  (Dashboard.fs_move_item str_exn fs item target).1 = fs
  /\ (Dashboard.fs_move_item str_exn fs item target).2.1 = false.
Proof.
  intros Hdir Hcomp Htarget Hprefix.
  unfold Dashboard.fs_move_item, Dashboard.move_destination.
  destruct (Os.path_exists fs _) eqn:Hex; [done|].
  by rewrite (move_below_itself_raises _ _ _ Hdir Hcomp Htarget Hprefix Hex).
Qed.

(** ** The indexes after a rename, a move or a delete *)

Lemma history_update_record_other old_path new_path (r : Dashboard.HistoryItem) :
  Dashboard.h_full_path r <> old_path ->
  Dashboard.history_update_record old_path new_path r = r.
Proof.
  intros Hne. unfold Dashboard.history_update_record.
  by destruct (String.eqb_spec (Dashboard.h_full_path r) old_path).
Qed.

Lemma history_update_record_hit old_path new_path (r : Dashboard.HistoryItem) :
  Dashboard.h_full_path r = old_path ->
  Dashboard.h_full_path (Dashboard.history_update_record old_path new_path r) = new_path
  /\ Dashboard.last_accessed (Dashboard.history_update_record old_path new_path r)
     = Dashboard.last_accessed r
  /\ (Dashboard.h_name r = PosixPath.basename old_path ->
      Dashboard.h_name (Dashboard.history_update_record old_path new_path r)
      = PosixPath.basename new_path)
  /\ (Dashboard.h_name r <> PosixPath.basename old_path ->
      Dashboard.h_name (Dashboard.history_update_record old_path new_path r)
      = Dashboard.h_name r).
Proof.
  intros Heq. unfold Dashboard.history_update_record.
  destruct (String.eqb_spec (Dashboard.h_full_path r) old_path); [|done].
  by destruct (String.eqb_spec (Dashboard.h_name r) (PosixPath.basename old_path)).
Qed.

Lemma pin_update_record_other old_path new_path (r : Items.PinnedItem) :
  Items.p_full_path r <> old_path ->
  Dashboard.pin_update_record old_path new_path r = r.
Proof.
  intros Hne. unfold Dashboard.pin_update_record.
  by destruct (String.eqb_spec (Items.p_full_path r) old_path).
Qed.

Lemma pin_update_record_hit old_path new_path (r : Items.PinnedItem) :
  Items.p_full_path r = old_path ->
  Items.p_full_path (Dashboard.pin_update_record old_path new_path r) = new_path
  /\ Items.pinned_at (Dashboard.pin_update_record old_path new_path r)
     = Items.pinned_at r
  /\ (Items.p_name r = PosixPath.basename old_path ->
      Items.p_name (Dashboard.pin_update_record old_path new_path r)
      = PosixPath.basename new_path)
  /\ (Items.p_name r <> PosixPath.basename old_path ->
      Items.p_name (Dashboard.pin_update_record old_path new_path r)
      = Items.p_name r).
Proof.
  intros Heq. unfold Dashboard.pin_update_record.
  destruct (String.eqb_spec (Items.p_full_path r) old_path); [|done].
  by destruct (String.eqb_spec (Items.p_name r) (PosixPath.basename old_path)).
Qed.


(** A rename that ends without a message box went through the file system
    and updated the indexes for the new path. *)
Lemma rename_item_success str_exn self fs item text :
  let renamed := Dashboard.rename_item str_exn self fs item text in
  renamed.2 = None ->
  Os.rename fs (Items.full_path item)
            (Dashboard.rename_destination item (Py.strip text)) = Ok renamed.1.1
  /\ renamed.1.2 = Dashboard.update_indexes self item (Items.full_path item)
                     (Dashboard.rename_destination item (Py.strip text)).
Proof.
  unfold Dashboard.rename_item, Dashboard.rename_accept_dialog.
  destruct (Py.strip text =? "")%string; [done|].
  destruct (Py.strip text =? Items.display_name item)%string; [done|].
  destruct (Dashboard.has_invalid_char (Py.strip text)); [done|].
  unfold Dashboard.fs_rename_item.
  destruct (Os.path_exists fs _); [done|].
  by destruct (Os.rename fs _ _) as [fs1|e].
Qed.

Lemma move_item_success str_exn self fs item selected :
  let moved := Dashboard.move_item str_exn self fs item selected in
  moved.2 = None ->
  Os.move fs (Items.full_path item)
          (Dashboard.move_destination item (Dashboard.effective_selection selected))
    = Ok moved.1.1
  /\ moved.1.2 = Dashboard.update_indexes self item (Items.full_path item)
                   (Dashboard.move_destination item (Dashboard.effective_selection selected)).
Proof.
  unfold Dashboard.move_item, Dashboard.move_accept_dialog.
  destruct (_ =? _)%string; [done|].
  destruct (_ && _); [done|].
  unfold Dashboard.fs_move_item.
  destruct (Os.path_exists fs _); [done|].
  by destruct (Os.move fs _ _) as [fs1|e].
Qed.

(** C1, as the code has it. After a successful rename and after a
    successful move the history is the old history with [update_path]
    applied for the old and the new path of the item, and the pins are
    updated in the same way for a File item and left alone for a Folder
    item. [update_path] rewrites the records whose path is the old path
    itself: the path becomes the new path, the timestamp is kept, and the
    cached name becomes the last component of the new path when it was the
    last component of the old path and is kept otherwise. Every other
    record is returned as it was. *)
Theorem index_sync_after_rename_and_move
  (str_exn : exn -> string) (self : Dashboard.MainWindow) (fs : Os.filesystem)
  (item : Items.FileSystemItem) :
  let old_path := Items.full_path item in
  let synced new_path (w : Dashboard.MainWindow) :=
    Dashboard.history_manager w
    = List.map (Dashboard.history_update_record old_path new_path)
               (Dashboard.history_manager self)
    /\ Dashboard.pin_manager w
       = (if Items.is_file item
          then List.map (Dashboard.pin_update_record old_path new_path)
                        (Dashboard.pin_manager self)
          else Dashboard.pin_manager self) in
  (forall text,
      let renamed := Dashboard.rename_item str_exn self fs item text in
      renamed.2 = None ->
      Os.rename fs old_path (Dashboard.rename_destination item (Py.strip text))
        = Ok renamed.1.1
      /\ synced (Dashboard.rename_destination item (Py.strip text)) renamed.1.2)
  /\ (forall selected,
        let moved := Dashboard.move_item str_exn self fs item selected in
        moved.2 = None ->
        Os.move fs old_path
                (Dashboard.move_destination item (Dashboard.effective_selection selected))
          = Ok moved.1.1
        /\ synced (Dashboard.move_destination item (Dashboard.effective_selection selected))
                  moved.1.2)
  /\ forall new_path,
       (forall r, Dashboard.h_full_path r <> old_path ->
                  Dashboard.history_update_record old_path new_path r = r)
       /\ (forall r, Dashboard.h_full_path r = old_path ->
             Dashboard.h_full_path (Dashboard.history_update_record old_path new_path r)
             = new_path
             /\ Dashboard.last_accessed (Dashboard.history_update_record old_path new_path r)
                = Dashboard.last_accessed r
             /\ (Dashboard.h_name r = PosixPath.basename old_path ->
                 Dashboard.h_name (Dashboard.history_update_record old_path new_path r)
                 = PosixPath.basename new_path)
             /\ (Dashboard.h_name r <> PosixPath.basename old_path ->
                 Dashboard.h_name (Dashboard.history_update_record old_path new_path r)
                 = Dashboard.h_name r))
       /\ (forall r, Items.p_full_path r <> old_path ->
                     Dashboard.pin_update_record old_path new_path r = r)
       /\ (forall r, Items.p_full_path r = old_path ->
             Items.p_full_path (Dashboard.pin_update_record old_path new_path r) = new_path
             /\ Items.pinned_at (Dashboard.pin_update_record old_path new_path r)
                = Items.pinned_at r
             /\ (Items.p_name r = PosixPath.basename old_path ->
                 Items.p_name (Dashboard.pin_update_record old_path new_path r)
                 = PosixPath.basename new_path)
             /\ (Items.p_name r <> PosixPath.basename old_path ->
                 Items.p_name (Dashboard.pin_update_record old_path new_path r)
                 = Items.p_name r)).
Proof.
  intros old_path synced. split; [|split].
  - intros text renamed Hrename.
    apply rename_item_success in Hrename as [Hfs Hr].
    fold renamed in Hfs, Hr. unfold synced. by rewrite Hr.
  - intros selected moved Hmove.
    apply move_item_success in Hmove as [Hfs Hm].
    fold moved in Hfs, Hm. unfold synced. by rewrite Hm.
  - intros new_path. split; [|split; [|split]].
    + intros r. apply history_update_record_other.
    + intros r. apply history_update_record_hit.
    + intros r. apply pin_update_record_other.
    + intros r. apply pin_update_record_hit.
Qed.

(** A delete that was confirmed and ends without a message box removed
    the tree and the records of the path. *)
Lemma delete_item_success str_exn self fs item :
  let deleted := Dashboard.delete_item str_exn self fs item true in
  deleted.2 = None ->
  Os.rmtree fs (Items.full_path item) = Ok deleted.1.1
  /\ Dashboard.history_manager deleted.1.2
     = Dashboard.remove_item (Dashboard.history_manager self) (Items.full_path item)
  /\ Dashboard.pin_manager deleted.1.2
     = (if Items.is_file item
        then Items.unpin_file (Dashboard.pin_manager self) (Items.full_path item)
        else Dashboard.pin_manager self).
Proof.
  unfold Dashboard.delete_item, Dashboard.fs_delete_item.
  by destruct (Os.rmtree fs _) as [fs1|e].
Qed.

(** C3, as the code has it. After a successful delete the history holds
    the records it held before except those whose path is the path of the
    deleted item; for a File item the same is true of the pins, and for a
    Folder item the pins are left as they were. Records of other paths,
    those below a deleted folder among them, stay. *)
Theorem index_sync_after_delete
  (str_exn : exn -> string) (self : Dashboard.MainWindow) (fs : Os.filesystem)
  (item : Items.FileSystemItem) :
  let deleted := Dashboard.delete_item str_exn self fs item true in
  deleted.2 = None ->
  Os.rmtree fs (Items.full_path item) = Ok deleted.1.1
  /\ (forall r, r ∈ Dashboard.history_manager deleted.1.2 <->
                r ∈ Dashboard.history_manager self
                /\ Dashboard.h_full_path r <> Items.full_path item)
  /\ (Items.item_type item = Items.file ->
      forall r, r ∈ Dashboard.pin_manager deleted.1.2 <->
                r ∈ Dashboard.pin_manager self
                /\ Items.p_full_path r <> Items.full_path item)
  /\ (Items.item_type item = Items.folder ->
      Dashboard.pin_manager deleted.1.2 = Dashboard.pin_manager self).
Proof.
  intros deleted (Hfs & Hh & Hp)%delete_item_success. fold deleted in Hfs, Hh, Hp.
  split; [done|].
  rewrite Hh, Hp. unfold Items.is_file. split; [|split].
  - intros r. unfold Dashboard.remove_item.
    rewrite !list_elem_of_In, filter_In, negb_true_iff, String.eqb_neq. tauto.
  - intros ->. rewrite bool_decide_eq_true_2 by done.
    intros r. unfold Items.unpin_file.
    rewrite !list_elem_of_In, filter_In, negb_true_iff, String.eqb_neq. tauto.
  - intros ->. by rewrite bool_decide_eq_false_2.
Qed.

(** ** The statements at the sample store *)

(** C1, the claim as written fails: renaming the folder A succeeds and
    moves the file doc with it, and moving A into Notes does the same, yet
    the history record and the pin of doc, whose path lies inside the
    subtree, keep the old path. A pin that holds the path of the folder
    itself is not rewritten either, the history record of that path is. *)
Lemma folder_rename_keeps_subtree_records :
  let renamed := Dashboard.rename_item Samples.str_exn Samples.window Samples.store
                   Samples.folder_A "B" in
  let moved := Dashboard.move_item Samples.str_exn Samples.window Samples.store
                 Samples.folder_A (Some "data/-__Notes") in
  let pinned := Dashboard.rename_item Samples.str_exn Samples.window_with_folder_pin
                  Samples.store Samples.folder_A "B" in
  Py.startswith "data/-__A/doc" (Items.full_path Samples.folder_A +:+ "/") = true
  /\ renamed.2 = None
  /\ Os.path_exists renamed.1.1 "data/-__B/doc" = true
  /\ Os.path_exists renamed.1.1 "data/-__A/doc" = false
  /\ renamed.1.2 = Samples.window
  /\ moved.2 = None
  /\ Os.path_exists moved.1.1 "data/-__Notes/-__A/doc" = true
  /\ Os.path_exists moved.1.1 "data/-__A/doc" = false
  /\ moved.1.2 = Samples.window
  /\ pinned.2 = None
  /\ pinned.1.2 = Samples.window_with_folder_pin.
Proof. vm_compute. done. Qed.

Lemma index_sync_after_rename_and_move_witness :
  let renamed := Dashboard.rename_item Samples.str_exn Samples.window Samples.store
                   Samples.file_doc "doc2" in
  let moved := Dashboard.move_item Samples.str_exn Samples.window Samples.store
                 Samples.file_doc (Some "data") in
  Dashboard.history_manager renamed.1.2
  = [{| Dashboard.h_name := "doc2";
        Dashboard.h_full_path := "data/-__A/doc2";
        Dashboard.last_accessed := "2024-05-01T10:00:00" |}]
  /\ Dashboard.pin_manager moved.1.2
     = [{| Items.p_name := "doc";
           Items.p_full_path := "data/doc";
           Items.pinned_at := "2024-05-01T10:00:05" |}].
Proof.
  intros renamed moved.
  assert (Hr : renamed.2 = None) by (vm_compute; reflexivity).
  assert (Hm : moved.2 = None) by (vm_compute; reflexivity).
  pose proof (index_sync_after_rename_and_move
                Samples.str_exn Samples.window Samples.store Samples.file_doc)
    as (Hrename & Hmove & _).
  pose proof (Hrename "doc2" Hr) as (_ & Hhist & _).
  pose proof (Hmove (Some "data") Hm) as (_ & _ & Hpins).
  fold renamed in Hhist. fold moved in Hpins.
  rewrite Hhist, Hpins. vm_compute. done.
Defined.

(** C3, the claim as written fails: deleting the folder A succeeds and
    removes the file doc with it, yet the history record and the pin of doc,
    whose path lies under the deleted subtree, are still there. A pin that
    holds the path of the folder itself stays as well. *)
Lemma folder_delete_keeps_subtree_records :
  let deleted := Dashboard.delete_item Samples.str_exn Samples.window Samples.store
                   Samples.folder_A true in
  let pinned := Dashboard.delete_item Samples.str_exn Samples.window_with_folder_pin
                  Samples.store Samples.folder_A true in
  Py.startswith "data/-__A/doc" (Items.full_path Samples.folder_A +:+ "/") = true
  /\ deleted.2 = None
  /\ Os.path_exists deleted.1.1 "data/-__A" = false
  /\ Os.path_exists deleted.1.1 "data/-__A/doc" = false
  /\ deleted.1.2 = Samples.window
  /\ pinned.2 = None
  /\ pinned.1.2 = Samples.window_with_folder_pin.
Proof. vm_compute. done. Qed.

Lemma index_sync_after_delete_witness :
  let deleted := Dashboard.delete_item Samples.str_exn Samples.window Samples.store
                   Samples.file_doc true in
  Os.rmtree Samples.store (Items.full_path Samples.file_doc) = Ok deleted.1.1
  /\ Dashboard.history_manager deleted.1.2 = []
  /\ Dashboard.pin_manager deleted.1.2 = [].
Proof.
  intros deleted.
  assert (H : deleted.2 = None) by (vm_compute; reflexivity).
  pose proof (index_sync_after_delete
                Samples.str_exn Samples.window Samples.store Samples.file_doc H) as Hall.
  split; [exact (proj1 Hall)|]. vm_compute. done.
Defined.



(** C6, the claim as written fails: the destination of the name Notes for
    the folder Notes exists, and the rename answers that the name is
    unchanged, not that an item of this name exists; the name of the folder
    [folder_odd] holds an invalid character, and renaming it to that name is
    answered in the same way, not with the warning. *)
Lemma rename_to_current_name_is_unchanged :
  let same := Dashboard.rename_item Samples.str_exn Samples.window Samples.store
                Samples.folder_Notes "Notes" in
  let odd := Dashboard.rename_item Samples.str_exn Samples.window Samples.store
               Samples.folder_odd "a:b" in
  Os.path_exists Samples.store (Dashboard.rename_destination Samples.folder_Notes "Notes") = true
  /\ same.2 = Some (Dashboard.Information "Info" "Name unchanged!")
  /\ same.2 <> Some (Dashboard.Critical "Error" "An item with this name already exists!")
  /\ Dashboard.has_invalid_char "a:b" = true
  /\ odd.2 = Some (Dashboard.Information "Info" "Name unchanged!")
  /\ odd.2 <> Some (Dashboard.Warning "Error" "Name contains invalid characters!").
Proof.
  intros same odd.
  assert (Hsame : same.2 = Some (Dashboard.Information "Info" "Name unchanged!"))
    by (vm_compute; reflexivity).
  assert (Hodd : odd.2 = Some (Dashboard.Information "Info" "Name unchanged!"))
    by (vm_compute; reflexivity).
  rewrite Hsame, Hodd. repeat split; try discriminate; vm_compute; reflexivity.
Qed.

Lemma rename_rejections_witness :
  let rename := Dashboard.rename_item Samples.str_exn Samples.window Samples.store in
  rename Samples.folder_A ""
  = (Samples.store, Samples.window,
     Some (Dashboard.Warning "Error" "Please enter a name!"))
  /\ rename Samples.folder_A "a/b"
     = (Samples.store, Samples.window,
        Some (Dashboard.Warning "Error" "Name contains invalid characters!"))
  /\ rename Samples.folder_Notes " Notes "
     = (Samples.store, Samples.window,
        Some (Dashboard.Information "Info" "Name unchanged!"))
  /\ rename Samples.folder_A "Notes"
     = (Samples.store, Samples.window,
        Some (Dashboard.Critical "Error" "An item with this name already exists!")).
Proof.
  intros rename. subst rename. split; [|split; [|split]].
  - apply (rename_rejections Samples.str_exn Samples.window Samples.store
             Samples.folder_A ""). reflexivity.
  - apply (rename_rejections Samples.str_exn Samples.window Samples.store
             Samples.folder_A "a/b"); [reflexivity | vm_compute; discriminate].
  - apply (rename_rejections Samples.str_exn Samples.window Samples.store
             Samples.folder_Notes " Notes "); [vm_compute; discriminate | reflexivity].
  - apply (rename_rejections Samples.str_exn Samples.window Samples.store
             Samples.folder_A "Notes");
      [vm_compute; discriminate | vm_compute; discriminate | reflexivity
      | vm_compute; reflexivity].
Defined.

Lemma index_bounds_witness :
  length (Items.touch_all [] [(Samples.file_doc, "2024-05-01T11:00:01")]) <= 50
  /\ length (Items.add_file_to_history Samples.history50 Samples.file_Diary
               "2024-05-01T11:00:00") = 50
  /\ length (Items.pin_all [] [(Samples.file_Diary, "2024-05-01T11:00:00");
                               (Samples.file_doc, "2024-05-01T11:00:01")]) <= 20.
Proof.
  destruct index_bounds as (Htouch & Hevict & Hpin).
  split; [|split].
  - apply Htouch. simpl. lia.
  - apply Hevict.
    + reflexivity.
    + apply Forall_forall. vm_compute.
      repeat (constructor; [discriminate|]). constructor.
  - apply Hpin. simpl. lia.
Defined.

Lemma scan_directory_sorted_witness :
  Items.scan_directory Items.init_manager Samples.store "nowhere"
  = Ok ([], Items.init_manager)
  /\ exists items self',
       Items.scan_directory Items.init_manager Samples.store "data/" = Ok (items, self')
       /\ forall i j x y, i < j -> items !! i = Some x -> items !! j = Some y ->
            Items.item_type x = Items.file -> Items.item_type y = Items.file.
Proof.
  destruct (scan_directory_sorted Items.init_manager Samples.store "nowhere") as [Hno _].
  destruct (scan_directory_sorted Items.init_manager Samples.store "data/") as [_ Hdir].
  split.
  - apply Hno. vm_compute. reflexivity.
  - destruct Hdir as (entries & items & self' & _ & _ & Hscan & _ & Hsorted).
    + vm_compute. reflexivity.
    + exists items, self'. split; [exact Hscan|].
      intros i j x y Hij Hi Hj. exact (proj1 (Hsorted i j x y Hij Hi Hj)).
Defined.

(** * Further properties of the code *)

(** ** The history and the pins as upsert lists *)

Lemma string_ltb_leb (a b : string) :
  String.ltb a b = true -> String.leb a b = true /\ String.leb b a = false.
Proof.
  unfold String.ltb, String.leb. rewrite (String.compare_antisym a b).
  by destruct (String.compare b a).
Qed.

(** A list in which one element has a key above all others: the sort puts
    that element first and sorts the rest. *)
Lemma sort_desc_greatest_first {A} (key : A -> string) (l1 l2 : list A) (x : A) :
  (forall y, y ∈ l1 ++ l2 -> String.ltb (key y) (key x) = true) ->
  Py.sort_desc key (l1 ++ x :: l2) = x :: Py.sort_desc key (l1 ++ l2).
Proof.
  intros Hlt. induction l1 as [|a l1 IH].
  - simpl. unfold Py.sort_desc, Py.stable_sort. simpl.
    fold (Py.stable_sort (fun u v => String.leb (key v) (key u)) l2).
    pose proof (stable_sort_perm (fun u v => String.leb (key v) (key u)) l2) as Hp.
    destruct (Py.stable_sort _ l2) as [|y s] eqn:Hs; [done|]. simpl.
    assert (Hy : y ∈ l2) by (rewrite <- Hp; left).
    destruct (string_ltb_leb _ _ (Hlt y Hy)) as [-> _]. done.
  - unfold Py.sort_desc, Py.stable_sort in *. simpl.
    rewrite IH by (intros y Hy; apply Hlt; by right). simpl.
    destruct (string_ltb_leb _ _ (Hlt a ltac:(left))) as [_ ->]. done.
Qed.


(** The loop of [add_file_to_history] either finds no record of the path
    or updates the first one, in place. *)
Lemma items_touch_existing_cases (h : list Items.HistoryItem) (path now : string) :
  (Items.touch_existing h path now = None
   /\ forall r, r ∈ h -> Items.h_full_path r <> path)
  \/ exists l1 r l2,
       h = l1 ++ r :: l2
       /\ Items.h_full_path r = path
       /\ (forall x, x ∈ l1 -> Items.h_full_path x <> path)
       /\ Items.touch_existing h path now = Some (l1 ++ Extra.items_bump now r :: l2).
Proof.
  induction h as [|a h IH]; simpl.
  - left. split; [done|]. intros r Hr. by apply elem_of_nil in Hr.
  - destruct (String.eqb_spec (Items.h_full_path a) path) as [Ha|Ha].
    + right. exists [], a, h. repeat split; [done|].
      intros x Hx. by apply elem_of_nil in Hx.
    + destruct IH as [[-> Hfresh]|(l1 & r & l2 & -> & Hr & Hl1 & ->)].
      * left. split; [done|]. intros r [->|Hr]%elem_of_cons; auto.
      * right. exists (a :: l1), r, l2. repeat split; [done|].
        intros x [->|Hx]%elem_of_cons; auto.
Qed.

Lemma dashboard_touch_existing_cases (h : list Dashboard.HistoryItem) (path now : string) :
  (Dashboard.touch_existing h path now = None
   /\ forall r, r ∈ h -> Dashboard.h_full_path r <> path)
  \/ exists l1 r l2,
       h = l1 ++ r :: l2
       /\ Dashboard.h_full_path r = path
       /\ (forall x, x ∈ l1 -> Dashboard.h_full_path x <> path)
       /\ Dashboard.touch_existing h path now
          = Some (l1 ++ Extra.dashboard_bump now r :: l2).
Proof.
  induction h as [|a h IH]; simpl.
  - left. split; [done|]. intros r Hr. by apply elem_of_nil in Hr.
  - destruct (String.eqb_spec (Dashboard.h_full_path a) path) as [Ha|Ha].
    + right. exists [], a, h. repeat split; [done|].
      intros x Hx. by apply elem_of_nil in Hx.
    + destruct IH as [[-> Hfresh]|(l1 & r & l2 & -> & Hr & Hl1 & ->)].
      * left. split; [done|]. intros r [->|Hr]%elem_of_cons; auto.
      * right. exists (a :: l1), r, l2. repeat split; [done|].
        intros x [->|Hx]%elem_of_cons; auto.
Qed.

Lemma filter_none {A} (f : A -> bool) (l : list A) :
  (forall x, x ∈ l -> f x = false) -> List.filter f l = [].
Proof.
  induction l as [|a l IH]; intros H; simpl; [done|].
  rewrite (H a) by left. apply IH. intros x Hx. apply H. by right.
Qed.

Lemma filter_perm {A} (f : A -> bool) (l l' : list A) :
  l ≡ₚ l' -> List.filter f l ≡ₚ List.filter f l'.
Proof.
  induction 1 as [|x l l' _ IH|x y l|l l' l'' _ IH1 _ IH2]; simpl.
  - done.
  - destruct (f x); by rewrite IH.
  - destruct (f x), (f y); try done. apply Permutation_swap.
  - by rewrite IH1.
Qed.

(** One touch, seen through the records of a path [p]: the other paths keep
    their records, and of [p] there is the record touched. *)
Lemma items_add_file_to_history_records h item now :
  length h < 50 \/ (length h <= 50 /\ exists r, r ∈ h /\ Items.h_full_path r = Items.full_path item) ->
  let p := Items.full_path item in
  let h' := Items.add_file_to_history h item now in
  h' ≡ₚ match Items.touch_existing h p now with
        | Some updated => updated
        | None => h ++ [{| Items.h_name := Items.display_name item;
                           Items.h_full_path := p;
                           Items.last_accessed := now;
                           Items.access_count := 1 |}]
        end.
Proof.
  intros Hlen p h'. subst h'. unfold Items.add_file_to_history. fold p.
  set (updated := match Items.touch_existing h p now with Some u => u | None => _ end).
  assert (Hu : length updated <= 50).
  { subst updated.
    destruct (items_touch_existing_cases h p now)
      as [[-> Hfresh]|(l1 & r & l2 & Hh & Hr & _ & ->)].
    - rewrite length_app. simpl.
      destruct Hlen as [?|[_ (r & Hr & Hp)]]; [lia|]. by apply Hfresh in Hr.
    - rewrite Hh in Hlen. rewrite !length_app in *. simpl in *. lia. }
  rewrite take_ge by (by rewrite sort_desc_length).
  apply sort_desc_perm.
Qed.

Lemma items_at_bump p now r :
  Extra.items_at p (Extra.items_bump now r) = Extra.items_at p r.
Proof. done. Qed.

(** The record of the touched path after one touch *)
Lemma items_touch_record h item now :
  let p := Items.full_path item in
  length (List.filter (Extra.items_at p) h) <= 1 ->
  length h < 50 \/ (length h <= 50 /\ List.filter (Extra.items_at p) h <> []) ->
  let h' := Items.add_file_to_history h item now in
  exists x,
    List.filter (Extra.items_at p) h' = [x]
    /\ Items.last_accessed x = now
    /\ (List.filter (Extra.items_at p) h = [] ->
        Items.access_count x = 1 /\ length h' = S (length h))
    /\ (forall r, List.filter (Extra.items_at p) h = [r] ->
        Items.access_count x = Items.access_count r + 1 /\ length h' = length h).
Proof.
  intros p Hone Hlen h'.
  assert (Hperm : h' ≡ₚ match Items.touch_existing h p now with
                        | Some updated => updated
                        | None => h ++ [{| Items.h_name := Items.display_name item;
                                           Items.h_full_path := p;
                                           Items.last_accessed := now;
                                           Items.access_count := 1 |}]
                        end).
  { apply items_add_file_to_history_records.
    destruct Hlen as [?|[? Hne]]; [by left|right]. split; [done|].
    destruct (List.filter (Extra.items_at p) h) as [|r t] eqn:Hf; [done|].
    exists r. assert (Hr : In r (List.filter (Extra.items_at p) h)) by (rewrite Hf; by left).
    apply filter_In in Hr as [Hr Hp]. split; [by apply list_elem_of_In|].
    by apply String.eqb_eq in Hp. }
  destruct (items_touch_existing_cases h p now)
    as [[Hnone Hfresh]|(l1 & r & l2 & Hh & Hr & Hl1 & Hsome)].
  - rewrite Hnone in Hperm.
    assert (Hf : List.filter (Extra.items_at p) h = []).
    { apply filter_none. intros x Hx. apply String.eqb_neq. by apply Hfresh. }
    eexists. split; [|split; [|split]].
    + apply Permutation_singleton_r.
      rewrite (filter_perm _ _ _ Hperm), List.filter_app, Hf. simpl.
      unfold Extra.items_at at 1. simpl. by rewrite String.eqb_refl.
    + done.
    + intros _. split; [done|]. rewrite Hperm, length_app. simpl. lia.
    + intros r0 Hr0. by rewrite Hf in Hr0.
  - rewrite Hsome in Hperm.
    assert (Hf1 : List.filter (Extra.items_at p) l1 = []).
    { apply filter_none. intros x Hx. apply String.eqb_neq. by apply Hl1. }
    assert (Hrp : Extra.items_at p r = true) by (by apply String.eqb_eq).
    assert (Hf : List.filter (Extra.items_at p) h = r :: List.filter (Extra.items_at p) l2).
    { rewrite Hh, List.filter_app, Hf1. simpl. by rewrite Hrp. }
    rewrite Hf in Hone. simpl in Hone.
    destruct (List.filter (Extra.items_at p) l2) as [|? ?] eqn:Hf2; [|simpl in Hone; lia].
    exists (Extra.items_bump now r). split; [|split; [|split]].
    + apply Permutation_singleton_r.
      rewrite (filter_perm _ _ _ Hperm), List.filter_app, Hf1. simpl.
      by rewrite items_at_bump, Hrp, Hf2.
    + done.
    + intros Hempty. by rewrite Hf in Hempty.
    + intros r0 Hr0. rewrite Hf in Hr0. injection Hr0 as <-. split; [done|].
      rewrite Hperm, Hh, !length_app. done.
Qed.

(** X1. Touching a file twice leaves one record of its path, with the time
    of the second touch and, for a path that was new, an access count of 2;
    the second touch adds no record. *)
Theorem touch_twice_one_record
  (h : list Items.HistoryItem) (item : Items.FileSystemItem) (t1 t2 : string) :
  let p := Items.full_path item in
  length (List.filter (Extra.items_at p) h) <= 1 ->
  length h < 50 ->
  let h1 := Items.add_file_to_history h item t1 in
  let h2 := Items.add_file_to_history h1 item t2 in
  length h2 = length h1
  /\ exists r,
       List.filter (Extra.items_at p) h2 = [r]
       /\ Items.last_accessed r = t2
       /\ (List.filter (Extra.items_at p) h = [] -> Items.access_count r = 2).
Proof.
  intros p Hone Hlen h1 h2.
  destruct (items_touch_record h item t1 Hone (or_introl Hlen))
    as (x & Hx & _ & Hnew & _).
  fold p h1 in Hx, Hnew.
  assert (Hb : length h1 <= 50) by apply add_file_to_history_bound.
  destruct (items_touch_record h1 item t2) as (y & Hy & Hty & _ & Hold).
  { fold p. rewrite Hx. simpl. lia. }
  { right. split; [done|]. fold p. by rewrite Hx. }
  fold p h2 in Hy, Hold. destruct (Hold x Hx) as [Hcount Hlen2].
  split; [done|]. exists y. split; [done|]. split; [done|].
  intros Hfresh. destruct (Hnew Hfresh) as [Hc _]. lia.
Qed.

Lemma touch_twice_one_record_witness :
  let h2 := Items.add_file_to_history
              (Items.add_file_to_history [] Samples.file_Diary "2024-05-01T11:00:00")
              Samples.file_Diary "2024-05-01T12:00:00" in
  length h2 = 1
  /\ exists r, List.filter (Extra.items_at "data/Diary") h2 = [r]
               /\ Items.last_accessed r = "2024-05-01T12:00:00"
               /\ (@nil Items.HistoryItem = [] -> Items.access_count r = 2).
Proof.
  apply (touch_twice_one_record [] Samples.file_Diary
           "2024-05-01T11:00:00" "2024-05-01T12:00:00"); simpl; lia.
Defined.

(** X2. When the clock is ahead of every recorded time, the file opened
    last is the first record of the history, stamped with the time of the
    call, whether the path was recorded before or not. *)
Theorem touched_file_is_first
  (h : list Dashboard.HistoryItem) (item : Items.FileSystemItem) (now : string) :
  (forall r, r ∈ h -> String.ltb (Dashboard.last_accessed r) now = true) ->
  exists r rest,
    Dashboard.add_file_to_history h item now = r :: rest
    /\ Dashboard.h_full_path r = Items.full_path item
    /\ Dashboard.last_accessed r = now.
Proof.
  intros Hnow. unfold Dashboard.add_file_to_history.
  destruct (dashboard_touch_existing_cases h (Items.full_path item) now)
    as [[-> _]|(l1 & r & l2 & Hh & Hr & _ & ->)].
  - rewrite (sort_desc_greatest_first Dashboard.last_accessed h []).
    + simpl. eexists _, _. split; [done|]. done.
    + intros y Hy. rewrite app_nil_r in Hy. by apply Hnow.
  - rewrite (sort_desc_greatest_first Dashboard.last_accessed l1 l2).
    + simpl. eexists _, _. split; [done|]. done.
    + intros y Hy. simpl. apply Hnow. rewrite Hh.
      apply elem_of_app in Hy as [Hy|Hy]; apply elem_of_app; [by left|right; by right].
Qed.

Lemma touched_file_is_first_witness :
  exists r rest,
    Dashboard.add_file_to_history (Dashboard.history_manager Samples.window)
                                  Samples.file_Diary "2024-05-01T11:00:00"
    = r :: rest
    /\ Dashboard.h_full_path r = "data/Diary"
    /\ Dashboard.last_accessed r = "2024-05-01T11:00:00".
Proof.
  apply (touched_file_is_first (Dashboard.history_manager Samples.window)
           Samples.file_Diary "2024-05-01T11:00:00").
  intros r Hr. apply list_elem_of_singleton in Hr as ->. reflexivity.
Defined.

(** ** The order of the history *)

Lemma StronglySorted_take_keep {A} (R : A -> A -> Prop) (l : list A) n :
  StronglySorted R l -> StronglySorted R (take n l).
Proof.
  intros Hs. revert n. induction Hs as [|a l Hs IH Hall]; intros [|n]; simpl;
    try constructor.
  - apply IH.
  - rewrite List.Forall_forall in *. intros x Hx. apply Hall.
    apply list_elem_of_In. apply list_elem_of_In in Hx.
    apply (subseteq_take n l x Hx).
Qed.

Lemma StronglySorted_filter_keep {A} (R : A -> A -> Prop) (f : A -> bool) (l : list A) :
  StronglySorted R l -> StronglySorted R (List.filter f l).
Proof.
  induction 1 as [|a l Hs IH Hall]; simpl; [constructor|].
  destruct (f a); [|done]. constructor; [done|].
  rewrite List.Forall_forall in *. intros x [Hx _]%filter_In. by apply Hall.
Qed.

Lemma StronglySorted_map_keys {A} (key : A -> string) (g : A -> A) (l : list A) :
  (forall x, key (g x) = key x) ->
  StronglySorted (fun u v => String.leb (key v) (key u) = true) l ->
  StronglySorted (fun u v => String.leb (key v) (key u) = true) (List.map g l).
Proof.
  intros Hg. induction 1 as [|a l Hs IH Hall]; simpl; constructor; [done|].
  rewrite List.Forall_forall in *. intros x (y & <- & Hy)%in_map_iff.
  rewrite !Hg. by apply Hall.
Qed.

Lemma history_update_record_time old_path new_path r :
  Dashboard.last_accessed (Dashboard.history_update_record old_path new_path r)
  = Dashboard.last_accessed r.
Proof.
  unfold Dashboard.history_update_record.
  by destruct (String.eqb (Dashboard.h_full_path r) old_path).
Qed.

(** Every call of the history manager keeps the list in the order of the
    times, most recent first. *)
Lemma history_run_sorted data calls :
  StronglySorted
    (fun u v => String.leb (Dashboard.last_accessed v) (Dashboard.last_accessed u) = true)
    (History.run (History.load_history data) calls).
Proof.
  unfold History.run.
  assert (Hinit : StronglySorted
    (fun u v => String.leb (Dashboard.last_accessed v) (Dashboard.last_accessed u) = true)
    (History.load_history data)).
  { destruct data as [records|]; simpl; [apply sort_desc_StronglySorted|constructor]. }
  revert Hinit. generalize (History.load_history data) as h.
  induction calls as [|c calls IH]; intros h Hh; simpl; [done|].
  apply IH. destruct c as [item now|path|old new|]; simpl.
  - unfold Dashboard.add_file_to_history.
    apply StronglySorted_take_keep, sort_desc_StronglySorted.
  - by apply StronglySorted_filter_keep.
  - apply StronglySorted_map_keys; [apply history_update_record_time|done].
  - constructor.
Qed.

(** X3. Whatever the history file held and whatever calls were made since
    it was loaded, the records that [get_recent_files] returns are the most
    recent ones: no record it leaves out has a later time than one it
    returns. *)
Theorem recent_files_are_most_recent
  (data : option (list Dashboard.HistoryItem)) (calls : list History.call)
  (limit : nat) (x y : Dashboard.HistoryItem) :
  let history_items := History.run (History.load_history data) calls in
  x ∈ History.get_recent_files history_items limit ->
  y ∈ drop limit history_items ->
  String.leb (Dashboard.last_accessed y) (Dashboard.last_accessed x) = true.
Proof.
  intros h Hx Hy. pose proof (history_run_sorted data calls) as Hs. fold h in Hs.
  unfold History.get_recent_files in Hx.
  apply list_elem_of_lookup in Hx as [i Hi], Hy as [j Hj].
  rewrite lookup_drop in Hj.
  assert (Hil : i < limit).
  { apply lookup_lt_Some in Hi. rewrite length_take in Hi. lia. }
  rewrite lookup_take_lt in Hi by done.
  apply (StronglySorted_lookup _ h i (limit + j) x y Hs); [lia|done..].
Qed.

Lemma recent_files_are_most_recent_witness :
  String.leb
    (Dashboard.last_accessed {| Dashboard.h_name := "doc";
                                Dashboard.h_full_path := "data/-__A/doc";
                                Dashboard.last_accessed := "2024-05-01T10:00:00" |})
    (Dashboard.last_accessed {| Dashboard.h_name := "Diary";
                                Dashboard.h_full_path := "data/Diary";
                                Dashboard.last_accessed := "2024-05-01T12:00:00" |})
  = true.
Proof.
  apply (recent_files_are_most_recent
           (Some (Dashboard.history_manager Samples.window))
           [History.AddFileToHistory Samples.file_Diary "2024-05-01T12:00:00"] 1).
  - vm_compute. apply list_elem_of_here.
  - vm_compute. apply list_elem_of_here.
Defined.

(** ** Pinning and unpinning *)

Lemma stable_sort_sorted_id {A} (before : A -> A -> bool) (l : list A) :
  StronglySorted (fun u v => before u v = true) l -> Py.stable_sort before l = l.
Proof.
  unfold Py.stable_sort. induction 1 as [|a l Hs IH Hall]; simpl; [done|].
  rewrite IH. destruct l as [|b l]; [done|]. simpl.
  apply Forall_inv in Hall. by rewrite Hall.
Qed.

Lemma filter_all {A} (f : A -> bool) (l : list A) :
  (forall x, x ∈ l -> f x = true) -> List.filter f l = l.
Proof.
  induction l as [|a l IH]; intros H; simpl; [done|].
  rewrite (H a) by left. rewrite IH; [done|]. intros x Hx. apply H. by right.
Qed.

Lemma is_pinned_false pins path :
  Items.is_pinned pins path = false <->
  forall r, r ∈ pins -> Items.p_full_path r <> path.
Proof.
  unfold Items.is_pinned. induction pins as [|a pins IH]; simpl.
  - split; [|done]. intros _ r Hr. by apply elem_of_nil in Hr.
  - rewrite orb_false_iff, IH. split.
    + intros [Ha Hp] r [->|Hr]%elem_of_cons; [by apply String.eqb_neq|by apply Hp].
    + intros H. split.
      * apply String.eqb_neq, H. left.
      * intros r Hr. apply H. by right.
Qed.

(** X4. Pinning a file that is not pinned, at a time later than every pin,
    succeeds and puts the pin first; unpinning it again gives back the
    first nineteen of the pins there were. With fewer than twenty pins the
    list is as before; with twenty the oldest pin is gone for good. *)
Theorem pin_then_unpin
  (pins : list Items.PinnedItem) (item : Items.FileSystemItem) (now : string) :
  StronglySorted
    (fun u v => String.leb (Items.pinned_at v) (Items.pinned_at u) = true) pins ->
  Items.is_pinned pins (Items.full_path item) = false ->
  (forall r, r ∈ pins -> String.ltb (Items.pinned_at r) now = true) ->
  let pinned := Items.pin_file_item pins item now in
  pinned.2 = true
  /\ pinned.1 = {| Items.p_name := Items.display_name item;
                   Items.p_full_path := Items.full_path item;
                   Items.pinned_at := now |} :: take 19 pins
  /\ Items.is_pinned pinned.1 (Items.full_path item) = true
  /\ Items.unpin_file pinned.1 (Items.full_path item) = take 19 pins.
Proof.
  intros Hsorted Hfree Hnow pinned. subst pinned. unfold Items.pin_file_item.
  rewrite Hfree. cbn [fst snd].
  rewrite (sort_desc_greatest_first Items.pinned_at pins []).
  2:{ intros y Hy. rewrite app_nil_r in Hy. by apply Hnow. }
  rewrite app_nil_r.
  assert (Py.sort_desc Items.pinned_at pins = pins) as ->.
  { unfold Py.sort_desc. by apply stable_sort_sorted_id. }
  change (take 20 (?x :: pins)) with (x :: take 19 pins).
  split; [done|]. split; [done|]. split.
  - unfold Items.is_pinned. simpl. by rewrite String.eqb_refl.
  - unfold Items.unpin_file. simpl. rewrite String.eqb_refl. simpl.
    apply filter_all. intros x Hx. apply negb_true_iff, String.eqb_neq.
    apply (proj1 (is_pinned_false pins _) Hfree).
    by apply (subseteq_take 19 pins).
Qed.

Lemma pin_then_unpin_witness :
  let pins := Dashboard.pin_manager Samples.window_with_folder_pin in
  let pinned := Items.pin_file_item pins Samples.file_Diary "2024-05-01T11:00:00" in
  pinned.2 = true
  /\ pinned.1 = {| Items.p_name := "Diary";
                   Items.p_full_path := "data/Diary";
                   Items.pinned_at := "2024-05-01T11:00:00" |} :: take 19 pins
  /\ Items.is_pinned pinned.1 "data/Diary" = true
  /\ Items.unpin_file pinned.1 "data/Diary" = take 19 pins.
Proof.
  apply (pin_then_unpin (Dashboard.pin_manager Samples.window_with_folder_pin)
           Samples.file_Diary "2024-05-01T11:00:00").
  - repeat constructor.
  - reflexivity.
  - intros r Hr. simpl in Hr.
    apply elem_of_cons in Hr as [->|Hr]; [reflexivity|].
    apply list_elem_of_singleton in Hr as ->. reflexivity.
Defined.

(** ** Browsing *)

(** *** Trailing slashes *)

Lemma rstrip_slash_app (a b : string) :
  Py.rstrip_slash (a +:+ b)
  = match Py.rstrip_slash b with
    | "" => Py.rstrip_slash a
    | r => a +:+ r
    end.
Proof.
  induction a as [|c a IH].
  - change ("" +:+ b) with b. simpl. by destruct (Py.rstrip_slash b).
  - rewrite app_cons. cbn [Py.rstrip_slash]. rewrite IH.
    destruct (Py.rstrip_slash b) as [|d r]; [done|].
    rewrite app_cons. by destruct (a +:+ String d r) eqn:E; [destruct a|].
Qed.

Lemma rstrip_slash_app_slash (x : string) :
  Py.rstrip_slash (x +:+ "/") = Py.rstrip_slash x.
Proof. by rewrite rstrip_slash_app. Qed.

Lemma rstrip_slash_fix (y : string) :
  Py.endswith_slash y = false -> Py.rstrip_slash y = y.
Proof.
  induction y as [|c y IH]; [done|]. cbn [Py.endswith_slash Py.rstrip_slash].
  destruct y as [|d y].
  - intros Hc. simpl. by rewrite Hc.
  - intros H. rewrite (IH H). done.
Qed.

Lemma endswith_slash_rstrip (y : string) :
  Py.endswith_slash (Py.rstrip_slash y) = false.
Proof.
  induction y as [|c y IH]; [done|]. cbn [Py.rstrip_slash].
  destruct (Py.rstrip_slash y) as [|d r].
  - destruct (Ascii.eqb c "/") eqn:Hc; [done|]. simpl. exact Hc.
  - exact IH.
Qed.

Lemma endswith_slash_app (a b : string) :
  b <> "" -> Py.endswith_slash (a +:+ b) = Py.endswith_slash b.
Proof.
  intros Hb. induction a as [|c a IH]; [done|].
  rewrite app_cons. cbn [Py.endswith_slash].
  destruct (a +:+ b) eqn:E; [by destruct a|]. exact IH.
Qed.

Lemma endswith_slash_noslash (b : string) :
  Py.contains_char "/" b = false -> Py.endswith_slash b = false.
Proof.
  induction b as [|c b IH]; [done|]. cbn [Py.contains_char Py.endswith_slash].
  intros [Hc Hb]%orb_false_iff. rewrite Ascii.eqb_sym in Hc.
  destruct b; [done|]. by apply IH.
Qed.

Lemma contains_char_app c (a b : string) :
  Py.contains_char c (a +:+ b) = Py.contains_char c a || Py.contains_char c b.
Proof.
  induction a as [|d a IH]; [done|]. rewrite app_cons.
  cbn [Py.contains_char]. by rewrite IH, orb_assoc.
Qed.

Lemma startswith_app (s t p : string) :
  Py.startswith s p = true -> Py.startswith (s +:+ t) p = true.
Proof.
  unfold Py.startswith. revert s. induction p as [|c p IH]; intros s.
  - by destruct s, t.
  - destruct s as [|d s]; [done|]. rewrite app_cons. cbn [String.prefix].
    destruct (ascii_dec c d); [apply IH|done].
Qed.

(** The head of a path with a slash in it reaches to a slash at least. *)
Lemma split_last_slash_head (x t : string) :
  exists h, (PosixPath.split_last_slash (x +:+ String "/" t)).1 = x +:+ String "/" h.
Proof.
  induction x as [|c x [h IH]].
  - change ("" +:+ String "/" t) with (String "/" t). simpl.
    destruct (PosixPath.split_last_slash t) as [[|d h] tl]; simpl; by eexists.
  - rewrite app_cons. simpl.
    destruct (PosixPath.split_last_slash (x +:+ String "/" t)) as [h0 tl].
    simpl in IH. subst h0. exists h. rewrite app_cons.
    assert (Hne : x +:+ String "/" h <> "") by (by destruct x).
    by destruct (x +:+ String "/" h).
Qed.

(** *** The items of a scan *)

Lemma name_ok_parts (name : string) :
  Navigation.name_ok name = true ->
  name <> "" /\ Py.contains_char "/" name = false
  /\ Os.is_component name = true /\ name <> "/".
Proof.
  unfold Navigation.name_ok, Os.is_component.
  intros [[[Hne Hsl]%andb_true_iff Hdot]%andb_true_iff _]%andb_true_iff.
  rewrite Hne, Hdot. apply negb_true_iff in Hne, Hsl.
  apply String.eqb_neq in Hne. split; [done|]. split; [done|]. split; [done|].
  by intros ->.
Qed.

Lemma names_ok_entry (fs : Os.filesystem) (k : list string) (name : string) :
  Navigation.names_ok fs = true -> is_Some (fs !! (k ++ [name])) ->
  Navigation.name_ok name = true.
Proof.
  unfold Navigation.names_ok. rewrite forallb_forall. intros Hall [n Hn].
  specialize (Hall (k ++ [name], n)). simpl in Hall. rewrite last_snoc in Hall.
  apply Hall. apply list_elem_of_In. by apply elem_of_map_to_list.
Qed.

Lemma names_ok_name (fs : Os.filesystem) (k : list string) (name : string) :
  Navigation.names_ok fs = true -> is_Some (fs !! (k ++ [name])) ->
  name <> "" /\ Py.contains_char "/" name = false.
Proof.
  intros Hok Hk. destruct (name_ok_parts _ (names_ok_entry _ _ _ Hok Hk)) as (? & ? & _).
  done.
Qed.

(** An item registered by a scan is one of the items found. *)
Lemma register_lookup (found : list Items.FileSystemItem)
      (m : gmap string Items.FileSystemItem) (key : string) (x : Items.FileSystemItem) :
  foldl Items.register m found !! key = Some x ->
  m !! key = Some x \/ x ∈ found.
Proof.
  revert m. induction found as [|a found IH]; intros m; simpl.
  - by left.
  - intros H. destruct (IH _ H) as [Hm|Hf]; [|right; by right].
    unfold Items.register in Hm.
    destruct (Items.item_type a).
    + destruct (decide (Items.name a = key)) as [<-|Hk].
      * rewrite lookup_insert_eq in Hm. injection Hm as <-. right. left.
      * rewrite lookup_insert_ne in Hm by done. by left.
    + destruct (decide (Items.display_name a = key)) as [<-|Hk].
      * rewrite lookup_insert_eq in Hm. injection Hm as <-. right. left.
      * rewrite lookup_insert_ne in Hm by done. by left.
Qed.

Lemma classify_full_path (e : Os.DirEntry) :
  Items.full_path (Items.classify e) = Os.entry_path e
  /\ Items.name (Items.classify e) = Os.entry_name e.
Proof.
  unfold Items.classify. by destruct (Py.startswith (Os.entry_name e) Items.FOLDER_PREFIX).
Qed.

(** Below a cursor that ends in a slash the path of an entry is the cursor
    followed by the name. *)
Lemma join_cursor (s name : string) :
  Py.contains_char "/" name = false ->
  PosixPath.join (s +:+ "/") name = s +:+ String "/" name.
Proof.
  intros Hname. unfold PosixPath.join.
  rewrite (startswith_slash_noslash name Hname).
  rewrite (endswith_slash_app s "/") by done. simpl.
  rewrite orb_true_r. by rewrite app_assoc_str.
Qed.

(** What a scan of a directory leaves in the file area *)
Lemma populate_files_isdir (self : Navigation.FilesArea) (fs : Os.filesystem) :
  Os.path_isdir fs (Items.current_path (Navigation.fs_manager self)) = true ->
  exists entries,
    Os.scandir fs (Items.current_path (Navigation.fs_manager self)) = Ok entries
    /\ Navigation.populate_files self fs
       = {| Navigation.fs_manager :=
              {| Items.items := foldl Items.register ∅ (List.map Items.classify entries);
                 Items.current_path := Items.current_path (Navigation.fs_manager self) |};
            Navigation.shown :=
              Py.stable_sort Items.scan_before (List.map Items.classify entries) |}.
Proof.
  intros Hdir. unfold Navigation.populate_files, Navigation.scan_directory.
  rewrite (path_isdir_exists _ _ Hdir). simpl.
  destruct (path_isdir_node _ _ Hdir) as [Hne Hnode].
  unfold Os.scandir.
  destruct (String.eqb_spec (Items.current_path (Navigation.fs_manager self)) "")
    as [|_]; [done|].
  rewrite Hnode. by eexists.
Qed.

(** The items of the manager after a scan of the cursor [s/]: each lies
    right below the cursor and has a proper name. *)
Lemma scanned_item (self : Navigation.FilesArea) (fs : Os.filesystem)
      (s key : string) (x : Items.FileSystemItem) :
  Items.current_path (Navigation.fs_manager self) = s +:+ "/" ->
  Navigation.names_ok fs = true ->
  Os.path_isdir fs (s +:+ "/") = true ->
  Items.items (Navigation.fs_manager (Navigation.populate_files self fs)) !! key = Some x ->
  Items.name x <> "" /\ Py.contains_char "/" (Items.name x) = false
  /\ Items.full_path x = s +:+ String "/" (Items.name x).
Proof.
  intros Hcp Hok Hdir Hx. rewrite <- Hcp in Hdir.
  destruct (populate_files_isdir self fs Hdir) as (entries & Hscan & Hpop).
  rewrite Hpop in Hx. simpl in Hx.
  apply register_lookup in Hx as [Hx|Hx]; [by rewrite lookup_empty in Hx|].
  apply list_elem_of_In, in_map_iff in Hx as (e & <- & He).
  apply list_elem_of_In in He.
  apply (scandir_entries _ _ _ Hscan) in He as (name & Hsome & ->).
  destruct (classify_full_path
              {| Os.entry_name := name;
                 Os.entry_path :=
                   PosixPath.join (Items.current_path (Navigation.fs_manager self)) name |})
    as [-> ->].
  simpl. destruct (names_ok_name _ _ _ Hok Hsome) as [Hne Hsl].
  split; [done|]. split; [done|]. rewrite Hcp. by apply join_cursor.
Qed.

(** *** Going back *)

Lemma endswith_slash_child (s name : string) :
  name <> "" -> Py.contains_char "/" name = false ->
  Py.endswith_slash (s +:+ String "/" name) = false.
Proof.
  intros Hne Hsl. rewrite endswith_slash_app by done.
  destruct name as [|c name]; [done|].
  change (Py.endswith_slash (String "/" (String c name)))
    with (Py.endswith_slash (String c name)).
  by apply endswith_slash_noslash.
Qed.

Lemma not_data_slash (s name : string) :
  name <> "" -> Py.contains_char "/" name = false ->
  (s +:+ String "/" name) +:+ "/" <> "data/".
Proof.
  intros Hne Hsl Heq.
  assert (H : Py.rstrip_slash ((s +:+ String "/" name) +:+ "/") = Py.rstrip_slash "data/")
    by (by rewrite Heq).
  rewrite rstrip_slash_app_slash, rstrip_slash_fix in H
    by (by apply endswith_slash_child).
  assert (Hc : Py.contains_char "/" (s +:+ String "/" name) = Py.contains_char "/" "data")
    by (by rewrite H).
  rewrite contains_char_app in Hc. simpl in Hc. by rewrite orb_true_r in Hc.
Qed.

(** [go_back] from the folder [name] below the cursor [s/] *)
Lemma go_back_from_child (m : gmap string Items.FileSystemItem) (s name : string) :
  s <> "" -> Py.endswith_slash s = false ->
  name <> "" -> Py.contains_char "/" name = false ->
  Navigation.go_back {| Items.items := m;
                        Items.current_path := (s +:+ String "/" name) +:+ "/" |}
  = ({| Items.items := m;
        Items.current_path := if String.eqb s "data" then "data/" else s +:+ "/" |},
     true).
Proof.
  intros Hs Hend Hne Hsl. unfold Navigation.go_back. cbn [Items.current_path Items.items].
  destruct (String.eqb_spec ((s +:+ String "/" name) +:+ "/") "data/") as [Heq|_];
    [by apply not_data_slash in Heq|].
  cbn [negb]. rewrite rstrip_slash_app_slash, rstrip_slash_fix
    by (by apply endswith_slash_child).
  unfold PosixPath.dirname. rewrite (split_last_slash_app s name Hsl). cbn [fst].
  rewrite rstrip_slash_app_slash, (rstrip_slash_fix s Hend).
  destruct s as [|c s]; [done|].
  destruct (String.eqb_spec (String c s) "") as [|_]; [done|]. done.
Qed.

Lemma populate_files_cursor (self : Navigation.FilesArea) (fs : Os.filesystem) :
  Items.current_path (Navigation.fs_manager (Navigation.populate_files self fs))
  = Items.current_path (Navigation.fs_manager self).
Proof.
  unfold Navigation.populate_files, Navigation.scan_directory.
  destruct (negb (Os.path_exists fs _)); [done|].
  by destruct (Os.scandir fs _).
Qed.

(** The parts of a cursor *)
Lemma cursor_ok_parts (cp : string) :
  Navigation.cursor_ok cp = true ->
  let s := Py.rstrip_slash cp in
  cp = s +:+ "/" /\ s <> "" /\ Py.endswith_slash s = false
  /\ (s = "data" \/ Py.startswith s "data/" = true).
Proof.
  unfold Navigation.cursor_ok. cbv zeta. intros [Hcp Hs]%andb_true_iff.
  set (s := Py.rstrip_slash cp) in *.
  apply String.eqb_eq in Hcp. split; [done|].
  split; [|split; [apply endswith_slash_rstrip|]].
  - apply orb_true_iff in Hs as [Hs|Hs]; [apply String.eqb_eq in Hs|];
      by destruct s.
  - apply orb_true_iff in Hs as [Hs|Hs]; [left; by apply String.eqb_eq|by right].
Qed.

(** X5. From a listing of a directory under the data directory, opening a
    folder of the listing and going back gives the listing again: the same
    cursor, the same items in the manager and the same items in the
    grid. *)
Theorem back_after_open_folder
  (area : Navigation.FilesArea) (fs : Os.filesystem)
  (folder_name : string) (folder_item : Items.FileSystemItem) :
  let listing := Navigation.populate_files area fs in
  Navigation.cursor_ok (Items.current_path (Navigation.fs_manager area)) = true ->
  Navigation.names_ok fs = true ->
  Os.path_isdir fs (Items.current_path (Navigation.fs_manager area)) = true ->
  Items.get_item (Navigation.fs_manager listing) folder_name = Some folder_item ->
  Items.item_type folder_item = Items.folder ->
  Navigation.window_go_back (Navigation.on_folder_clicked listing fs folder_name) fs
  = listing.
Proof.
  intros listing Hcur Hok Hdir Hget Hfolder.
  destruct (cursor_ok_parts _ Hcur) as (Hcp & Hs & Hend & _).
  set (s := Py.rstrip_slash (Items.current_path (Navigation.fs_manager area))) in *.
  assert (Hdir' : Os.path_isdir fs (s +:+ "/") = true) by (by rewrite <- Hcp).
  destruct (scanned_item area fs s folder_name folder_item Hcp Hok Hdir' Hget)
    as (Hne & Hsl & Hfp).
  destruct (populate_files_isdir area fs Hdir) as (entries & Hscan & Hpop).
  fold listing in Hpop.
  unfold Navigation.on_folder_clicked, Navigation.navigate_to_folder.
  rewrite Hget, (bool_decide_eq_true_2 _ Hfolder), Hfp.
  set (opened := Navigation.populate_files _ fs).
  assert (Hopened : Items.current_path (Navigation.fs_manager opened)
                    = (s +:+ String "/" (Items.name folder_item)) +:+ "/").
  { unfold opened. by rewrite populate_files_cursor. }
  unfold Navigation.window_go_back.
  destruct (Navigation.fs_manager opened) as [m cp] eqn:Hm. simpl in Hopened. subst cp.
  rewrite (go_back_from_child m s _ Hs Hend Hne Hsl).
  assert ((if String.eqb s "data" then "data/" else s +:+ "/") = s +:+ "/") as ->.
  { by destruct (String.eqb_spec s "data") as [->|_]. }
  set (back := {| Navigation.fs_manager := _; Navigation.shown := _ |}).
  destruct (populate_files_isdir back fs) as (entries' & Hscan' & ->).
  { simpl. by rewrite <- Hcp. }
  simpl in Hscan'. rewrite <- Hcp, Hscan in Hscan'. injection Hscan' as <-.
  rewrite Hpop. simpl. by rewrite <- Hcp.
Qed.

Lemma back_after_open_folder_witness :
  Navigation.window_go_back
    (Navigation.on_folder_clicked
       (Navigation.populate_files Navigation.init_area Samples.store) Samples.store "A")
    Samples.store
  = Navigation.populate_files Navigation.init_area Samples.store.
Proof.
  apply (back_after_open_folder Navigation.init_area Samples.store "A" Samples.folder_A).
  - reflexivity.
  - vm_compute. reflexivity.
  - vm_compute. reflexivity.
  - vm_compute. reflexivity.
  - reflexivity.
Defined.

(** *** The cursor stays under the data directory *)

Lemma startswith_decomp (s p : string) :
  Py.startswith s p = true -> exists t, s = p +:+ t.
Proof.
  unfold Py.startswith. revert s. induction p as [|c p IH]; intros s H.
  - by exists s.
  - destruct s as [|d s]; [done|]. cbn [String.prefix] in H.
    destruct (ascii_dec c d) as [->|]; [|done].
    destruct (IH s H) as [t ->]. by exists t.
Qed.

Lemma cursor_ok_child (fp : string) :
  Py.startswith fp "data/" = true -> Py.endswith_slash fp = false ->
  Navigation.cursor_ok (fp +:+ "/") = true.
Proof.
  intros Hst Hend. unfold Navigation.cursor_ok.
  rewrite rstrip_slash_app_slash, (rstrip_slash_fix fp Hend).
  by rewrite String.eqb_refl, Hst, orb_true_r.
Qed.

Lemma populate_files_notdir (self : Navigation.FilesArea) (fs : Os.filesystem) :
  Os.path_isdir fs (Items.current_path (Navigation.fs_manager self)) = false ->
  Items.items (Navigation.fs_manager (Navigation.populate_files self fs))
  = Items.items (Navigation.fs_manager self)
  \/ Items.items (Navigation.fs_manager (Navigation.populate_files self fs)) = ∅.
Proof.
  intros Hdir. unfold Navigation.populate_files, Navigation.scan_directory.
  destruct (negb (Os.path_exists fs _)); [by left|].
  unfold Os.scandir, Os.path_isdir in *.
  destruct (String.eqb (Items.current_path (Navigation.fs_manager self)) "");
    [by right|].
  simpl in Hdir.
  destruct (Os.node_at fs _) as [[|]|]; first [done | by right].
Qed.

Lemma area_ok_populate (self : Navigation.FilesArea) (fs : Os.filesystem) :
  Navigation.names_ok fs = true ->
  Navigation.area_ok self -> Navigation.area_ok (Navigation.populate_files self fs).
Proof.
  intros Hok [Hcur Hitems]. split; [by rewrite populate_files_cursor|].
  destruct (Os.path_isdir fs (Items.current_path (Navigation.fs_manager self))) eqn:Hdir.
  - destruct (cursor_ok_parts _ Hcur) as (Hcp & Hs & Hend & Hdata).
    set (s := Py.rstrip_slash (Items.current_path (Navigation.fs_manager self))) in *.
    intros key x Hx.
    assert (Hdir' : Os.path_isdir fs (s +:+ "/") = true) by (by rewrite <- Hcp).
    destruct (scanned_item self fs s key x Hcp Hok Hdir' Hx) as (Hne & Hsl & Hfp).
    unfold Navigation.item_ok. rewrite Hfp, (endswith_slash_child s _ Hne Hsl).
    rewrite andb_true_r. destruct Hdata as [->|Hst].
    + change ("data" +:+ String "/" (Items.name x)) with ("data/" +:+ Items.name x).
      apply startswith_prefix_app.
    + by apply startswith_app.
  - destruct (populate_files_notdir self fs Hdir) as [-> | ->]; [done|].
    apply map_Forall_empty.
Qed.

Lemma area_ok_navigate (self : Navigation.FilesArea) (folder_name : string) :
  Navigation.area_ok self ->
  Navigation.area_ok
    {| Navigation.fs_manager :=
         (Navigation.navigate_to_folder (Navigation.fs_manager self) folder_name).1;
       Navigation.shown := Navigation.shown self |}.
Proof.
  intros [Hcur Hitems]. unfold Navigation.navigate_to_folder, Items.get_item.
  destruct (Items.items (Navigation.fs_manager self) !! folder_name) as [x|] eqn:Hx;
    [|done].
  destruct (bool_decide (Items.item_type x = Items.folder)); [|done].
  split; [|done]. simpl.
  specialize (Hitems _ _ Hx). simpl in Hitems. unfold Navigation.item_ok in Hitems.
  apply andb_true_iff in Hitems as [Hst Hend]. apply negb_true_iff in Hend.
  by apply cursor_ok_child.
Qed.

Lemma cursor_ok_go_back (self : Items.FileSystemManager) :
  Navigation.cursor_ok (Items.current_path self) = true ->
  Navigation.cursor_ok (Items.current_path (Navigation.go_back self).1) = true.
Proof.
  intros Hcur. unfold Navigation.go_back.
  destruct (String.eqb_spec (Items.current_path self) "data/") as [Heq|Hneq]; [done|].
  cbn [negb fst Items.current_path].
  destruct (cursor_ok_parts _ Hcur) as (Hcp & Hs & Hend & Hdata).
  set (s := Py.rstrip_slash (Items.current_path self)) in *.
  destruct Hdata as [Hd|Hst]; [by rewrite Hcp, Hd in Hneq|].
  destruct (startswith_decomp _ _ Hst) as [t Ht].
  destruct (split_last_slash_head "data" t) as [h Hh].
  change ("data" +:+ String "/" t) with ("data/" +:+ t) in Hh. rewrite <- Ht in Hh.
  unfold PosixPath.dirname. rewrite Hh.
  change ("data" +:+ String "/" h) with ("data/" +:+ h).
  pose proof (endswith_slash_rstrip ("data/" +:+ h)) as Hpe.
  rewrite (rstrip_slash_app "data/" h) in *.
  destruct (Py.rstrip_slash h) as [|c r] eqn:Hr; [done|].
  change ("data/" +:+ String c r) with (String "d" ("ata/" +:+ String c r)) in *.
  cbv iota.
  assert (Hne : String.eqb (String "d" ("ata/" +:+ String c r)) "data" = false).
  { apply String.eqb_neq. intros [=]. }
  rewrite Hne. cbn [String.eqb orb].
  by apply cursor_ok_child.
Qed.

Lemma area_ok_handle (self : Navigation.FilesArea) (step : Os.filesystem * Navigation.event) :
  Navigation.names_ok step.1 = true ->
  Navigation.area_ok self -> Navigation.area_ok (Navigation.handle self step).
Proof.
  intros Hok Hself. unfold Navigation.handle. destruct step as [fs [|folder_name|]]; simpl in *.
  - by apply area_ok_populate.
  - unfold Navigation.on_folder_clicked.
    pose proof (area_ok_navigate self folder_name Hself) as Hnav.
    destruct (Navigation.navigate_to_folder _ folder_name) as [m [|]]; [|done].
    by apply area_ok_populate.
  - unfold Navigation.window_go_back.
    pose proof (cursor_ok_go_back (Navigation.fs_manager self) (proj1 Hself)) as Hb.
    assert (Hitems : Items.items (Navigation.go_back (Navigation.fs_manager self)).1
                     = Items.items (Navigation.fs_manager self)).
    { unfold Navigation.go_back. by destruct (negb _). }
    destruct (Navigation.go_back _) as [m [|]]; [|done].
    apply area_ok_populate; [done|]. split; [done|]. simpl in *.
    rewrite Hitems. apply Hself.
Qed.

(** X6. Browsing never leaves the data directory: after any sequence of
    refreshes, clicks on folders and steps back, each on the file system of
    its time, the cursor starts with the path of the data directory and ends
    in a slash. *)
Theorem browsing_stays_under_data (steps : list (Os.filesystem * Navigation.event)) :
  (forall step, step ∈ steps -> Navigation.names_ok step.1 = true) ->
  let area := foldl Navigation.handle Navigation.init_area steps in
  Py.startswith (Items.current_path (Navigation.fs_manager area)) "data/" = true
  /\ Py.endswith_slash (Items.current_path (Navigation.fs_manager area)) = true.
Proof.
  intros Hsteps area.
  assert (Hok : Navigation.area_ok area).
  { subst area.
    assert (Hinit : Navigation.area_ok Navigation.init_area).
    { split; [done|]. apply map_Forall_empty. }
    revert Hinit Hsteps. generalize Navigation.init_area as a.
    induction steps as [|step steps IH]; intros a Ha Hsteps; simpl; [done|].
    apply IH.
    - apply area_ok_handle; [|done]. apply Hsteps. left.
    - intros st Hst. apply Hsteps. by right. }
  destruct Hok as [Hcur _].
  destruct (cursor_ok_parts _ Hcur) as (Hcp & Hs & _ & Hdata).
  rewrite Hcp. split.
  - destruct Hdata as [->|Hst]; [done|]. by apply startswith_app.
  - by rewrite endswith_slash_app.
Qed.

Lemma browsing_stays_under_data_witness :
  let area := foldl Navigation.handle Navigation.init_area
                [(Samples.store, Navigation.Refresh);
                 (Samples.store, Navigation.FolderClicked "A");
                 (Samples.store, Navigation.BackClicked)] in
  Py.startswith (Items.current_path (Navigation.fs_manager area)) "data/" = true
  /\ Py.endswith_slash (Items.current_path (Navigation.fs_manager area)) = true.
Proof.
  apply (browsing_stays_under_data
           [(Samples.store, Navigation.Refresh);
            (Samples.store, Navigation.FolderClicked "A");
            (Samples.store, Navigation.BackClicked)]).
  intros step Hstep.
  assert (Hs : step.1 = Samples.store).
  { repeat (apply elem_of_cons in Hstep as [->|Hstep]; [done|]).
    by apply elem_of_nil in Hstep. }
  rewrite Hs. vm_compute. reflexivity.
Defined.

(** ** Creating items *)

(** *** Directories on the way *)

Lemma node_at_none (fs : Os.filesystem) (k : list string) :
  Os.node_at fs k = None -> fs !! k = None /\ k <> [] /\ k <> ["/"].
Proof.
  unfold Os.node_at. case_bool_decide as Hk; [done|].
  intros ->. split; [done|]. split; intros ->; apply Hk; [by left|by right].
Qed.

Lemma node_at_lookup (fs : Os.filesystem) (k : list string) (n : Os.node) :
  fs !! k = Some n -> exists n', Os.node_at fs k = Some n'.
Proof. unfold Os.node_at. intros H. case_bool_decide; by eexists. Qed.

Lemma node_at_mono (fs fs' : Os.filesystem) (k : list string) (n : Os.node) :
  (forall k0 n0, fs !! k0 = Some n0 -> fs' !! k0 = Some n0) ->
  Os.node_at fs k = Some n -> Os.node_at fs' k = Some n.
Proof. unfold Os.node_at. intros Hm. case_bool_decide; [done|apply Hm]. Qed.

Lemma node_at_insert (fs : Os.filesystem) (k : list string) :
  Os.node_at (<[k := Os.NDir]> fs) k = Some Os.NDir.
Proof. unfold Os.node_at. case_bool_decide; [done|apply lookup_insert_eq]. Qed.

Lemma makedirs_from_spec (todo above : list string) (fs fs' : Os.filesystem) :
  Os.makedirs_from fs above todo = Ok fs' ->
  (forall k, (forall i, 0 < i <= length todo -> k <> above ++ take i todo) ->
             fs' !! k = fs !! k)
  /\ (forall i, 0 < i <= length todo ->
                Os.node_at fs' (above ++ take i todo) = Some Os.NDir)
  /\ (forall k n, fs !! k = Some n -> fs' !! k = Some n).
Proof.
  revert above fs. induction todo as [|c rest IH]; intros above fs H; simpl in H.
  - injection H as <-. split; [done|]. split; [|done].
    intros i Hi. simpl in Hi. lia.
  - assert (Hshift : forall j, (above ++ [c]) ++ take j rest = above ++ take (S j) (c :: rest)).
    { intros j. by rewrite <- app_assoc. }
    destruct (Os.node_at fs (above ++ [c])) as [[|]|] eqn:Hk; [done| |].
    + destruct (IH _ _ H) as (Hframe & Hdirs & Hmono). split; [|split; [|done]].
      * intros k Hk'. apply Hframe. intros j Hj. rewrite Hshift. apply Hk'. simpl. lia.
      * intros [|[|j]] Hi; [lia| |].
        -- simpl. by apply (node_at_mono fs).
        -- rewrite <- Hshift. apply Hdirs. simpl in Hi. lia.
    + destruct (IH _ _ H) as (Hframe & Hdirs & Hmono).
      destruct (node_at_none _ _ Hk) as (Hnone & _ & _).
      split; [|split].
      * intros k Hk'. rewrite Hframe.
        -- apply lookup_insert_ne. intros <-. by apply (Hk' 1); [simpl; lia|].
        -- intros j Hj. rewrite Hshift. apply Hk'. simpl. lia.
      * intros [|[|j]] Hi; [lia| |].
        -- simpl. apply (node_at_mono (<[above ++ [c] := Os.NDir]> fs)); [done|].
           apply node_at_insert.
        -- rewrite <- Hshift. apply Hdirs. simpl in Hi. lia.
      * intros k n Hn. apply Hmono. rewrite lookup_insert_ne; [done|].
        intros <-. by rewrite Hnone in Hn.
Qed.

(** After [os.makedirs(p)], [p] and the directory above it are directories
    and nothing that was there is lost. *)
Lemma makedirs_snoc (fs fs' : Os.filesystem) (p : string) (k : list string) (c : string) :
  Os.resolve p = k ++ [c] ->
  Os.makedirs fs p = Ok fs' ->
  Os.node_at fs' (k ++ [c]) = Some Os.NDir
  /\ Os.node_at fs' k = Some Os.NDir
  /\ (forall k0 n, fs !! k0 = Some n -> fs' !! k0 = Some n)
  /\ (forall k0, (forall i, 0 < i <= S (length k) -> k0 <> take i (k ++ [c])) ->
                 fs' !! k0 = fs !! k0).
Proof.
  intros Hres. unfold Os.makedirs. destruct (String.eqb p ""); [done|].
  rewrite Hres. intros H. destruct (makedirs_from_spec _ _ _ _ H) as (Hframe & Hdirs & Hmono).
  rewrite length_app in *. simpl in *.
  split; [|split; [|split; [done|]]].
  - rewrite <- (firstn_all (k ++ [c])) at 1. rewrite length_app. simpl.
    apply (Hdirs (length k + 1)). lia.
  - destruct k as [|a k]; [done|].
    assert (Hk : take (length (a :: k)) ((a :: k) ++ [c]) = a :: k).
    { by rewrite take_app_length. }
    rewrite <- Hk. apply (Hdirs (length (a :: k))). simpl. lia.
  - intros k0 Hk0. apply Hframe. intros i Hi. apply Hk0. lia.
Qed.

(** *** Names that pass the dialog *)

Lemma has_invalid_char_slash (name : string) :
  Dashboard.has_invalid_char name = false -> Py.contains_char "/" name = false.
Proof.
  unfold Dashboard.has_invalid_char, Dashboard.invalid_chars. cbn [existsb].
  by intros [H _]%orb_false_iff.
Qed.

Lemma accept_dialog_name_ok (text name : string) :
  AddItem.accept_dialog_name text = inr name ->
  name = Py.strip text /\ name <> "" /\ Py.contains_char "/" name = false.
Proof.
  unfold AddItem.accept_dialog_name.
  destruct (String.eqb_spec (Py.strip text) "") as [|Hne]; [done|].
  destruct (Dashboard.has_invalid_char (Py.strip text)) eqn:Hbad; [done|].
  intros [= <-]. split; [done|]. split; [done|]. by apply has_invalid_char_slash.
Qed.

Lemma new_folder_name_ok (name : string) :
  Py.contains_char "/" name = false ->
  Py.contains_char "/" (Dashboard.new_folder_name name) = false
  /\ Os.is_component (Dashboard.new_folder_name name) = true
  /\ Dashboard.new_folder_name name <> "/".
Proof.
  intros Hname. unfold Dashboard.new_folder_name, Items.FOLDER_PREFIX.
  split; [by rewrite contains_char_app, Hname|]. done.
Qed.

(** A directory with an entry: the scan lists the entry. *)
Lemma scan_directory_lists (self : Items.FileSystemManager) (fs : Os.filesystem)
      (base_path name : string) :
  base_path <> "" -> name <> "/" ->
  Os.node_at fs (Os.resolve base_path) = Some Os.NDir ->
  is_Some (Os.node_at fs (Os.resolve base_path ++ [name])) ->
  exists items manager,
    Items.scan_directory self fs base_path = Ok (items, manager)
    /\ Items.classify {| Os.entry_name := name;
                         Os.entry_path := PosixPath.join base_path name |} ∈ items.
Proof.
  intros Hne Hname Hdir Hentry. rewrite node_at_snoc in Hentry by done.
  unfold Items.scan_directory.
  assert (Os.path_exists fs base_path = true) as ->.
  { unfold Os.path_exists. rewrite Hdir.
    destruct (String.eqb_spec base_path "") as [|_]; [done|]. simpl.
    first [done | apply bool_decide_eq_true_2; by eexists]. }
  cbn [negb].
  destruct (Os.scandir fs base_path) as [entries|e] eqn:Hscan.
  - eexists _, _. split; [done|].
    rewrite (stable_sort_perm Items.scan_before).
    apply list_elem_of_In, in_map, list_elem_of_In.
    apply (scandir_entries _ _ _ Hscan). by exists name.
  - unfold Os.scandir in Hscan. destruct (String.eqb_spec base_path "") as [|_]; [done|].
    by rewrite Hdir in Hscan.
Qed.

(** X7. A folder created through the dialog is there for the next scan:
    when [accept_dialog] succeeds for a folder, no box is shown and a scan
    of the directory the dialog was opened in lists a Folder item with the
    marked name, whose display name is the name typed, stripped. *)
Theorem created_folder_is_listed
  (scrypt : Hash.kdf) (str_exn : exn -> string)
  (fs : Os.filesystem) (current_path text : string)
  (password_dialog : option string) (salt : list byte)
  (self : Items.FileSystemManager) :
  let result := AddItem.accept_dialog scrypt str_exn fs current_path Items.folder text
                                      password_dialog salt in
  let folder_item :=
    Items.FolderItem (Dashboard.new_folder_name (Py.strip text))
                     (PosixPath.join current_path
                                     (Dashboard.new_folder_name (Py.strip text))) in
  current_path <> "" ->
  result.1.2 = true ->
  result.2 = None
  /\ Items.display_name folder_item = Py.strip text
  /\ exists items manager,
       Items.scan_directory self result.1.1 current_path = Ok (items, manager)
       /\ folder_item ∈ items.
Proof.
  intros result folder_item Hcp Hacc. subst result.
  unfold AddItem.accept_dialog in *.
  destruct (AddItem.accept_dialog_name text) as [?|name] eqn:Hname; [done|].
  destruct (accept_dialog_name_ok _ _ Hname) as (-> & Hne & Hsl).
  destruct (new_folder_name_ok _ Hsl) as (Hfsl & Hfc & Hfr).
  unfold AddItem.create_item in *.
  destruct (Os.path_exists fs _); [done|].
  destruct (Os.makedirs fs _) as [fs1|e] eqn:Hmk; [|done].
  cbn [fst snd] in *.
  destruct (makedirs_snoc fs fs1 _ _ _ (resolve_join _ _ Hcp Hfsl Hfc) Hmk)
    as (Hnew & Hparent & _ & _).
  split; [done|]. split.
  - unfold folder_item, Items.display_name, Dashboard.new_folder_name. simpl.
    rewrite startswith_prefix_app. apply (slice_from_app Items.FOLDER_PREFIX).
  - destruct (scan_directory_lists self fs1 current_path
                (Dashboard.new_folder_name (Py.strip text)) Hcp Hfr Hparent)
      as (items & manager & Hscan & Hin); [by eexists|].
    exists items, manager. split; [done|].
    unfold Items.classify in Hin. simpl in Hin.
    unfold Dashboard.new_folder_name in Hin at 1.
    by rewrite startswith_prefix_app in Hin.
Qed.

Lemma created_folder_is_listed_witness :
  let result := AddItem.accept_dialog Aux.toy_kdf Samples.str_exn Samples.store
                                      "data/" Items.folder " Trips " None Samples.salt in
  result.2 = None
  /\ Items.display_name (Items.FolderItem "-__Trips" "data/-__Trips") = "Trips"
  /\ exists items manager,
       Items.scan_directory Items.init_manager result.1.1 "data/" = Ok (items, manager)
       /\ Items.FolderItem "-__Trips" "data/-__Trips" ∈ items.
Proof.
  apply (created_folder_is_listed Aux.toy_kdf Samples.str_exn Samples.store
           "data/" " Trips " None Samples.salt Items.init_manager).
  - done.
  - vm_compute. reflexivity.
Defined.

(** *** A new file *)

Lemma tree_ok_parent (fs : Os.filesystem) (k : list string) (n : Os.node) :
  Store.tree_ok fs = true -> fs !! k = Some n ->
  Os.node_at fs (Os.parent k) = Some Os.NDir.
Proof.
  unfold Store.tree_ok. rewrite forallb_forall. intros Hall Hk.
  assert (Hin : In (k, n) (map_to_list fs)).
  { apply list_elem_of_In. by apply elem_of_map_to_list. }
  apply Hall in Hin. simpl in Hin.
  by destruct (Os.node_at fs (Os.parent k)) as [[|]|].
Qed.

(** Nothing lies below a path that does not exist. *)
Lemma tree_ok_below (fs : Os.filesystem) (k suffix : list string) :
  Store.tree_ok fs = true -> Os.node_at fs k = None -> fs !! (k ++ suffix) = None.
Proof.
  intros Hok Hk. destruct (node_at_none _ _ Hk) as (Hnone & Hnil & Hroot).
  induction suffix as [|x l IH] using rev_ind.
  - by rewrite app_nil_r.
  - destruct (fs !! (k ++ l ++ [x])) as [n|] eqn:Hn; [|done].
    apply (tree_ok_parent _ _ _ Hok) in Hn.
    unfold Os.parent in Hn. rewrite app_assoc, removelast_last in Hn.
    unfold Os.node_at in Hn. rewrite bool_decide_eq_false_2 in Hn.
    + by rewrite IH in Hn.
    + intros [H|H].
      * by apply app_eq_nil in H as [? _].
      * destruct k as [|a [|b k]]; simplify_eq/=; by destruct l.
Qed.

Lemma write_file_new (fs : Os.filesystem) (p : string) (k : list string) (c : string)
      (data : list byte) :
  p <> "" -> Os.resolve p = k ++ [c] -> c <> "/" ->
  Os.node_at fs k = Some Os.NDir -> fs !! (k ++ [c]) = None ->
  Os.write_file fs p data = Ok (<[k ++ [c] := Os.NFile true data]> fs).
Proof.
  intros Hp Hres Hc Hdir Hnew. unfold Os.write_file.
  destruct (String.eqb_spec p "") as [|_]; [done|].
  rewrite Hres. unfold Os.parent. rewrite removelast_last, Hdir.
  by rewrite node_at_snoc, Hnew.
Qed.

Lemma path_exists_false (fs : Os.filesystem) (p : string) :
  p <> "" -> Os.path_exists fs p = false -> Os.node_at fs (Os.resolve p) = None.
Proof.
  intros Hp. unfold Os.path_exists.
  destruct (String.eqb_spec p "") as [|_]; [done|]. simpl.
  intros H%bool_decide_eq_false_1.
  destruct (Os.node_at fs (Os.resolve p)); [|done]. exfalso. apply H. by eexists.
Qed.

(** Where the content file of an item lies *)
Lemma content_file_path_resolve (item : Items.FileSystemItem) :
  Items.full_path item <> "" ->
  Py.contains_char "/" (Items.name item) = false ->
  Items.content_file_path item <> ""
  /\ Os.resolve (Items.content_file_path item)
     = Os.resolve (Items.full_path item) ++ ["content.html"].
Proof.
  intros Hfp Hname. unfold Items.content_file_path.
  destruct (dirname_join _ _ Hfp Hname) as [Hdir Hres].
  split; [by apply join_nonempty|]. by rewrite resolve_join, Hres.
Qed.

(** The file system after a new file was created and its password saved *)
Lemma create_file_steps (fs fs1 : Os.filesystem) (current_path name : string)
      (blob : list byte) :
  current_path <> "" -> Py.contains_char "/" name = false ->
  Os.is_component name = true ->
  Store.tree_ok fs = true ->
  Os.path_exists fs (PosixPath.join current_path name) = false ->
  Os.makedirs fs (PosixPath.join current_path name) = Ok fs1 ->
  let file_dir := PosixPath.join current_path name in
  let k := Os.resolve current_path ++ [name] in
  let fs2 := <[k ++ ["content.html"] := Os.NFile true []]> fs1 in
  Os.resolve file_dir = k
  /\ fs1 !! k = Some Os.NDir
  /\ Os.write_file fs1 (PosixPath.join file_dir "content.html") (Py.encode_utf8 "") = Ok fs2
  /\ Hash.save_hashed_password fs2 (PosixPath.join file_dir "content.bin") blob
     = Ok (<[k ++ ["content.bin"] := Os.NFile true blob]> fs2).
Proof.
  intros Hcp Hsl Hcomp Hok Hex Hmk file_dir k fs2.
  assert (Hres : Os.resolve file_dir = k) by (by apply resolve_join).
  assert (Hdir : file_dir <> "") by (by apply join_nonempty).
  assert (Hname : name <> "/") by (intros ->; done).
  pose proof (path_exists_false _ _ Hdir Hex) as Hnone. fold file_dir in Hnone.
  rewrite Hres in Hnone.
  destruct (makedirs_snoc fs fs1 file_dir _ _ Hres Hmk) as (Hnew & _ & _ & Hframe).
  fold k in Hnew, Hframe.
  assert (Hchild : forall c, fs1 !! (k ++ [c]) = None).
  { intros c. rewrite Hframe; [by apply tree_ok_below|].
    intros i _ H. apply (f_equal length) in H.
    rewrite length_take, !length_app in H. simpl in H. lia. }
  assert (Hk1 : fs1 !! k = Some Os.NDir).
  { unfold k in *. by rewrite node_at_snoc in Hnew. }
  split; [done|]. split; [done|]. split.
  - apply write_file_new; [by apply join_nonempty|by rewrite resolve_join, Hres|done|done|].
    apply Hchild.
  - unfold Hash.save_hashed_password.
    apply write_file_new; [by apply join_nonempty|by rewrite resolve_join, Hres|done| |].
    + unfold fs2, k. rewrite node_at_snoc by done.
      rewrite lookup_insert_ne; [done|].
      intros H. apply (f_equal length) in H. rewrite !length_app in H. simpl in H. lia.
    + unfold fs2. rewrite lookup_insert_ne; [apply Hchild|].
      intros H. by apply app_inj_tail in H as [_ ?].
Qed.

Lemma set_password_accept_dialog_ok (password_text confirm_text password : string) :
  AddItem.set_password_accept_dialog password_text confirm_text = inr password ->
  password = Py.strip password_text
  /\ 3 <= String.length password
  /\ Py.strip confirm_text = password.
Proof.
  unfold AddItem.set_password_accept_dialog.
  destruct (String.eqb (Py.strip password_text) ""); [done|].
  destruct (Nat.ltb_spec (String.length (Py.strip password_text)) 3); [done|].
  destruct (String.eqb_spec (Py.strip password_text) (Py.strip confirm_text)) as [He|];
    [|done].
  intros [= <-]. done.
Qed.

(** X8. A file created through the dialog is locked with the password
    typed: when [accept_dialog] succeeds for a file whose password dialog
    was accepted, the new directory holds an empty content file and the
    credential of the stripped password; opening the file shows the login
    window with that credential, and the stripped password passes it.  (The
    embedding resolves no dot-dot components, so that name is left out.) *)
Theorem created_file_is_locked
  (scrypt : Hash.kdf) (str_exn : exn -> string)
  (fs : Os.filesystem) (current_path text password_text confirm_text password : string)
  (salt : list byte) (history_items : list Dashboard.HistoryItem) (now : string) :
  let result := AddItem.accept_dialog scrypt str_exn fs current_path Items.file text
                                      (Some password) salt in
  let file_item := Items.FileItem (Py.strip text)
                                  (PosixPath.join current_path (Py.strip text)) in
  let blob := Hash.hash_password scrypt salt (Py.strip password_text) in
  current_path <> "" ->
  Store.tree_ok fs = true ->
  Py.strip text <> "." -> Py.strip text <> ".." ->
  length salt = 16 ->
  AddItem.set_password_accept_dialog password_text confirm_text = inr password ->
  result.1.2 = true ->
  result.2 = None
  /\ Os.read_file result.1.1 (Items.content_file_path file_item) = Ok []
  /\ Items.load_password_hash result.1.1 file_item = Some blob
  /\ Dashboard.open_file_with_password_check history_items result.1.1 file_item now
     = Dashboard.LoginWindowShown blob
  /\ Dashboard.authenticate scrypt blob (Py.strip password_text) = true.
Proof.
  intros result file_item blob Hcp Hok Hdot _ Hsalt Hpw Hacc. subst result.
  destruct (set_password_accept_dialog_ok _ _ _ Hpw) as (-> & _ & _).
  unfold AddItem.accept_dialog in *.
  destruct (AddItem.accept_dialog_name text) as [?|name] eqn:Hname; [done|].
  destruct (accept_dialog_name_ok _ _ Hname) as (-> & Hne & Hsl).
  assert (Hcomp : Os.is_component (Py.strip text) = true).
  { unfold Os.is_component.
    destruct (String.eqb_spec (Py.strip text) "") as [|_]; [done|].
    by destruct (String.eqb_spec (Py.strip text) ".") as [|_]. }
  unfold AddItem.create_item in *.
  destruct (Os.path_exists fs _) eqn:Hex; [done|].
  destruct (Os.makedirs fs _) as [fs1|e] eqn:Hmk; [|done].
  destruct (create_file_steps fs fs1 current_path (Py.strip text) blob
              Hcp Hsl Hcomp Hok Hex Hmk) as (Hres & Hk1 & Hwrite & Hsave).
  rewrite Hwrite in *. fold blob in Hacc |- *. rewrite Hsave in *.
  cbn [fst snd] in *.
  set (k := Os.resolve current_path ++ [Py.strip text]) in *.
  set (fs3 := <[k ++ ["content.bin"] := Os.NFile true blob]> _).
  assert (Hfp : Items.full_path file_item <> "") by (by apply join_nonempty).
  destruct (content_file_path_resolve file_item Hfp Hsl) as (Hcf & Hcfk).
  destruct (password_file_path_resolve file_item Hfp Hsl) as (Hpf & Hpfk & _ & _).
  simpl in Hcfk, Hpfk. rewrite Hres in Hcfk, Hpfk.
  assert (Hload : Items.load_password_hash fs3 file_item = Some blob).
  { unfold Items.load_password_hash, Hash.load_hashed_password, Os.path_exists, Os.read_file.
    destruct (String.eqb_spec (Items.password_file_path file_item) "") as [|_]; [done|].
    rewrite Hpfk, node_at_snoc by done. unfold fs3. rewrite lookup_insert_eq. simpl.
    first [done | by rewrite bool_decide_eq_true_2 by (by eexists)]. }
  split; [done|]. split; [|split; [done|split]].
  - unfold Os.read_file.
    destruct (String.eqb_spec (Items.content_file_path file_item) "") as [|_]; [done|].
    rewrite Hcfk, node_at_snoc by done. unfold fs3.
    rewrite lookup_insert_ne.
    + by rewrite lookup_insert_eq.
    + intros H. by apply app_inj_tail in H as [_ ?].
  - unfold Dashboard.open_file_with_password_check. by rewrite Hload.
  - unfold Dashboard.authenticate, blob. rewrite verify_hash_password by done.
    by rewrite bool_decide_eq_true_2.
Qed.

Lemma created_file_is_locked_witness :
  let result := AddItem.accept_dialog Aux.toy_kdf Samples.str_exn Samples.store
                                      "data/" Items.file "Trips" (Some "secret")
                                      Samples.salt in
  let file_item := Items.FileItem "Trips" "data/Trips" in
  let blob := Hash.hash_password Aux.toy_kdf Samples.salt "secret" in
  result.2 = None
  /\ Os.read_file result.1.1 (Items.content_file_path file_item) = Ok []
  /\ Items.load_password_hash result.1.1 file_item = Some blob
  /\ Dashboard.open_file_with_password_check [] result.1.1 file_item "2024-05-01T12:00:00"
     = Dashboard.LoginWindowShown blob
  /\ Dashboard.authenticate Aux.toy_kdf blob "secret" = true.
Proof.
  apply (created_file_is_locked Aux.toy_kdf Samples.str_exn Samples.store
           "data/" "Trips" " secret" "secret " "secret" Samples.salt []
           "2024-05-01T12:00:00").
  - done.
  - vm_compute. reflexivity.
  - done.
  - done.
  - reflexivity.
  - reflexivity.
  - vm_compute. reflexivity.
Defined.

(** *** A file given up *)

Lemma tree_ok_ancestor (fs : Os.filesystem) (k suffix : list string) (n : Os.node) :
  Store.tree_ok fs = true -> suffix <> [] ->
  Os.node_at fs (k ++ suffix) = Some n -> Os.node_at fs k = Some Os.NDir.
Proof.
  intros Hok. revert n. induction suffix as [|x l IH] using rev_ind; [done|].
  intros n _ Hn. unfold Os.node_at in Hn. case_bool_decide as Hsp.
  - destruct Hsp as [Hsp|Hsp].
    + destruct k, l; done.
    + destruct k as [|a k]; [done|]. destruct k, l; simplify_eq/=.
  - apply (tree_ok_parent _ _ _ Hok) in Hn. unfold Os.parent in Hn.
    rewrite app_assoc, removelast_last in Hn.
    destruct l as [|y l]; [by rewrite app_nil_r in Hn|].
    by apply (IH Os.NDir).
Qed.

Lemma makedirs_from_existing (fs : Os.filesystem) (todo above rest : list string) :
  Store.tree_ok fs = true ->
  Os.node_at fs (above ++ todo) = Some Os.NDir ->
  Os.makedirs_from fs above (todo ++ rest) = Os.makedirs_from fs (above ++ todo) rest.
Proof.
  intros Hok. revert above. induction todo as [|c todo IH]; intros above Hdir.
  - by rewrite app_nil_r.
  - simpl. assert (Hc : Os.node_at fs (above ++ [c]) = Some Os.NDir).
    { destruct todo as [|d todo]; [done|].
      apply (tree_ok_ancestor fs (above ++ [c]) (d :: todo) Os.NDir); [done..|].
      by rewrite <- app_assoc. }
    rewrite Hc, IH; by rewrite <- app_assoc.
Qed.

Lemma is_prefix_suffix (k t : list string) :
  Os.is_prefix k t = true -> exists suffix, t = k ++ suffix.
Proof.
  revert t. induction k as [|c k IH]; intros t H.
  - by exists t.
  - destruct t as [|d t]; [done|]. simpl in H.
    apply andb_true_iff in H as [->%String.eqb_eq Hk].
    destruct (IH t Hk) as [suffix ->]. by exists suffix.
Qed.

Lemma is_prefix_self_app (k suffix : list string) : Os.is_prefix k (k ++ suffix) = true.
Proof. induction k as [|c k IH]; [done|]. simpl. by rewrite String.eqb_refl. Qed.

(** Removing a tree that was put where nothing was gives the file system
    back. *)
Lemma remove_tree_fresh (fs fs' : Os.filesystem) (k : list string) :
  Store.tree_ok fs = true -> Os.node_at fs k = None ->
  (forall k0, Os.is_prefix k k0 = false -> fs' !! k0 = fs !! k0) ->
  Os.remove_tree k fs' = fs.
Proof.
  intros Hok Hnone Hframe. apply map_eq. intros k0. unfold Os.remove_tree.
  destruct (Os.is_prefix k k0) eqn:Hp.
  - destruct (is_prefix_suffix _ _ Hp) as [suffix ->].
    rewrite (tree_ok_below fs k suffix Hok Hnone).
    apply map_lookup_filter_None_2. right. intros x _. simpl. by rewrite Hp.
  - rewrite <- (Hframe k0 Hp).
    destruct (fs' !! k0) as [x|] eqn:Hx.
    + by apply map_lookup_filter_Some_2.
    + apply map_lookup_filter_None_2. by left.
Qed.

(** X9. Closing the password dialog of a new file leaves no trace: with
    the directory of the dialog in place and nothing at the path of the new
    file, the directory and the content file that [create_item] made are
    removed again, the file system is exactly as before, no box is shown
    and the dialog stays open. *)
Theorem cancelled_file_leaves_no_trace
  (scrypt : Hash.kdf) (str_exn : exn -> string)
  (fs : Os.filesystem) (current_path text : string) (salt : list byte) :
  Os.path_isdir fs current_path = true ->
  Store.tree_ok fs = true ->
  Py.strip text <> "" -> Dashboard.has_invalid_char (Py.strip text) = false ->
  Py.strip text <> "." -> Py.strip text <> ".." ->
  Os.path_exists fs (PosixPath.join current_path (Py.strip text)) = false ->
  AddItem.accept_dialog scrypt str_exn fs current_path Items.file text None salt
  = (fs, false, None).
Proof.
  intros Hdir Hok Hne Hgood Hdot _ Hex.
  destruct (path_isdir_node _ _ Hdir) as [Hcp Hnode].
  unfold AddItem.accept_dialog, AddItem.accept_dialog_name.
  destruct (String.eqb_spec (Py.strip text) "") as [|_]; [done|]. rewrite Hgood.
  pose proof (has_invalid_char_slash _ Hgood) as Hsl.
  assert (Hcomp : Os.is_component (Py.strip text) = true).
  { unfold Os.is_component.
    destruct (String.eqb_spec (Py.strip text) "") as [|_]; [done|].
    by destruct (String.eqb_spec (Py.strip text) ".") as [|_]. }
  set (name := Py.strip text) in *.
  set (k := Os.resolve current_path ++ [name]).
  assert (Hres : Os.resolve (PosixPath.join current_path name) = k)
    by (by apply resolve_join).
  assert (Hfd : PosixPath.join current_path name <> "") by (by apply join_nonempty).
  pose proof (path_exists_false _ _ Hfd Hex) as Hnone. rewrite Hres in Hnone.
  assert (Hmk : Os.makedirs fs (PosixPath.join current_path name)
                = Ok (<[k := Os.NDir]> fs)).
  { unfold Os.makedirs. destruct (String.eqb_spec (PosixPath.join current_path name) "");
      [done|].
    rewrite Hres. unfold k.
    rewrite (makedirs_from_existing fs (Os.resolve current_path) [] [name]) by done.
    simpl. fold k. by rewrite Hnone. }
  unfold AddItem.create_item. rewrite Hex, Hmk.
  destruct (create_file_steps fs _ current_path name [] Hcp Hsl Hcomp Hok Hex Hmk)
    as (_ & Hk1 & -> & _).
  fold k. unfold Os.rmtree.
  destruct (String.eqb_spec (PosixPath.join current_path name) "") as [|_]; [done|].
  rewrite Hres.
  assert (Os.node_at (<[k ++ ["content.html"] := Os.NFile true []]> (<[k := Os.NDir]> fs)) k
          = Some Os.NDir) as ->.
  { unfold k at 3. rewrite node_at_snoc by (intros ->; done). fold k.
    rewrite lookup_insert_ne; [apply lookup_insert_eq|].
    intros H. apply (f_equal length) in H. rewrite !length_app in H. simpl in H. lia. }
  rewrite (remove_tree_fresh fs _ k Hok Hnone); [done|].
  intros k0 Hp. rewrite !lookup_insert_ne; [done| |].
  - intros <-. pose proof (is_prefix_self_app k []) as Hk.
    rewrite app_nil_r in Hk. by rewrite Hk in Hp.
  - intros <-. by rewrite is_prefix_self_app in Hp.
Qed.

Lemma cancelled_file_leaves_no_trace_witness :
  AddItem.accept_dialog Aux.toy_kdf Samples.str_exn Samples.store "data/" Items.file
                        " Trips " None Samples.salt
  = (Samples.store, false, None).
Proof.
  apply (cancelled_file_leaves_no_trace Aux.toy_kdf Samples.str_exn Samples.store
           "data/" " Trips " Samples.salt).
  - vm_compute. reflexivity.
  - vm_compute. reflexivity.
  - done.
  - reflexivity.
  - done.
  - done.
  - vm_compute. reflexivity.
Defined.

(** ** Opening files *)

Lemma makedirs_from_only_dirs (todo above : list string) (fs fs' : Os.filesystem) :
  Os.makedirs_from fs above todo = Ok fs' ->
  forall k, fs' !! k = fs !! k \/ (fs !! k = None /\ fs' !! k = Some Os.NDir).
Proof.
  revert above fs. induction todo as [|c rest IH]; intros above fs H k; simpl in H.
  - injection H as <-. by left.
  - destruct (Os.node_at fs (above ++ [c])) as [[|]|] eqn:Hk; [done|by apply (IH _ _ H)|].
    destruct (node_at_none _ _ Hk) as (Hnone & _ & _).
    destruct (IH _ _ H k) as [Heq|[Hn Hd]].
    + destruct (decide (k = above ++ [c])) as [->|Hne].
      * right. by rewrite Heq, lookup_insert_eq.
      * left. by rewrite Heq, lookup_insert_ne.
    + destruct (decide (k = above ++ [c])) as [->|Hne].
      * by rewrite lookup_insert_eq in Hn.
      * right. by rewrite lookup_insert_ne in Hn.
Qed.

Lemma path_exists_node (fs : Os.filesystem) (p : string) (n : Os.node) :
  p <> "" -> Os.node_at fs (Os.resolve p) = Some n -> Os.path_exists fs p = true.
Proof.
  intros Hp Hn. unfold Os.path_exists. rewrite Hn.
  destruct (String.eqb_spec p "") as [|_]; [done|]. simpl.
  first [done | apply bool_decide_eq_true_2; by eexists].
Qed.

(** *** The editor on the content file *)

Lemma content_file_key (item : Items.FileSystemItem) :
  Items.content_file_path item <> ""
  /\ exists l, Os.resolve (Items.content_file_path item) = l ++ ["content.html"].
Proof.
  unfold Items.content_file_path.
  set (d := PosixPath.dirname _).
  destruct (String.eqb_spec d "") as [->|Hd].
  - split; [done|]. by exists [].
  - split; [by apply join_nonempty|].
    exists (Os.resolve d). by apply resolve_join.
Qed.

Section Editor.
Context {str QTextEdit : Type}.
Variable decode : list byte -> option str.
Variable encode : str -> list byte.
Variable ClickableTextEdit : QTextEdit.
Variable setHtml : QTextEdit -> str -> QTextEdit.
Variable toHtml : QTextEdit -> str.
Variable setup : QTextEdit -> QTextEdit.
Variable str_called_process_error : string -> nat -> string.

(** A session without Ctrl+S writes nothing. *)
Lemma session_without_save (session : list (Notepad.action QTextEdit))
      (fs : Os.filesystem) (editor : QTextEdit) :
  Forall (fun a => Notepad.saved_path QTextEdit a = "") session ->
  foldl (Notepad.handle str QTextEdit encode toHtml) (fs, editor) session
  = (fs, Notepad.edited QTextEdit session editor).
Proof.
  intros Hall. revert editor.
  induction Hall as [|a session Ha _ IH]; intros editor; [done|].
  unfold Notepad.edited. cbn [foldl]. destruct a as [f|path]; simpl in *.
  - apply IH.
  - subst path. apply IH.
Qed.

(** What [write_html] does to the file system: the node of the path at
    most. *)
Lemma write_html_frame (fs : Os.filesystem) (p : string) (editor : QTextEdit)
      (k : list string) :
  k <> Os.resolve p ->
  Notepad.write_html str QTextEdit encode toHtml fs p editor !! k = fs !! k.
Proof.
  intros Hk. unfold Notepad.write_html, Os.write_file.
  destruct (String.eqb p ""); [done|].
  destruct (Os.node_at fs (Os.parent (Os.resolve p))) as [[|]|]; try done.
  destruct (Os.node_at fs (Os.resolve p)) as [[r d|]|]; try done;
    by rewrite lookup_insert_ne.
Qed.

Lemma write_html_file (fs : Os.filesystem) (p : string) (editor : QTextEdit)
      (l : list string) (c : string) (r : bool) (d : list byte) :
  p <> "" -> Os.resolve p = l ++ [c] -> c <> "/" ->
  fs !! (l ++ [c]) = Some (Os.NFile r d) ->
  (exists d', Notepad.write_html str QTextEdit encode toHtml fs p editor !! (l ++ [c])
              = Some (Os.NFile r d'))
  /\ (Os.node_at fs l = Some Os.NDir ->
      Notepad.write_html str QTextEdit encode toHtml fs p editor !! (l ++ [c])
      = Some (Os.NFile r (encode (toHtml editor)))).
Proof.
  intros Hp Hres Hc Hnode. unfold Notepad.write_html, Os.write_file.
  destruct (String.eqb_spec p "") as [|_]; [done|].
  rewrite Hres. unfold Os.parent. rewrite removelast_last, (node_at_snoc _ _ _ Hc), Hnode.
  destruct (Os.node_at fs l) as [[r0 d0|]|].
  - split; [by eexists|done].
  - rewrite lookup_insert_eq. split; [by eexists|done].
  - split; [by eexists|done].
Qed.

Lemma read_file_lookup (fs : Os.filesystem) (p : string) (l : list string) (c : string)
      (data : list byte) :
  p <> "" -> Os.resolve p = l ++ [c] -> c <> "/" ->
  Os.read_file fs p = Ok data <-> fs !! (l ++ [c]) = Some (Os.NFile true data).
Proof.
  intros Hp Hres Hc. unfold Os.read_file.
  destruct (String.eqb_spec p "") as [|_]; [done|].
  rewrite Hres, (node_at_snoc _ _ _ Hc).
  destruct (fs !! (l ++ [c])) as [[[|] d|]|]; split; intros H; by simplify_eq.
Qed.

Lemma path_exists_lookup (fs : Os.filesystem) (p : string) (l : list string) (c : string) :
  p <> "" -> Os.resolve p = l ++ [c] -> c <> "/" ->
  Os.path_exists fs p = true <-> is_Some (fs !! (l ++ [c])).
Proof.
  intros Hp Hres Hc. unfold Os.path_exists.
  destruct (String.eqb_spec p "") as [|_]; [done|]. simpl.
  rewrite Hres, (node_at_snoc _ _ _ Hc). apply bool_decide_eq_true.
Qed.

(** X10. [open_file_content] touches the content file of the item only.
    For a session in which nothing is saved under another name, when the
    call returns the content file exists; every other node that was there
    is still there with the same content, and what is new beside it are
    directories. When the editor could load the content file (the one that
    was there in a well-formed store, or the one just created), no box is
    shown and the file holds the HTML of the widget as the session left it;
    when the editor could not load a content file that was there, the file
    system is as before and the failure is shown in a box. *)
Theorem open_file_content_touches_only_content
  (fs fs' : Os.filesystem) (box : option Dashboard.MessageBox)
  (file_item : Items.FileSystemItem) (session : list (Notepad.action QTextEdit)) :
  let content_file := Items.content_file_path file_item in
  let html_after html :=
    encode (toHtml (Notepad.edited QTextEdit session
                      (setup (setHtml ClickableTextEdit html)))) in
  Forall (fun a => Notepad.saved_path QTextEdit a = "") session ->
  Opening.open_file_content str QTextEdit decode encode ClickableTextEdit setHtml toHtml
    setup str_called_process_error fs file_item session = Ok (fs', box) ->
  Os.path_exists fs' content_file = true
  /\ (forall k n, k <> Os.resolve content_file -> fs !! k = Some n -> fs' !! k = Some n)
  /\ (forall k, k <> Os.resolve content_file -> fs !! k = None ->
                fs' !! k = None \/ fs' !! k = Some Os.NDir)
  /\ (forall data html,
        Store.tree_ok fs = true ->
        Os.read_file fs content_file = Ok data -> decode data = Some html ->
        box = None /\ Os.read_file fs' content_file = Ok (html_after html))
  /\ (forall html,
        Os.path_exists fs content_file = false ->
        decode (Py.encode_utf8 Opening.LF) = Some html ->
        box = None /\ Os.read_file fs' content_file = Ok (html_after html))
  /\ (Os.path_exists fs content_file = true ->
      Notepad.load_autosave str QTextEdit decode setHtml fs content_file ClickableTextEdit
      = None ->
      fs' = fs
      /\ box = Some (Dashboard.Critical
                       "Error"
                       ("Failed to open notepad: "
                        +:+ str_called_process_error content_file 1))).
Proof.
  intros cf html_after Hsession.
  destruct (content_file_key file_item) as (Hcf & l & Hres). fold cf in Hcf, Hres.
  assert (Hc : "content.html" <> "/") by done.
  unfold Opening.open_file_content. fold cf.
  destruct (Os.path_exists fs cf) eqn:Hex; cbn [negb].
  - (* the content file is there *)
    cbn [mbind res_bind]. unfold Notepad.main. cbn [Notepad.AUTOSAVE_PATH].
    apply (path_exists_lookup _ _ _ _ Hcf Hres Hc) in Hex as [n Hn].
    destruct (Notepad.load_autosave _ _ _ _ fs cf ClickableTextEdit)
      as [editor|] eqn:Hload.
    + rewrite (session_without_save _ _ _ Hsession). cbn [fst snd Nat.eqb].
      intros [= <- <-]. unfold Notepad.closeEvent.
      unfold Notepad.load_autosave in Hload.
      destruct (Os.read_file fs cf) as [data|e] eqn:Hread.
      2:{ apply (f_equal (fun r => match r with Ok _ => true | Raise _ => false end))
            in Hread as Hr. unfold Os.read_file in Hread.
          destruct (String.eqb_spec cf "") as [|_]; [done|].
          rewrite Hres, (node_at_snoc _ _ _ Hc), Hn in Hread.
          destruct n as [[|] d|]; simplify_eq; done. }
      apply (read_file_lookup _ _ _ _ _ Hcf Hres Hc) in Hread.
      destruct (write_html_file fs cf (Notepad.edited QTextEdit session (setup editor))
                  l _ _ _ Hcf Hres Hc Hread) as [[d' Hany] Hdir].
      split; [|split; [|split; [|split; [|split]]]].
      * apply (path_exists_lookup _ _ _ _ Hcf Hres Hc). by eexists.
      * intros k n0 Hk H0. by rewrite write_html_frame.
      * intros k Hk H0. left. by rewrite write_html_frame.
      * intros data0 html Hok [= <-] Hdec. split; [done|].
        rewrite Hdec in Hload. injection Hload as <-.
        apply (read_file_lookup _ _ _ _ _ Hcf Hres Hc). apply Hdir.
        pose proof (tree_ok_parent _ _ _ Hok Hread) as Hp.
        unfold Os.parent in Hp. by rewrite removelast_last in Hp.
      * done.
      * done.
    + cbn [Nat.eqb]. intros [= <- <-].
      split; [|split; [|split; [|split; [|split]]]].
      * apply (path_exists_lookup _ _ _ _ Hcf Hres Hc). by eexists.
      * done.
      * intros k _ H0. by left.
      * intros data html _ Hread Hdec. unfold Notepad.load_autosave in Hload.
        by rewrite Hread, Hdec in Hload.
      * done.
      * done.
  - (* the content file is created *)
    pose proof (path_exists_false _ _ Hcf Hex) as Hnone.
    rewrite Hres, (node_at_snoc _ _ _ Hc) in Hnone.
    destruct (fs0 ← (if negb (Os.path_exists fs (PosixPath.dirname cf))
                     then Os.makedirs fs (PosixPath.dirname cf) else Ok fs);
              Os.write_file fs0 cf (Py.encode_utf8 Opening.LF)) as [fs1|e] eqn:Hcreate;
      [|done].
    cbn [mbind res_bind].
    assert (exists fs0, (forall k, fs0 !! k = fs !! k
                                   \/ (fs !! k = None /\ fs0 !! k = Some Os.NDir))
                        /\ Os.write_file fs0 cf (Py.encode_utf8 Opening.LF) = Ok fs1)
      as (fs0 & Hfs0 & Hw).
    { destruct (negb (Os.path_exists fs (PosixPath.dirname cf))).
      - destruct (Os.makedirs fs (PosixPath.dirname cf)) as [fs0|e] eqn:Hmk; [|done].
        exists fs0. split; [|done]. unfold Os.makedirs in Hmk.
        destruct (String.eqb (PosixPath.dirname cf) ""); [done|].
        by apply (makedirs_from_only_dirs _ _ _ _ Hmk).
      - exists fs. split; [|done]. by left. }
    clear Hcreate. unfold Os.write_file in Hw.
    destruct (String.eqb_spec cf "") as [|_]; [done|].
    rewrite Hres in Hw. unfold Os.parent in Hw.
    rewrite removelast_last, (node_at_snoc _ _ _ Hc) in Hw.
    destruct (Os.node_at fs0 l) as [[|]|] eqn:Hl; try done.
    assert (Hnew : fs1 = <[l ++ ["content.html"]
                          := Os.NFile true (Py.encode_utf8 Opening.LF)]> fs0).
    { destruct (Hfs0 (l ++ ["content.html"])) as [Heq|[_ Hd]].
      - rewrite Heq, Hnone in Hw. by injection Hw as <-.
      - by rewrite Hd in Hw. }
    assert (Hl1 : Os.node_at fs1 l = Some Os.NDir).
    { subst fs1. unfold Os.node_at in *. case_bool_decide; [done|].
      rewrite lookup_insert_ne; [done|]. intros H0.
      apply (f_equal length) in H0. rewrite length_app in H0. simpl in H0. lia. }
    assert (Hread1 : fs1 !! (l ++ ["content.html"])
                     = Some (Os.NFile true (Py.encode_utf8 Opening.LF))).
    { subst fs1. by rewrite lookup_insert_eq. }
    assert (Hother : forall k, k <> l ++ ["content.html"] ->
               fs1 !! k = fs !! k \/ (fs !! k = None /\ fs1 !! k = Some Os.NDir)).
    { intros k Hk. subst fs1. rewrite lookup_insert_ne by done. apply Hfs0. }
    unfold Notepad.main. cbn [Notepad.AUTOSAVE_PATH].
    unfold Notepad.load_autosave.
    rewrite (proj2 (read_file_lookup fs1 cf _ _ _ Hcf Hres Hc) Hread1).
    destruct (decode (Py.encode_utf8 Opening.LF)) as [html0|] eqn:Hdec.
    + rewrite (session_without_save _ _ _ Hsession). cbn [fst snd Nat.eqb].
      intros [= <- <-]. unfold Notepad.closeEvent.
      destruct (write_html_file fs1 cf
                  (Notepad.edited QTextEdit session (setup (setHtml ClickableTextEdit html0)))
                  l _ _ _ Hcf Hres Hc Hread1) as [[d' Hany] Hdir].
      split; [|split; [|split; [|split; [|split]]]].
      * apply (path_exists_lookup _ _ _ _ Hcf Hres Hc). by eexists.
      * intros k n0 Hk H0. rewrite Hres in Hk. rewrite write_html_frame by by rewrite Hres.
        destruct (Hother k Hk) as [->|[Hn _]]; [done|]. by rewrite Hn in H0.
      * intros k Hk H0. rewrite Hres in Hk. rewrite write_html_frame by by rewrite Hres.
        destruct (Hother k Hk) as [->|[_ ->]]; [by left|by right].
      * intros data html _ Hread0.
        apply (read_file_lookup _ _ _ _ _ Hcf Hres Hc) in Hread0.
        by rewrite Hnone in Hread0.
      * intros html _ [= <-]. split; [done|].
        apply (read_file_lookup _ _ _ _ _ Hcf Hres Hc). by apply Hdir.
      * done.
    + cbn [Nat.eqb]. intros [= <- <-].
      split; [|split; [|split; [|split; [|split]]]].
      * apply (path_exists_lookup _ _ _ _ Hcf Hres Hc). by eexists.
      * intros k n0 Hk H0. rewrite Hres in Hk.
        destruct (Hother k Hk) as [->|[Hn _]]; [done|]. by rewrite Hn in H0.
      * intros k Hk H0. rewrite Hres in Hk.
        destruct (Hother k Hk) as [->|[_ ->]]; [by left|by right].
      * intros data html _ Hread0.
        apply (read_file_lookup _ _ _ _ _ Hcf Hres Hc) in Hread0.
        by rewrite Hnone in Hread0.
      * done.
      * done.
Qed.

End Editor.

Lemma open_file_content_touches_only_content_witness :
  let file_item := Items.FileItem "Empty" "data/Empty" in
  let content_file := Items.content_file_path file_item in
  let fs' := <[["data"; "Empty"; "content.html"] := Os.NFile true ["010"; "x"]%byte]>
               Cases.store_with_empty in
  Os.path_exists fs' content_file = true
  /\ (forall k n, k <> Os.resolve content_file ->
                  Cases.store_with_empty !! k = Some n -> fs' !! k = Some n)
  /\ Os.read_file fs' content_file = Ok ["010"; "x"]%byte.
Proof.
  intros file_item content_file fs'.
  set (session := [Notepad.Edit (fun editor : list byte => editor ++ ["x"%byte])]).
  assert (Hs : Forall (fun a => Notepad.saved_path (list byte) a = "") session).
  { by repeat constructor. }
  assert (H : Opening.open_file_content (list byte) (list byte) Some id [] Cases.toy_setHtml
                id id Cases.toy_str_error Cases.store_with_empty file_item session
              = Ok (fs', None))
    by (vm_cast_no_check
          (@eq_refl _ (@Ok (Os.filesystem * option Dashboard.MessageBox) (fs', None)))).
  pose proof (open_file_content_touches_only_content
                Some id [] Cases.toy_setHtml id id Cases.toy_str_error
                Cases.store_with_empty fs' None file_item session Hs H)
    as (Hexists & Hkept & _ & _ & Hnew & _).
  split; [exact Hexists|]. split; [exact Hkept|].
  assert (Hno : Os.path_exists Cases.store_with_empty content_file = false)
    by (vm_compute; reflexivity).
  exact (proj2 (Hnew ["010"%byte] Hno eq_refl)).
Defined.

(** *** Entries of the indexes whose file is gone *)

Lemma rmtree_gone (fs fs' : Os.filesystem) (p q : string) (k : list string) (c : string) :
  Os.resolve p = k ++ [c] -> c <> "/" ->
  Os.rmtree fs p = Ok fs' ->
  Os.is_prefix (Os.resolve p) (Os.resolve q) = true ->
  Os.path_exists fs' q = false.
Proof.
  intros Hres Hc Hrm Hpre. unfold Os.rmtree in Hrm.
  destruct (String.eqb p ""); [done|].
  destruct (Os.node_at fs (Os.resolve p)) as [[|]|]; try done.
  injection Hrm as <-. unfold Os.path_exists.
  destruct (negb (String.eqb q "")); [|done]. simpl.
  apply bool_decide_eq_false_2. intros [n Hn].
  destruct (is_prefix_suffix _ _ Hpre) as [suffix Hq]. rewrite Hq, Hres in Hn.
  unfold Os.node_at in Hn. rewrite bool_decide_eq_false_2 in Hn.
  - unfold Os.remove_tree in Hn. apply map_lookup_filter_Some_1_2 in Hn. simpl in Hn.
    rewrite <- Hres in Hn. by rewrite is_prefix_self_app in Hn.
  - intros [H|H].
    + destruct k; done.
    + destruct k as [|a [|b k]]; simplify_eq/=.
Qed.

(** X11. After a folder or a file right below a directory was deleted,
    the entries of the history and of the pins that point at it or below it
    are dead: a click on such an entry shows the warning that the file no
    longer exists and opens nothing, and pinning by such a path changes
    nothing. *)
Theorem deleted_paths_do_not_open
  (str_exn : exn -> string) (self : Dashboard.MainWindow) (fs : Os.filesystem)
  (item : Items.FileSystemItem) (current_path file_path now : string) :
  let deleted := Dashboard.delete_item str_exn self fs item true in
  current_path <> "" ->
  Navigation.name_ok (Items.name item) = true ->
  Items.full_path item = PosixPath.join current_path (Items.name item) ->
  Os.is_prefix (Os.resolve (Items.full_path item)) (Os.resolve file_path) = true ->
  deleted.2 = None ->
  Opening.on_history_file_clicked (Dashboard.history_manager deleted.1.2)
                                  deleted.1.1 file_path now
  = inl (Opening.file_not_found file_path)
  /\ Opening.on_pinned_file_clicked (Dashboard.history_manager deleted.1.2)
                                    deleted.1.1 file_path now
     = inl (Opening.file_not_found file_path)
  /\ Opening.pin_file_by_path (Dashboard.pin_manager deleted.1.2)
                              deleted.1.1 file_path now
     = (Dashboard.pin_manager deleted.1.2, None).
Proof.
  intros deleted Hcp Hname Hfp Hpre Hdel.
  destruct (name_ok_parts _ Hname) as (Hne & Hsl & Hcomp & Hroot).
  apply delete_item_success in Hdel as (Hrm & _ & _). fold deleted in Hrm.
  assert (Hres : Os.resolve (Items.full_path item)
                 = Os.resolve current_path ++ [Items.name item]).
  { rewrite Hfp. by apply resolve_join. }
  pose proof (rmtree_gone _ _ _ file_path _ _ Hres Hroot Hrm Hpre) as Hgone.
  unfold Opening.on_history_file_clicked, Opening.on_pinned_file_clicked,
    Opening.pin_file_by_path.
  by rewrite Hgone.
Qed.

Lemma deleted_paths_do_not_open_witness :
  let deleted := Dashboard.delete_item Samples.str_exn Samples.window Samples.store
                                       Samples.folder_A true in
  Opening.on_history_file_clicked (Dashboard.history_manager deleted.1.2)
                                  deleted.1.1 "data/-__A/doc" "2024-05-01T12:00:00"
  = inl (Opening.file_not_found "data/-__A/doc")
  /\ Opening.on_pinned_file_clicked (Dashboard.history_manager deleted.1.2)
                                    deleted.1.1 "data/-__A/doc" "2024-05-01T12:00:00"
     = inl (Opening.file_not_found "data/-__A/doc")
  /\ Opening.pin_file_by_path (Dashboard.pin_manager deleted.1.2)
                              deleted.1.1 "data/-__A/doc" "2024-05-01T12:00:00"
     = (Dashboard.pin_manager deleted.1.2, None).
Proof.
  apply (deleted_paths_do_not_open Samples.str_exn Samples.window Samples.store
           Samples.folder_A "data/" "data/-__A/doc" "2024-05-01T12:00:00").
  - done.
  - reflexivity.
  - reflexivity.
  - reflexivity.
  - vm_compute. reflexivity.
Defined.

(** ** Renaming keeps what a file holds *)

(** *** The file system after [os.rename] *)

Lemma is_prefix_drop (src k : list string) :
  Os.is_prefix src k = true -> k = src ++ drop (length src) k.
Proof.
  intros H. destruct (is_prefix_suffix _ _ H) as [s ->].
  by rewrite drop_app_length.
Qed.

Lemma app_comparable (a b s t : list string) :
  a ++ s = b ++ t -> Os.is_prefix a b = true \/ Os.is_prefix b a = true.
Proof.
  revert b. induction a as [|x a IH]; intros [|y b] H; simpl; auto.
  simpl in H. injection H as -> H. rewrite String.eqb_refl. simpl. by apply IH.
Qed.

Lemma is_prefix_false_app (a k s : list string) :
  Os.is_prefix a k = false -> length a <= length k -> Os.is_prefix a (k ++ s) = false.
Proof.
  revert k. induction a as [|x a IH]; intros [|y k]; simpl; try done; [lia|].
  intros H Hl. destruct (String.eqb x y); [|done]. simpl in *. apply IH; [done|lia].
Qed.

Section Relocate.
Variables (fs : Os.filesystem) (src dst : list string).
Hypothesis Hbelow : forall s, fs !! (dst ++ s) = None.
Hypothesis Hout : Os.is_prefix src dst = false.

Let f (k : list string) : list string :=
  if Os.is_prefix src k then dst ++ drop (length src) k else k.

Lemma relocate_key_inj (k1 k2 : list string) :
  is_Some (fs !! k1) -> is_Some (fs !! k2) -> f k1 = f k2 -> k1 = k2.
Proof.
  intros [n1 H1] [n2 H2]. unfold f.
  destruct (Os.is_prefix src k1) eqn:P1, (Os.is_prefix src k2) eqn:P2; intros Heq.
  - apply app_inv_head in Heq.
    by rewrite (is_prefix_drop _ _ P1), (is_prefix_drop _ _ P2), Heq.
  - rewrite <- Heq in H2. by rewrite Hbelow in H2.
  - rewrite Heq in H1. by rewrite Hbelow in H1.
  - done.
Qed.

Lemma relocate_lookup_Some (k' : list string) (n : Os.node) :
  Os.relocate src dst fs !! k' = Some n <->
  exists k, fs !! k = Some n /\ f k = k'.
Proof.
  unfold Os.relocate.
  set (g := fun kn : list string * Os.node =>
              (if Os.is_prefix src kn.1 then dst ++ drop (length src) kn.1 else kn.1, kn.2)).
  assert (Hnodup : NoDup (List.map g (map_to_list fs)).*1).
  { assert (Hinj : forall l : list (list string * Os.node),
               NoDup l.*1 -> (forall kn, kn ∈ l -> is_Some (fs !! kn.1)) ->
               NoDup (List.map g l).*1).
    { induction l as [|[k1 n1] l IH]; intros Hnd Hin; simpl; [constructor|].
      apply NoDup_cons in Hnd as [Hk Hnd]. constructor.
      - intros Hmem. apply list_elem_of_fmap in Hmem as ([k2' n2'] & Hfst & Hm).
        apply list_elem_of_In, in_map_iff in Hm as ([k2 n2] & Hg & Hm).
        apply list_elem_of_In in Hm. unfold g in Hg. simpl in *.
        injection Hg as <- <-. subst.
        assert (k1 = k2) as ->.
        { apply relocate_key_inj.
          - apply (Hin (k1, n1)). left.
          - apply (Hin (k2, n2)). by right.
          - by unfold f. }
        apply Hk. apply list_elem_of_fmap. by exists (k2, n2).
      - apply IH; [done|]. intros kn Hkn. apply Hin. by right. }
    apply Hinj; [apply NoDup_fst_map_to_list|].
    intros [k1 n1] Hkn. apply elem_of_map_to_list in Hkn. by exists n1. }
  rewrite <- (elem_of_list_to_map _ _ _ Hnodup). split.
  - intros Hin. apply list_elem_of_In, in_map_iff in Hin as ([k n0] & Hg & Hm).
    apply list_elem_of_In, elem_of_map_to_list in Hm. unfold g in Hg. simpl in Hg.
    injection Hg as <- <-. by exists k.
  - intros (k & Hk & <-). apply list_elem_of_In, in_map_iff.
    exists (k, n). split; [done|]. by apply list_elem_of_In, elem_of_map_to_list.
Qed.

(** What was at or below the source is at or below the destination. *)
Lemma relocate_moved (s : list string) :
  Os.relocate src dst fs !! (dst ++ s) = fs !! (src ++ s).
Proof.
  apply option_eq. intros n. rewrite relocate_lookup_Some. split.
  - intros (k & Hk & Hf). unfold f in Hf. destruct (Os.is_prefix src k) eqn:P.
    + apply app_inv_head in Hf. by rewrite <- Hf, <- (is_prefix_drop _ _ P).
    + rewrite Hf in Hk. by rewrite Hbelow in Hk.
  - intros Hs. exists (src ++ s). split; [done|]. unfold f.
    by rewrite is_prefix_self_app, drop_app_length.
Qed.

(** Nothing is left at or below the source. *)
Lemma relocate_source_gone (s : list string) :
  Os.relocate src dst fs !! (src ++ s) = None.
Proof.
  destruct (Os.relocate src dst fs !! (src ++ s)) as [n|] eqn:Hn; [|done].
  apply relocate_lookup_Some in Hn as (k & Hk & Hf). unfold f in Hf.
  destruct (Os.is_prefix src k) eqn:P.
  - destruct (app_comparable _ _ _ _ Hf) as [Hd|Hd]; [|by rewrite Hout in Hd].
    destruct (is_prefix_suffix _ _ Hd) as [t Ht].
    destruct (is_prefix_suffix _ _ P) as [u ->].
    rewrite Ht, <- app_assoc in Hk.
    by rewrite Hbelow in Hk.
  - rewrite Hf in P. by rewrite is_prefix_self_app in P.
Qed.

(** Everything else stays. *)
Lemma relocate_other (k : list string) :
  Os.is_prefix src k = false -> Os.is_prefix dst k = false ->
  Os.relocate src dst fs !! k = fs !! k.
Proof.
  intros Ps Pd. apply option_eq. intros n. rewrite relocate_lookup_Some. split.
  - intros (k0 & Hk0 & Hf). unfold f in Hf. destruct (Os.is_prefix src k0) eqn:P.
    + rewrite <- Hf in Pd. by rewrite is_prefix_self_app in Pd.
    + by subst.
  - intros Hk. exists k. split; [done|]. unfold f. by rewrite Ps.
Qed.

End Relocate.

(** *** The renamed file *)

Lemma is_prefix_same_length (a b : list string) :
  Os.is_prefix a b = true -> length a = length b -> a = b.
Proof.
  revert b. induction a as [|x a IH]; intros [|y b]; simpl; try done.
  intros [->%String.eqb_eq H]%andb_true_iff [= Hl]. f_equal. by apply IH.
Qed.

Lemma basename_join (d b : string) :
  d <> "" -> Py.contains_char "/" b = false -> PosixPath.basename (PosixPath.join d b) = b.
Proof.
  intros Hd Hb. destruct (join_decomp d b Hd Hb) as (x & -> & _).
  unfold PosixPath.basename. by rewrite (split_last_slash_app x b Hb).
Qed.

(** The credential of an item is read off the node of its credential file. *)
Lemma load_password_hash_node (fs : Os.filesystem) (item : Items.FileSystemItem) :
  Items.password_file_path item <> "" ->
  Items.load_password_hash fs item
  = match Os.node_at fs (Os.resolve (Items.password_file_path item)) with
    | Some (Os.NFile true data) => Some data
    | _ => None
    end.
Proof.
  intros Hpf. unfold Items.load_password_hash, Hash.load_hashed_password,
    Os.path_exists, Os.read_file.
  destruct (String.eqb_spec (Items.password_file_path item) "") as [|_]; [done|].
  simpl. case_bool_decide as Hsome.
  - simpl. by destruct (Os.node_at fs _) as [[[|] data|]|].
  - destruct (Os.node_at fs _) as [n|]; [|done]. exfalso. apply Hsome. by eexists.
Qed.

Lemma read_file_node (fs fs' : Os.filesystem) (p p' : string) :
  p <> "" -> p' <> "" ->
  Os.node_at fs' (Os.resolve p') = Os.node_at fs (Os.resolve p) ->
  Os.read_file fs' p' = Os.read_file fs p.
Proof.
  intros Hp Hp' Hn. unfold Os.read_file. rewrite Hn.
  destruct (String.eqb_spec p "") as [|_]; [done|].
  by destruct (String.eqb_spec p' "") as [|_].
Qed.

Lemma rename_item_steps str_exn self fs item text :
  let renamed := Dashboard.rename_item str_exn self fs item text in
  let new_path := Dashboard.rename_destination item (Py.strip text) in
  renamed.2 = None ->
  Py.strip text <> ""
  /\ Dashboard.has_invalid_char (Py.strip text) = false
  /\ Os.path_exists fs new_path = false
  /\ Os.rename fs (Items.full_path item) new_path = Ok renamed.1.1.
Proof.
  unfold Dashboard.rename_item, Dashboard.rename_accept_dialog.
  destruct (String.eqb_spec (Py.strip text) "") as [|Hne]; [done|].
  destruct (Py.strip text =? Items.display_name item)%string; [done|].
  destruct (Dashboard.has_invalid_char (Py.strip text)); [done|].
  unfold Dashboard.fs_rename_item.
  destruct (Os.path_exists fs _); [done|].
  by destruct (Os.rename fs _ _) as [fs1|e].
Qed.

(** [os.rename] onto a free path in a tree *)
Lemma rename_relocates (fs fs' : Os.filesystem) (src dst : string) :
  dst <> "" -> Os.path_exists fs dst = false ->
  Os.rename fs src dst = Ok fs' ->
  Os.node_at fs (Os.resolve dst) = None
  /\ Os.is_prefix (Os.resolve src) (Os.resolve dst) = false
  /\ is_Some (Os.node_at fs (Os.resolve src))
  /\ fs' = Os.relocate (Os.resolve src) (Os.resolve dst) fs.
Proof.
  intros Hdst Hex. pose proof (path_exists_false _ _ Hdst Hex) as Hnone.
  unfold Os.rename. destruct (_ || _); [done|]. simpl.
  destruct (Os.node_at fs (Os.resolve src)) as [n|] eqn:Hsrc; [|done].
  case_bool_decide as Heq.
  { rewrite Heq in Hsrc. by rewrite Hnone in Hsrc. }
  destruct (Os.is_prefix (Os.resolve src) (Os.resolve dst)); [done|].
  destruct (Os.node_at fs (Os.parent (Os.resolve dst))) as [[|]|]; try done.
  rewrite Hnone. intros [= <-].
  split; [done|]. split; [done|]. split; [by eexists|done].
Qed.

(** X12. Renaming a file keeps what it holds. After a successful rename
    of a File item listed in a directory, nothing exists at the old path,
    the new path exists, the content file and the credential are found
    under the new path exactly as they were under the old one, and a click
    on the history entry of the new path opens the renamed file through the
    same password check. *)
Theorem renamed_file_keeps_content
  (str_exn : exn -> string) (self : Dashboard.MainWindow) (fs : Os.filesystem)
  (item : Items.FileSystemItem) (current_path text now : string) :
  let renamed := Dashboard.rename_item str_exn self fs item text in
  let new_path := Dashboard.rename_destination item (Py.strip text) in
  let new_item := Items.FileItem (Py.strip text) new_path in
  Items.item_type item = Items.file ->
  current_path <> "" ->
  Navigation.name_ok (Items.name item) = true ->
  Items.full_path item = PosixPath.join current_path (Items.name item) ->
  Store.tree_ok fs = true ->
  Py.strip text <> "." -> Py.strip text <> ".." ->
  renamed.2 = None ->
  Os.path_exists renamed.1.1 (Items.full_path item) = false
  /\ Os.path_exists renamed.1.1 new_path = true
  /\ Items.load_password_hash renamed.1.1 new_item = Items.load_password_hash fs item
  /\ Os.read_file renamed.1.1 (Items.content_file_path new_item)
     = Os.read_file fs (Items.content_file_path item)
  /\ Opening.on_history_file_clicked (Dashboard.history_manager renamed.1.2)
                                     renamed.1.1 new_path now
     = inr (Dashboard.open_file_with_password_check
              (Dashboard.history_manager renamed.1.2) renamed.1.1 new_item now).
Proof.
  intros renamed new_path new_item Hfile Hcp Hname Hfp Htree Hdot _ Hren.
  destruct (name_ok_parts _ Hname) as (Hne & Hsl & Hcomp & Hroot).
  destruct (rename_item_steps _ _ _ _ _ Hren) as (Hnew & Hgood & Hex & Hrename).
  fold renamed in Hrename. fold new_path in Hex, Hrename.
  pose proof (has_invalid_char_slash _ Hgood) as Hnsl.
  assert (Hncomp : Os.is_component (Py.strip text) = true).
  { unfold Os.is_component.
    destruct (String.eqb_spec (Py.strip text) "") as [|_]; [done|].
    by destruct (String.eqb_spec (Py.strip text) ".") as [|_]. }
  assert (Hnroot : Py.strip text <> "/") by (intros E; by rewrite E in Hnsl).
  assert (Hfpne : Items.full_path item <> "") by (rewrite Hfp; by apply join_nonempty).
  assert (Hks : Os.resolve (Items.full_path item)
                = Os.resolve current_path ++ [Items.name item]).
  { rewrite Hfp. by apply resolve_join. }
  destruct (dirname_join current_path (Items.name item) Hcp Hsl) as [Hdir Hdres].
  rewrite <- Hfp in Hdir, Hdres.
  assert (Hnp : new_path = PosixPath.join (PosixPath.dirname (Items.full_path item))
                                          (Py.strip text)).
  { unfold new_path, Dashboard.rename_destination. by rewrite Hfile. }
  assert (Hnpne : new_path <> "") by (rewrite Hnp; by apply join_nonempty).
  assert (Hkd : Os.resolve new_path = Os.resolve current_path ++ [Py.strip text]).
  { rewrite Hnp, resolve_join by done. by rewrite Hdres. }
  destruct (rename_relocates _ _ _ _ Hnpne Hex Hrename) as (Hfree & Hout & [n0 Hsrc] & Hfs').
  set (ks := Os.resolve (Items.full_path item)) in *.
  set (kd := Os.resolve new_path) in *.
  assert (Hbelow : forall s, fs !! (kd ++ s) = None)
    by (intros s; by apply tree_ok_below).
  assert (Hmoved : forall c, c <> "/" ->
             Os.node_at renamed.1.1 (kd ++ [c]) = Os.node_at fs (ks ++ [c])).
  { intros c Hc. rewrite !node_at_snoc by done. rewrite Hfs'.
    by apply relocate_moved. }
  assert (Hat : Os.node_at renamed.1.1 kd = Some n0).
  { pose proof (relocate_moved fs ks kd Hbelow []) as Hm.
    rewrite !app_nil_r in Hm.
    rewrite Hkd, node_at_snoc by done. rewrite <- Hkd, Hfs', Hm.
    rewrite Hks, node_at_snoc in Hsrc by done. by rewrite Hks. }
  assert (Hnew_fp : Items.full_path new_item <> "") by done.
  destruct (password_file_path_resolve item Hfpne Hsl) as (Hpf & Hpfk & _ & _).
  destruct (password_file_path_resolve new_item Hnew_fp Hnsl) as (Hpf' & Hpfk' & _ & _).
  destruct (content_file_path_resolve item Hfpne Hsl) as (Hcf & Hcfk).
  destruct (content_file_path_resolve new_item Hnew_fp Hnsl) as (Hcf' & Hcfk').
  simpl in Hpfk', Hcfk'. fold kd in Hpfk', Hcfk'. fold ks in Hpfk, Hcfk.
  assert (Hexists : Os.path_exists renamed.1.1 new_path = true)
    by (by apply (path_exists_node _ _ n0)).
  split; [|split; [done|split; [|split]]].
  - unfold Os.path_exists. fold ks.
    destruct (negb (String.eqb (Items.full_path item) "")); [|done]. simpl.
    apply bool_decide_eq_false_2. intros [n Hn].
    pose proof (relocate_source_gone fs ks kd Hbelow Hout []) as Hg.
    rewrite !app_nil_r in Hg.
    rewrite Hks, node_at_snoc in Hn by done. rewrite <- Hks, Hfs' in Hn.
    by rewrite Hg in Hn.
  - rewrite !load_password_hash_node by done. rewrite Hpfk', Hpfk. by rewrite Hmoved.
  - apply read_file_node; [done..|]. rewrite Hcfk', Hcfk. by apply Hmoved.
  - unfold Opening.on_history_file_clicked. rewrite Hexists. simpl.
    rewrite Hnp at 1. rewrite basename_join by done. done.
Qed.

Lemma renamed_file_keeps_content_witness :
  let renamed := Dashboard.rename_item Samples.str_exn Samples.window Samples.store
                                       Samples.file_doc " notes " in
  let new_path := Dashboard.rename_destination Samples.file_doc (Py.strip " notes ") in
  let new_item := Items.FileItem (Py.strip " notes ") new_path in
  Os.path_exists renamed.1.1 (Items.full_path Samples.file_doc) = false
  /\ Os.path_exists renamed.1.1 new_path = true
  /\ Items.load_password_hash renamed.1.1 new_item
     = Items.load_password_hash Samples.store Samples.file_doc
  /\ Os.read_file renamed.1.1 (Items.content_file_path new_item)
     = Os.read_file Samples.store (Items.content_file_path Samples.file_doc)
  /\ Opening.on_history_file_clicked (Dashboard.history_manager renamed.1.2)
                                     renamed.1.1 new_path "2024-05-01T12:00:00"
     = inr (Dashboard.open_file_with_password_check
              (Dashboard.history_manager renamed.1.2) renamed.1.1 new_item
              "2024-05-01T12:00:00").
Proof.
  apply (renamed_file_keeps_content Samples.str_exn Samples.window Samples.store
           Samples.file_doc "data/-__A" " notes " "2024-05-01T12:00:00").
  - reflexivity.
  - done.
  - reflexivity.
  - reflexivity.
  - vm_compute. reflexivity.
  - done.
  - done.
  - vm_compute. reflexivity.
Defined.

(** *** The renamed folder *)

Lemma is_prefix_longer (a b : list string) :
  length b < length a -> Os.is_prefix a b = false.
Proof.
  intros Hl. destruct (Os.is_prefix a b) eqn:H; [|done].
  apply is_prefix_length in H. lia.
Qed.

Lemma rename_parent_dir (fs fs' : Os.filesystem) (src dst : string) :
  Os.path_exists fs dst = false -> Os.rename fs src dst = Ok fs' ->
  Os.node_at fs (Os.parent (Os.resolve dst)) = Some Os.NDir.
Proof.
  intros Hex. unfold Os.rename. destruct (String.eqb src "" || String.eqb dst "") eqn:He;
    [done|].
  apply orb_false_iff in He as [_ Hd%String.eqb_neq].
  pose proof (path_exists_false _ _ Hd Hex) as Hnone.
  destruct (Os.node_at fs (Os.resolve src)) as [n|] eqn:Hsrc; [|done].
  case_bool_decide as Heq.
  { rewrite Heq in Hsrc. by rewrite Hnone in Hsrc. }
  destruct (Os.is_prefix (Os.resolve src) (Os.resolve dst)); [done|].
  by destruct (Os.node_at fs (Os.parent (Os.resolve dst))) as [[|]|].
Qed.

(** X13. Renaming a folder moves what it holds and strands the index
    entries below it. After a successful rename of a Folder item listed in
    a directory, a scan of the directory lists the folder under its new
    marked name, a file of the folder has its content and its credential
    under the new folder path exactly as before, and a click on a history
    entry that still names the file by its old path shows the warning that
    the file no longer exists. *)
Theorem renamed_folder_moves_its_files
  (str_exn : exn -> string) (self : Dashboard.MainWindow) (fs : Os.filesystem)
  (manager : Items.FileSystemManager)
  (item : Items.FileSystemItem) (current_path text child now : string) :
  let renamed := Dashboard.rename_item str_exn self fs item text in
  let new_path := Dashboard.rename_destination item (Py.strip text) in
  let old_file := Items.FileItem child (PosixPath.join (Items.full_path item) child) in
  let new_file := Items.FileItem child (PosixPath.join new_path child) in
  Items.item_type item = Items.folder ->
  current_path <> "" ->
  Navigation.name_ok (Items.name item) = true ->
  Items.full_path item = PosixPath.join current_path (Items.name item) ->
  Store.tree_ok fs = true ->
  Navigation.name_ok child = true ->
  renamed.2 = None ->
  (exists items manager',
      Items.scan_directory manager renamed.1.1 current_path = Ok (items, manager')
      /\ Items.FolderItem (Dashboard.new_folder_name (Py.strip text))
                          (PosixPath.join current_path
                                          (Dashboard.new_folder_name (Py.strip text)))
         ∈ items)
  /\ Items.load_password_hash renamed.1.1 new_file = Items.load_password_hash fs old_file
  /\ Os.read_file renamed.1.1 (Items.content_file_path new_file)
     = Os.read_file fs (Items.content_file_path old_file)
  /\ Opening.on_history_file_clicked (Dashboard.history_manager renamed.1.2)
                                     renamed.1.1 (Items.full_path old_file) now
     = inl (Opening.file_not_found (Items.full_path old_file)).
Proof.
  intros renamed new_path old_file new_file Hfolder Hcp Hname Hfp Htree Hchild Hren.
  destruct (name_ok_parts _ Hname) as (Hne & Hsl & Hcomp & Hroot).
  destruct (name_ok_parts _ Hchild) as (Hcne & Hcsl & Hccomp & Hcroot).
  destruct (rename_item_steps _ _ _ _ _ Hren) as (Hnew & Hgood & Hex & Hrename).
  fold renamed in Hrename. fold new_path in Hex, Hrename.
  pose proof (has_invalid_char_slash _ Hgood) as Hnsl.
  destruct (new_folder_name_ok _ Hnsl) as (Hrsl & Hrcomp & Hrroot).
  set (raw := Dashboard.new_folder_name (Py.strip text)) in *.
  assert (Hfpne : Items.full_path item <> "") by (rewrite Hfp; by apply join_nonempty).
  assert (Hks : Os.resolve (Items.full_path item)
                = Os.resolve current_path ++ [Items.name item]).
  { rewrite Hfp. by apply resolve_join. }
  destruct (dirname_join current_path (Items.name item) Hcp Hsl) as [Hdir Hdres].
  rewrite <- Hfp in Hdir, Hdres.
  assert (Hnp : new_path = PosixPath.join (PosixPath.dirname (Items.full_path item)) raw).
  { unfold new_path, Dashboard.rename_destination. by rewrite Hfolder. }
  assert (Hnpne : new_path <> "") by (rewrite Hnp; by apply join_nonempty).
  assert (Hkd : Os.resolve new_path = Os.resolve current_path ++ [raw]).
  { rewrite Hnp, resolve_join by done. by rewrite Hdres. }
  pose proof (rename_parent_dir _ _ _ _ Hex Hrename) as Hparent.
  rewrite Hkd in Hparent. unfold Os.parent in Hparent. rewrite removelast_last in Hparent.
  destruct (rename_relocates _ _ _ _ Hnpne Hex Hrename) as (Hfree & Hout & [n0 Hsrc] & Hfs').
  set (ks := Os.resolve (Items.full_path item)) in *.
  set (kd := Os.resolve new_path) in *.
  assert (Hbelow : forall s, fs !! (kd ++ s) = None)
    by (intros s; by apply tree_ok_below).
  assert (Hold : Os.resolve (Items.full_path old_file) = ks ++ [child]).
  { simpl. by rewrite resolve_join. }
  assert (Hnewk : Os.resolve (Items.full_path new_file) = kd ++ [child]).
  { simpl. by rewrite resolve_join. }
  assert (Hofp : Items.full_path old_file <> "") by (by apply join_nonempty).
  assert (Hnfp : Items.full_path new_file <> "") by (by apply join_nonempty).
  assert (Hmoved : forall c, c <> "/" ->
             Os.node_at renamed.1.1 ((kd ++ [child]) ++ [c])
             = Os.node_at fs ((ks ++ [child]) ++ [c])).
  { intros c Hc. rewrite !node_at_snoc by done. rewrite Hfs', <- !app_assoc.
    by apply relocate_moved. }
  destruct (password_file_path_resolve old_file Hofp Hcsl) as (Hpf & Hpfk & _ & _).
  destruct (password_file_path_resolve new_file Hnfp Hcsl) as (Hpf' & Hpfk' & _ & _).
  destruct (content_file_path_resolve old_file Hofp Hcsl) as (Hcf & Hcfk).
  destruct (content_file_path_resolve new_file Hnfp Hcsl) as (Hcf' & Hcfk').
  rewrite Hold in Hpfk, Hcfk. rewrite Hnewk in Hpfk', Hcfk'.
  split; [|split; [|split]].
  - assert (Hdirnode : Os.node_at renamed.1.1 (Os.resolve current_path) = Some Os.NDir).
    { destruct (decide (Os.resolve current_path = [] \/ Os.resolve current_path = ["/"]))
        as [Hsp|Hsp].
      - unfold Os.node_at. by rewrite bool_decide_eq_true_2.
      - unfold Os.node_at in Hparent |- *.
        rewrite bool_decide_eq_false_2 in Hparent by done.
        rewrite bool_decide_eq_false_2 by done.
        rewrite Hfs', relocate_other; [done..| |].
        + apply is_prefix_longer. rewrite Hks, length_app. simpl. lia.
        + apply is_prefix_longer. rewrite Hkd, length_app. simpl. lia. }
    destruct (scan_directory_lists manager renamed.1.1 current_path raw Hcp Hrroot Hdirnode)
      as (items & manager' & Hscan & Hin).
    { rewrite node_at_snoc by done. rewrite <- Hkd, Hfs'.
      pose proof (relocate_moved fs ks kd Hbelow []) as Hm.
      rewrite !app_nil_r in Hm. rewrite Hm.
      rewrite Hks, node_at_snoc in Hsrc by done. rewrite Hks. by eexists. }
    exists items, manager'. split; [done|].
    unfold Items.classify in Hin. cbn [Os.entry_name Os.entry_path] in Hin.
    assert (Hst : Py.startswith raw Items.FOLDER_PREFIX = true)
      by apply startswith_prefix_app.
    by rewrite Hst in Hin.
  - rewrite !load_password_hash_node by done. rewrite Hpfk', Hpfk. by rewrite Hmoved.
  - apply read_file_node; [done..|]. rewrite Hcfk', Hcfk. by apply Hmoved.
  - unfold Opening.on_history_file_clicked.
    assert (Os.path_exists renamed.1.1 (Items.full_path old_file) = false) as ->; [|done].
    assert (Hgone : Os.node_at renamed.1.1 (Os.resolve (Items.full_path old_file)) = None).
    { rewrite Hold, node_at_snoc by done. rewrite Hfs'.
      by apply relocate_source_gone. }
    unfold Os.path_exists. rewrite Hgone.
    destruct (negb (String.eqb (Items.full_path old_file) "")); [|done]. cbn [andb].
    apply bool_decide_eq_false_2. by intros [n Hn].
Qed.

Lemma renamed_folder_moves_its_files_witness :
  let renamed := Dashboard.rename_item Samples.str_exn Samples.window Samples.store
                                       Samples.folder_A "B" in
  let new_path := Dashboard.rename_destination Samples.folder_A (Py.strip "B") in
  let old_file := Items.FileItem "doc" (PosixPath.join (Items.full_path Samples.folder_A)
                                                       "doc") in
  let new_file := Items.FileItem "doc" (PosixPath.join new_path "doc") in
  (exists items manager',
      Items.scan_directory Items.init_manager renamed.1.1 "data/" = Ok (items, manager')
      /\ Items.FolderItem (Dashboard.new_folder_name (Py.strip "B"))
                          (PosixPath.join "data/" (Dashboard.new_folder_name (Py.strip "B")))
         ∈ items)
  /\ Items.load_password_hash renamed.1.1 new_file
     = Items.load_password_hash Samples.store old_file
  /\ Os.read_file renamed.1.1 (Items.content_file_path new_file)
     = Os.read_file Samples.store (Items.content_file_path old_file)
  /\ Opening.on_history_file_clicked (Dashboard.history_manager renamed.1.2)
                                     renamed.1.1 (Items.full_path old_file)
                                     "2024-05-01T12:00:00"
     = inl (Opening.file_not_found (Items.full_path old_file)).
Proof.
  apply (renamed_folder_moves_its_files Samples.str_exn Samples.window Samples.store
           Items.init_manager Samples.folder_A "data/" "B" "doc" "2024-05-01T12:00:00").
  - reflexivity.
  - done.
  - reflexivity.
  - reflexivity.
  - vm_compute. reflexivity.
  - reflexivity.
  - vm_compute. reflexivity.
Defined.

(** ** Changing the password of a file *)

Lemma makedirs_existing (fs : Os.filesystem) (p : string) :
  Store.tree_ok fs = true -> p <> "" ->
  Os.node_at fs (Os.resolve p) = Some Os.NDir -> Os.makedirs fs p = Ok fs.
Proof.
  intros Htree Hp Hdir. unfold Os.makedirs.
  destruct (String.eqb_spec p "") as [|_]; [done|].
  rewrite <- (app_nil_r (Os.resolve p)).
  by rewrite (makedirs_from_existing fs (Os.resolve p) [] [] Htree Hdir).
Qed.

(** X14. The password of a file with a readable credential changes only
    with the old password. For such a file, in its directory, one press on
    the save button of the dialog that [change_password] opens ends with
    the credential saved exactly when the old password verifies against the
    stored credential, the new password is not empty and the two new
    entries agree; the file then holds the credential of the new password,
    which the new password passes, and in every other case the file system
    is left as it was. *)
Theorem change_password_needs_old_password
  (scrypt : Hash.kdf) (fs : Os.filesystem) (item : Items.FileSystemItem)
  (salt stored : list byte) (old_pw new_pw confirm_pw : string) :
  let result := PassChanger.change_password scrypt fs item salt old_pw new_pw confirm_pw in
  let new_hash := Hash.hash_password scrypt salt new_pw in
  Store.tree_ok fs = true ->
  Py.contains_char "/" (Items.name item) = false ->
  Os.path_isdir fs (Items.full_path item) = true ->
  Items.load_password_hash fs item = Some stored ->
  length salt = 16 ->
  (result.2 = Ok PassChanger.Saved <->
   Hash.verify_password scrypt stored old_pw = Ok true
   /\ new_pw <> "" /\ new_pw = confirm_pw)
  /\ (result.2 = Ok PassChanger.Saved ->
      Items.load_password_hash result.1 item = Some new_hash
      /\ Dashboard.authenticate scrypt new_hash new_pw = true)
  /\ (result.2 <> Ok PassChanger.Saved -> result.1 = fs).
Proof.
  intros result new_hash Htree Hname Hdir Hload Hsalt.
  destruct (path_isdir_node _ _ Hdir) as [Hfp Hnode].
  destruct (password_file_path_resolve item Hfp Hname) as (Hpf & Hk & Hpd & Hkd).
  set (pf := Items.password_file_path item) in *.
  assert (Hat : forall fs0 : Os.filesystem,
             Os.node_at fs0 (Os.resolve pf) = fs0 !! Os.resolve pf).
  { intros fs0. rewrite Hk. by apply node_at_snoc. }
  assert (Hfile : fs !! Os.resolve pf = Some (Os.NFile true stored)).
  { rewrite (load_password_hash_node fs item Hpf) in Hload. fold pf in Hload.
    rewrite Hat in Hload. by destruct (fs !! Os.resolve pf) as [[[|] data|]|]; simplify_eq. }
  assert (Hpfex : Os.path_exists fs pf = true).
  { apply (path_exists_node _ _ (Os.NFile true stored)); [done|]. by rewrite Hat. }
  assert (Hdirex : Os.path_exists fs (PosixPath.dirname pf) = true).
  { apply (path_exists_node _ _ Os.NDir); [done|]. by rewrite Hkd. }
  assert (Hmk : Os.makedirs fs (PosixPath.dirname pf) = Ok fs).
  { apply makedirs_existing; [done..|]. by rewrite Hkd. }
  assert (Hsave : Hash.save_hashed_password fs pf new_hash
                  = Ok (<[Os.resolve pf := Os.NFile true new_hash]> fs)).
  { unfold Hash.save_hashed_password, Os.write_file.
    destruct (String.eqb_spec pf "") as [|_]; [done|].
    rewrite Hat, Hfile. unfold Os.parent. by rewrite Hk, removelast_last, Hnode. }
  assert (Hres : result
                 = match Hash.verify_password scrypt stored old_pw with
                   | Raise e => (fs, Raise e)
                   | Ok true =>
                       if String.eqb new_pw "" then (fs, Ok PassChanger.EmptyNewPassword)
                       else if negb (String.eqb new_pw confirm_pw)
                            then (fs, Ok PassChanger.NewPasswordsDiffer)
                       else (<[Os.resolve pf := Os.NFile true new_hash]> fs,
                             Ok PassChanger.Saved)
                   | Ok false => (fs, Ok PassChanger.WrongOldPassword)
                   end).
  { unfold result, PassChanger.change_password. fold pf. rewrite Hdirex. cbn [negb].
    unfold PassChanger.save_new_password, PassChanger.init.
    cbn [PassChanger.filePath PassChanger.currentHash PassChanger.old_password_entry].
    rewrite Hmk, Hload, Hpfex.
    destruct (Hash.verify_password scrypt stored old_pw) as [[|]|e]; [|done..].
    destruct (String.eqb new_pw ""); [done|].
    destruct (negb (String.eqb new_pw confirm_pw)); [done|].
    fold new_hash. by rewrite Hsave. }
  rewrite Hres. clear Hres.
  destruct (Hash.verify_password scrypt stored old_pw) as [[|]|e].
  - destruct (String.eqb_spec new_pw "") as [Hempty|Hne].
    { split; [|split]; [split| |]; [done|by intros (_ & ? & _)|done..]. }
    destruct (String.eqb_spec new_pw confirm_pw) as [Heq|Hneq]; cbn [negb fst snd].
    + split; [|split]; [done| |done]. intros _. split.
      * rewrite (load_password_hash_node _ item Hpf). fold pf.
        by rewrite Hat, lookup_insert_eq.
      * unfold Dashboard.authenticate, new_hash. rewrite verify_hash_password by done.
        by rewrite bool_decide_eq_true_2.
    + split; [|split]; [split| |]; [done|by intros (_ & _ & ?)|done..].
  - split; [|split]; [split| |]; [done|by intros (? & _)|done..].
  - split; [|split]; [split| |]; [done|by intros (? & _)|done..].
Qed.

Lemma change_password_needs_old_password_witness :
  let result := PassChanger.change_password Aux.toy_kdf Cases.locked_store Samples.file_doc
                                            Cases.other_salt "doc" "secret" "secret" in
  let new_hash := Hash.hash_password Aux.toy_kdf Cases.other_salt "secret" in
  (result.2 = Ok PassChanger.Saved <->
   Hash.verify_password Aux.toy_kdf (Hash.hash_password Aux.toy_kdf Samples.salt "doc") "doc"
   = Ok true
   /\ "secret" <> "" /\ "secret" = "secret")
  /\ (result.2 = Ok PassChanger.Saved ->
      Items.load_password_hash result.1 Samples.file_doc = Some new_hash
      /\ Dashboard.authenticate Aux.toy_kdf new_hash "secret" = true)
  /\ (result.2 <> Ok PassChanger.Saved -> result.1 = Cases.locked_store).
Proof.
  apply (change_password_needs_old_password Aux.toy_kdf Cases.locked_store Samples.file_doc
           Cases.other_salt (Hash.hash_password Aux.toy_kdf Samples.salt "doc")
           "doc" "secret" "secret").
  - vm_compute. reflexivity.
  - reflexivity.
  - vm_compute. reflexivity.
  - vm_compute. reflexivity.
  - reflexivity.
Defined.

(** X15. A credential file that is there but cannot be loaded blocks the
    change of the password: the press on the save button ends with the
    error box of the load, whatever was typed, and the file system is left
    as it was. *)
Theorem unreadable_credential_blocks_change
  (scrypt : Hash.kdf) (fs : Os.filesystem) (item : Items.FileSystemItem)
  (salt : list byte) (old_pw new_pw confirm_pw : string) :
  Store.tree_ok fs = true ->
  Py.contains_char "/" (Items.name item) = false ->
  Os.path_isdir fs (Items.full_path item) = true ->
  Os.path_exists fs (Items.password_file_path item) = true ->
  Items.load_password_hash fs item = None ->
  exists e,
    PassChanger.change_password scrypt fs item salt old_pw new_pw confirm_pw
    = (fs, Ok (PassChanger.LoadError e)).
Proof.
  intros Htree Hname Hdir Hex Hload.
  destruct (path_isdir_node _ _ Hdir) as [Hfp Hnode].
  destruct (password_file_path_resolve item Hfp Hname) as (Hpf & Hk & Hpd & Hkd).
  set (pf := Items.password_file_path item) in *.
  assert (Hdirex : Os.path_exists fs (PosixPath.dirname pf) = true).
  { apply (path_exists_node _ _ Os.NDir); [done|]. by rewrite Hkd. }
  assert (Hmk : Os.makedirs fs (PosixPath.dirname pf) = Ok fs).
  { apply makedirs_existing; [done..|]. by rewrite Hkd. }
  unfold Items.load_password_hash in Hload. fold pf in Hload. rewrite Hex in Hload.
  destruct (Hash.load_hashed_password fs pf) as [blob|e] eqn:Hl; [done|].
  exists e. unfold PassChanger.change_password. fold pf. rewrite Hdirex. cbn [negb].
  unfold PassChanger.save_new_password, PassChanger.init, Items.load_password_hash.
  fold pf. cbn [PassChanger.filePath PassChanger.currentHash PassChanger.old_password_entry].
  by rewrite Hmk, Hex, Hl.
Qed.

Lemma unreadable_credential_blocks_change_witness :
  exists e,
    PassChanger.change_password Aux.toy_kdf Samples.store Samples.file_Diary
                                Cases.other_salt "abc" "secret" "secret"
    = (Samples.store, Ok (PassChanger.LoadError e)).
Proof.
  apply (unreadable_credential_blocks_change Aux.toy_kdf Samples.store Samples.file_Diary
           Cases.other_salt "abc" "secret" "secret").
  - vm_compute. reflexivity.
  - reflexivity.
  - vm_compute. reflexivity.
  - vm_compute. reflexivity.
  - vm_compute. reflexivity.
Defined.

(** X16. A file without a credential file gets its first password without
    an old one: the press on the save button ends with the credential
    saved exactly when the new password is not empty and the two entries
    agree, whatever the text taken for the old password; the file then
    holds the credential of the new password. No length is asked for and
    nothing is stripped. *)
Theorem first_password_needs_no_old_one
  (scrypt : Hash.kdf) (fs : Os.filesystem) (item : Items.FileSystemItem)
  (salt : list byte) (old_pw new_pw confirm_pw : string) :
  let result := PassChanger.change_password scrypt fs item salt old_pw new_pw confirm_pw in
  Store.tree_ok fs = true ->
  Py.contains_char "/" (Items.name item) = false ->
  Os.path_isdir fs (Items.full_path item) = true ->
  Os.path_exists fs (Items.password_file_path item) = false ->
  (result.2 = Ok PassChanger.Saved <-> new_pw <> "" /\ new_pw = confirm_pw)
  /\ (result.2 = Ok PassChanger.Saved ->
      Items.load_password_hash result.1 item
      = Some (Hash.hash_password scrypt salt new_pw)).
Proof.
  intros result Htree Hname Hdir Hex.
  destruct (path_isdir_node _ _ Hdir) as [Hfp Hnode].
  destruct (password_file_path_resolve item Hfp Hname) as (Hpf & Hk & Hpd & Hkd).
  set (pf := Items.password_file_path item) in *.
  set (new_hash := Hash.hash_password scrypt salt new_pw).
  assert (Hat : forall fs0 : Os.filesystem,
             Os.node_at fs0 (Os.resolve pf) = fs0 !! Os.resolve pf).
  { intros fs0. rewrite Hk. by apply node_at_snoc. }
  pose proof (path_exists_false _ _ Hpf Hex) as Hnone. rewrite Hat in Hnone.
  assert (Hdirex : Os.path_exists fs (PosixPath.dirname pf) = true).
  { apply (path_exists_node _ _ Os.NDir); [done|]. by rewrite Hkd. }
  assert (Hmk : Os.makedirs fs (PosixPath.dirname pf) = Ok fs).
  { apply makedirs_existing; [done..|]. by rewrite Hkd. }
  assert (Hsave : Hash.save_hashed_password fs pf new_hash
                  = Ok (<[Os.resolve pf := Os.NFile true new_hash]> fs)).
  { unfold Hash.save_hashed_password, Os.write_file.
    destruct (String.eqb_spec pf "") as [|_]; [done|].
    rewrite Hat, Hnone. unfold Os.parent. by rewrite Hk, removelast_last, Hnode. }
  assert (Hres : result
                 = if String.eqb new_pw "" then (fs, Ok PassChanger.EmptyNewPassword)
                   else if negb (String.eqb new_pw confirm_pw)
                        then (fs, Ok PassChanger.NewPasswordsDiffer)
                   else (<[Os.resolve pf := Os.NFile true new_hash]> fs,
                         Ok PassChanger.Saved)).
  { unfold result, PassChanger.change_password. fold pf. rewrite Hdirex. cbn [negb].
    unfold PassChanger.save_new_password, PassChanger.init, Items.load_password_hash.
    fold pf. cbn [PassChanger.filePath PassChanger.currentHash PassChanger.old_password_entry].
    rewrite Hmk, Hex.
    destruct (String.eqb new_pw ""); [done|].
    destruct (negb (String.eqb new_pw confirm_pw)); [done|].
    fold new_hash. by rewrite Hsave. }
  rewrite Hres. clear Hres.
  destruct (String.eqb_spec new_pw "") as [Hempty|Hne].
  { split; [split|]; [done|by intros (? & _)|done]. }
  destruct (String.eqb_spec new_pw confirm_pw) as [Heq|Hneq]; cbn [negb fst snd].
  - split; [done|]. intros _.
    rewrite (load_password_hash_node _ item Hpf). fold pf.
    by rewrite Hat, lookup_insert_eq.
  - split; [split|]; [done|by intros (_ & ?)|done].
Qed.

Lemma first_password_needs_no_old_one_witness :
  let result := PassChanger.change_password Aux.toy_kdf Samples.store Samples.file_doc
                                            Cases.other_salt "" "x" "x" in
  (result.2 = Ok PassChanger.Saved <-> "x" <> "" /\ "x" = "x")
  /\ (result.2 = Ok PassChanger.Saved ->
      Items.load_password_hash result.1 Samples.file_doc
      = Some (Hash.hash_password Aux.toy_kdf Cases.other_salt "x")).
Proof.
  apply (first_password_needs_no_old_one Aux.toy_kdf Samples.store Samples.file_doc
           Cases.other_salt "" "x" "x").
  - vm_compute. reflexivity.
  - reflexivity.
  - vm_compute. reflexivity.
  - vm_compute. reflexivity.
Defined.

(** ** The start of the program *)

(** X17. The master password set on the first run is the one asked for
    from then on. With the directory of the credential file in place and
    no credential file, a start whose dialog is confirmed with a password
    that is not empty stores the credential of that password and shows the
    login window for it; every later start on the file system it left
    shows the login window for the same credential whatever the dialog
    would return, changes nothing, and the password passes that window. *)
Theorem master_password_round_trip
  (scrypt : Hash.kdf) (fs : Os.filesystem) (salt salt' : list byte)
  (password later_text : string) (later_ok : bool) :
  let credential := Hash.hash_password scrypt salt password in
  Os.path_isdir fs "sources" = true ->
  Os.path_exists fs Main.MAIN_PASSWORD_HASH_FILE = false ->
  password <> "" ->
  length salt = 16 ->
  exists fs',
    Main.main scrypt fs salt password true = Ok (fs', Main.Login credential)
    /\ Main.main scrypt fs' salt' later_text later_ok = Ok (fs', Main.Login credential)
    /\ Dashboard.authenticate scrypt credential password = true.
Proof.
  intros credential Hdir Hex Hpw Hsalt.
  destruct (path_isdir_node _ _ Hdir) as [_ Hnode].
  change (Os.resolve "sources") with ["sources"] in Hnode.
  assert (Hmne : Main.MAIN_PASSWORD_HASH_FILE <> "") by done.
  pose proof (path_exists_false fs Main.MAIN_PASSWORD_HASH_FILE Hmne Hex) as Hnone.
  change (Os.resolve Main.MAIN_PASSWORD_HASH_FILE) with ["sources"; "main.bin"] in Hnone.
  apply node_at_none in Hnone as (Hnone & _ & _).
  set (k := ["sources"; "main.bin"]) in *.
  set (fs' := <[k := Os.NFile true credential]> fs).
  assert (Hsrc : forall fs0 : Os.filesystem, Os.node_at fs0 ["sources"] = fs0 !! ["sources"])
    by done.
  assert (Hmain : forall fs0 : Os.filesystem, Os.node_at fs0 k = fs0 !! k) by done.
  rewrite Hsrc in Hnode.
  assert (Hmk : forall fs0 : Os.filesystem,
             fs0 !! ["sources"] = Some Os.NDir ->
             Os.makedirs fs0 (PosixPath.dirname Main.MAIN_PASSWORD_HASH_FILE) = Ok fs0).
  { intros fs0 H0. unfold Os.makedirs.
    change (PosixPath.dirname Main.MAIN_PASSWORD_HASH_FILE) with "sources".
    change (Os.resolve "sources") with ["sources"]. cbn [String.eqb Ascii.eqb Bool.eqb].
    simpl. by rewrite Hsrc, H0. }
  assert (Hnode' : fs' !! ["sources"] = Some Os.NDir).
  { unfold fs'. by rewrite lookup_insert_ne. }
  exists fs'. split; [|split].
  - unfold Main.main. rewrite (Hmk fs Hnode). simpl. rewrite Hex. cbn [negb andb].
    destruct (String.eqb_spec password "") as [|_]; [done|]. cbn [negb].
    unfold Hash.save_hashed_password, Os.write_file.
    change (Os.resolve Main.MAIN_PASSWORD_HASH_FILE) with k.
    change (Os.parent k) with ["sources"].
    cbn [String.eqb Ascii.eqb Bool.eqb Main.MAIN_PASSWORD_HASH_FILE].
    by rewrite Hsrc, Hnode, Hmain, Hnone.
  - unfold Main.main. rewrite (Hmk fs' Hnode'). simpl.
    assert (Os.path_exists fs' Main.MAIN_PASSWORD_HASH_FILE = true) as Hex'.
    { apply (path_exists_node _ _ (Os.NFile true credential)); [done|].
      change (Os.resolve Main.MAIN_PASSWORD_HASH_FILE) with k.
      unfold fs'. by rewrite Hmain, lookup_insert_eq. }
    rewrite Hex'. cbn [negb].
    unfold Hash.load_hashed_password. rewrite Hex'. cbn [negb].
    unfold Os.read_file. change (Os.resolve Main.MAIN_PASSWORD_HASH_FILE) with k.
    cbn [String.eqb Ascii.eqb Bool.eqb Main.MAIN_PASSWORD_HASH_FILE].
    unfold fs'. by rewrite Hmain, lookup_insert_eq.
  - unfold Dashboard.authenticate, credential. rewrite verify_hash_password by done.
    by rewrite bool_decide_eq_true_2.
Qed.

Lemma master_password_round_trip_witness :
  let credential := Hash.hash_password Aux.toy_kdf Samples.salt "master" in
  exists fs',
    Main.main Aux.toy_kdf Cases.first_run_store Samples.salt "master" true
    = Ok (fs', Main.Login credential)
    /\ Main.main Aux.toy_kdf fs' Cases.other_salt "" false = Ok (fs', Main.Login credential)
    /\ Dashboard.authenticate Aux.toy_kdf credential "master" = true.
Proof.
  apply (master_password_round_trip Aux.toy_kdf Cases.first_run_store Samples.salt
           Cases.other_salt "master" "" false).
  - vm_compute. reflexivity.
  - vm_compute. reflexivity.
  - done.
  - reflexivity.
Defined.

(** ** The grid and its labels *)

Section Grid.
Local Open Scope Z_scope.

Lemma populate_grid_state {A} (widgets_per_row : Z) (items : list A) :
  2 <= widgets_per_row ->
  exists row col placed,
    Layout.populate_grid widgets_per_row items = (row, col, placed)
    /\ row * widgets_per_row + col = Z.of_nat (length items) + 1
    /\ 0 <= col < widgets_per_row
    /\ length placed = length items
    /\ forall (k : nat) item, items !! k = Some item ->
         placed !! k = Some ((Z.of_nat k + 1) / widgets_per_row,
                             (Z.of_nat k + 1) mod widgets_per_row, item).
Proof.
  intros Hw. unfold Layout.populate_grid.
  induction items as [|x items IH] using rev_ind.
  - exists 0, 1, []. simpl. repeat split; try lia. intros k item Hk. done.
  - destruct IH as (row & col & placed & Hfold & Hsum & Hcol & Hlen & Hcells).
    rewrite foldl_snoc, Hfold. unfold Layout.place.
    rewrite length_app. simpl length.
    assert (Hrow : row = (Z.of_nat (length items) + 1) / widgets_per_row).
    { apply (Z.div_unique_pos _ _ row col); lia. }
    assert (Hcolm : col = (Z.of_nat (length items) + 1) mod widgets_per_row).
    { apply (Z.mod_unique_pos _ _ row col); lia. }
    assert (Hnew : forall (k : nat) item, (items ++ [x]) !! k = Some item ->
              (placed ++ [(row, col, x)]) !! k
              = Some ((Z.of_nat k + 1) / widgets_per_row,
                      (Z.of_nat k + 1) mod widgets_per_row, item)).
    { intros k item Hk. apply lookup_app_Some in Hk as [Hk|[Hge Hk]].
      - rewrite lookup_app_l by (rewrite Hlen; by eapply lookup_lt_Some).
        by apply Hcells.
      - rewrite lookup_app_r by lia. rewrite Hlen.
        destruct (k - length items)%nat as [|j] eqn:Hj; [|by destruct j].
        simpl in Hk. injection Hk as <-. simpl.
        assert (k = length items) as -> by lia. by rewrite <- Hrow, <- Hcolm. }
    destruct (Z.leb_spec widgets_per_row (col + 1)).
    + exists (row + 1), 0, (placed ++ [(row, col, x)]).
      split; [done|]. split; [lia|]. split; [lia|]. split; [|done].
      rewrite !length_app. simpl. lia.
    + exists row, (col + 1), (placed ++ [(row, col, x)]).
      split; [done|]. split; [lia|]. split; [lia|]. split; [|done].
      rewrite !length_app. simpl. lia.
Qed.

(** X18. With two or more widgets per row the grid is filled row by row
    behind the add widget: the widget of the k-th item (from 0) stands in
    row (k+1) div w and column (k+1) mod w, inside the row and never on the
    cell (0, 0) of the add widget. *)
Theorem grid_cells {A} (widgets_per_row : Z) (items : list A) (k : nat) (item : A) :
  2 <= widgets_per_row ->
  items !! k = Some item ->
  let row := (Z.of_nat k + 1) / widgets_per_row in
  let col := (Z.of_nat k + 1) mod widgets_per_row in
  (Layout.populate_grid widgets_per_row items).2 !! k = Some (row, col, item)
  /\ 0 <= col < widgets_per_row
  /\ (row, col) <> (0, 0).
Proof.
  intros Hw Hk row col.
  destruct (populate_grid_state widgets_per_row items Hw)
    as (r & c & placed & -> & _ & _ & _ & Hcells).
  split; [by apply Hcells|]. split; [apply Z.mod_pos_bound; lia|].
  intros [= Hr Hc].
  pose proof (Z.div_mod (Z.of_nat k + 1) widgets_per_row ltac:(lia)) as Hdm.
  fold row col in Hdm. rewrite Hr, Hc in Hdm. lia.
Qed.

Lemma grid_cells_witness :
  (Layout.populate_grid 3 ["a"; "b"; "c"]%string).2 !! 2%nat
  = Some ((Z.of_nat 2 + 1) / 3, (Z.of_nat 2 + 1) mod 3, "c"%string)
  /\ 0 <= (Z.of_nat 2 + 1) mod 3 < 3
  /\ ((Z.of_nat 2 + 1) / 3, (Z.of_nat 2 + 1) mod 3) <> (0, 0).
Proof.
  apply (grid_cells 3 ["a"; "b"; "c"]%string 2 "c"%string).
  - lia.
  - reflexivity.
Defined.

End Grid.

Section TruncateText.
Local Open Scope Z_scope.
Variable horizontalAdvance : string -> Z.

Lemma slice_to_int_nonneg (s : string) (n : Z) :
  0 <= n -> Layout.slice_to_int s n = Py.slice_to (Z.to_nat n) s.
Proof. intros Hn. unfold Layout.slice_to_int. by destruct (Z.ltb_spec n 0); [lia|]. Qed.

(** The loop keeps the last prefix that fitted, which is the one before
    [left]; with widths that grow with the prefix, nothing right of [right]
    fits. *)
Lemma search_inv (text : string) (max_width left_ right_ : Z) (result : string) :
  horizontalAdvance "..." <= max_width ->
  0 <= left_ <= right_ + 1 -> right_ <= Z.of_nat (String.length text) ->
  (left_ = 0 -> 0 <= right_) ->
  (1 <= left_ ->
   result = Py.slice_to (Z.to_nat (left_ - 1)) text +:+ "..."
   /\ horizontalAdvance result <= max_width) ->
  exists k, 0 <= k <= Z.of_nat (String.length text)
    /\ Layout.search horizontalAdvance text max_width left_ right_ result
       = Py.slice_to (Z.to_nat k) text +:+ "..."
    /\ horizontalAdvance (Py.slice_to (Z.to_nat k) text +:+ "...") <= max_width
    /\ ((forall j, right_ < j <= Z.of_nat (String.length text) ->
                   max_width < horizontalAdvance (Py.slice_to (Z.to_nat j) text +:+ "...")) ->
        (forall i j, 0 <= i <= j -> j <= Z.of_nat (String.length text) ->
                     horizontalAdvance (Py.slice_to (Z.to_nat i) text +:+ "...")
                     <= horizontalAdvance (Py.slice_to (Z.to_nat j) text +:+ "...")) ->
        forall j, k < j <= Z.of_nat (String.length text) ->
                  max_width < horizontalAdvance (Py.slice_to (Z.to_nat j) text +:+ "...")).
Proof.
  funelim (Layout.search horizontalAdvance text max_width left_ right_ result).
  - intros Hdots Hleft Hright Hzero Hres.
    assert (Hmid : left_ <= (left_ + right_) / 2 <= right_).
    { split; [apply Z.div_le_lower_bound|apply Z.div_le_upper_bound]; lia. }
    assert (Hslice : Layout.slice_to_int text ((left_ + right_) / 2)
                     = Py.slice_to (Z.to_nat ((left_ + right_) / 2)) text)
      by (apply slice_to_int_nonneg; lia).
    rewrite Hslice in H |- *.
    destruct (Z.leb_spec
                (horizontalAdvance
                   (Py.slice_to (Z.to_nat ((left_ + right_) / 2)) text +:+ "..."))
                max_width) as [Hfit|Hwide].
    + destruct H as (k & Hk & Hs & Hkfit & Hmax); [done|lia|done|lia| |].
      { intros _. replace ((left_ + right_) / 2 + 1 - 1) with ((left_ + right_) / 2) by lia.
        done. }
      exists k. split; [done|]. split; [done|]. split; [done|].
      intros Hover Hmono. by apply Hmax.
    + assert (Hmid1 : 1 <= (left_ + right_) / 2).
      { destruct (decide ((left_ + right_) / 2 = 0)) as [Hz|]; [|lia].
        rewrite Hz in Hwide.
        assert (Hd : Py.slice_to (Z.to_nat 0) text +:+ "..." = "...") by done.
        rewrite Hd in Hwide. lia. }
      destruct H0 as (k & Hk & Hs & Hkfit & Hmax); [done|lia|lia|lia|done|].
      exists k. split; [done|]. split; [done|]. split; [done|].
      intros Hover Hmono. apply Hmax; [|done].
      intros j Hj. specialize (Hmono ((left_ + right_) / 2) j ltac:(lia) ltac:(lia)). lia.
  - intros Hdots Hleft Hright Hzero Hres.
    assert (Hl : 1 <= left_) by lia.
    destruct (Hres Hl) as [-> Hfit].
    exists (left_ - 1). split; [lia|]. split; [done|]. split; [done|].
    intros Hover _ j Hj. apply Hover. lia.
Qed.

(** X19. [truncate_text] returns a text that fits. A text within the width
    is returned as it is; when the ellipsis alone does not fit, the result
    is empty; otherwise the result is a prefix of the text followed by the
    ellipsis, its width is within [max_width], and when the width grows with
    the length of the prefix no longer prefix would have fitted. *)
Theorem truncate_text_fits (text : string) (max_width : Z) :
  let result := Layout.truncate_text horizontalAdvance text max_width in
  let trunc (i : nat) := Py.slice_to i text +:+ "..." in
  (horizontalAdvance text <= max_width -> result = text)
  /\ (max_width < horizontalAdvance text -> max_width <= horizontalAdvance "..." ->
      result = "")
  /\ (max_width < horizontalAdvance text -> horizontalAdvance "..." < max_width ->
      exists k : nat,
        (k <= String.length text)%nat
        /\ result = trunc k
        /\ horizontalAdvance result <= max_width
        /\ ((forall i j : nat, (i <= j <= String.length text)%nat ->
                               horizontalAdvance (trunc i) <= horizontalAdvance (trunc j)) ->
            forall j : nat, (k < j <= String.length text)%nat ->
                            max_width < horizontalAdvance (trunc j))).
Proof.
  intros result trunc. unfold result, Layout.truncate_text.
  destruct (Z.leb_spec (horizontalAdvance text) max_width) as [Hfit|Hwide].
  { split; [done|]. split; intros; lia. }
  split; [intros; lia|].
  destruct (Z.leb_spec max_width (horizontalAdvance "...")) as [Hdots|Hdots].
  { split; [done|]. intros; lia. }
  split; [intros; lia|]. intros _ _.
  destruct (search_inv text max_width 0 (Z.of_nat (String.length text)) "")
    as (k & Hk & -> & Hkfit & Hmax); [lia..|].
  exists (Z.to_nat k). split; [lia|]. split; [done|]. split; [done|].
  intros Hmono j Hj.
  specialize (Hmax ltac:(intros; lia)).
  rewrite <- (Nat2Z.id j). apply Hmax; [|lia].
  intros i0 j0 Hi Hj0. apply Hmono. lia.
Qed.

End TruncateText.

Lemma truncate_text_fits_witness :
  let adv (s : string) := (8 * Z.of_nat (String.length s))%Z in
  let text := "a long label of a file" in
  let result := Layout.truncate_text adv text 100 in
  let trunc (i : nat) := Py.slice_to i text +:+ "..." in
  exists k : nat,
    k <= String.length text
    /\ result = trunc k
    /\ (adv result <= 100)%Z
    /\ ((forall i j : nat, i <= j <= String.length text ->
                           (adv (trunc i) <= adv (trunc j))%Z) ->
        forall j : nat, k < j <= String.length text -> (100 < adv (trunc j))%Z).
Proof.
  intros adv text result trunc.
  apply (proj2 (proj2 (truncate_text_fits adv text 100))).
  - reflexivity.
  - reflexivity.
Defined.

(** ** Renaming a file and renaming it back *)

Lemma join_plain (s b : string) :
  s <> "" -> Py.endswith_slash s = false -> Py.contains_char "/" b = false ->
  PosixPath.join s b = s +:+ String "/" b.
Proof.
  intros Hs Hend Hb. unfold PosixPath.join.
  rewrite (startswith_slash_noslash b Hb), Hend.
  by destruct (String.eqb_spec s "").
Qed.

Lemma dirname_child (s b : string) :
  s <> "" -> Py.endswith_slash s = false -> Py.contains_char "/" b = false ->
  PosixPath.dirname (s +:+ String "/" b) = s.
Proof.
  intros Hs Hend Hb. unfold PosixPath.dirname.
  rewrite (split_last_slash_app s b Hb). cbn [fst].
  rewrite rstrip_slash_app_slash, (rstrip_slash_fix s Hend). by destruct s.
Qed.

Lemma relocate_there_and_back (fs : Os.filesystem) (ks kd : list string) :
  (forall s, fs !! (kd ++ s) = None) ->
  Os.is_prefix ks kd = false -> Os.is_prefix kd ks = false ->
  Os.relocate kd ks (Os.relocate ks kd fs) = fs.
Proof.
  intros Hbelow Hout Hout'.
  assert (Hgone : forall s, Os.relocate ks kd fs !! (ks ++ s) = None)
    by (intros s; by apply relocate_source_gone).
  apply map_eq. intros k.
  destruct (Os.is_prefix ks k) eqn:Ps.
  - destruct (is_prefix_suffix _ _ Ps) as [s ->].
    rewrite (relocate_moved _ kd ks Hgone s). by apply relocate_moved.
  - destruct (Os.is_prefix kd k) eqn:Pd.
    + destruct (is_prefix_suffix _ _ Pd) as [s ->].
      rewrite (relocate_source_gone _ kd ks Hgone Hout' s). by rewrite Hbelow.
    + rewrite (relocate_other _ kd ks Hgone k Pd Ps). by apply relocate_other.
Qed.

Lemma rename_ok (fs : Os.filesystem) (src dst : string) :
  src <> "" -> dst <> "" ->
  is_Some (Os.node_at fs (Os.resolve src)) ->
  Os.resolve src <> Os.resolve dst ->
  Os.is_prefix (Os.resolve src) (Os.resolve dst) = false ->
  Os.node_at fs (Os.parent (Os.resolve dst)) = Some Os.NDir ->
  Os.node_at fs (Os.resolve dst) = None ->
  Os.rename fs src dst = Ok (Os.relocate (Os.resolve src) (Os.resolve dst) fs).
Proof.
  intros Hs Hd [n Hn] Hne Hpre Hpar Hfree. unfold Os.rename.
  destruct (String.eqb_spec src "") as [|_]; [done|].
  destruct (String.eqb_spec dst "") as [|_]; [done|]. simpl.
  rewrite Hn, (bool_decide_eq_false_2 _ Hne), Hpre, Hpar, Hfree. done.
Qed.

Lemma history_update_back (h : list Dashboard.HistoryItem) (old_path new_path : string) :
  (forall r, r ∈ h -> Dashboard.h_full_path r <> new_path) ->
  (forall r, r ∈ h -> Dashboard.h_full_path r = old_path ->
             Dashboard.h_name r = PosixPath.basename old_path) ->
  Dashboard.history_update_path (Dashboard.history_update_path h old_path new_path)
                                new_path old_path = h.
Proof.
  unfold Dashboard.history_update_path. intros Hnew Hname.
  rewrite List.map_map. rewrite <- (List.map_id h) at 2.
  apply List.map_ext_in. intros r Hr%list_elem_of_In.
  unfold Dashboard.history_update_record at 2.
  destruct (String.eqb_spec (Dashboard.h_full_path r) old_path) as [Hp|Hp].
  - unfold Dashboard.history_update_record. cbn [Dashboard.h_full_path Dashboard.h_name
      Dashboard.last_accessed].
    pose proof (Hname r Hr Hp) as Hn.
    rewrite String.eqb_refl, Hn, !String.eqb_refl.
    destruct r as [n p t]. simpl in *. by subst.
  - apply history_update_record_other. by apply Hnew.
Qed.

Lemma pin_update_back (pins : list Items.PinnedItem) (old_path new_path : string) :
  (forall r, r ∈ pins -> Items.p_full_path r <> new_path) ->
  (forall r, r ∈ pins -> Items.p_full_path r = old_path ->
             Items.p_name r = PosixPath.basename old_path) ->
  Dashboard.pin_update_path (Dashboard.pin_update_path pins old_path new_path)
                            new_path old_path = pins.
Proof.
  unfold Dashboard.pin_update_path. intros Hnew Hname.
  rewrite List.map_map. rewrite <- (List.map_id pins) at 2.
  apply List.map_ext_in. intros r Hr%list_elem_of_In.
  unfold Dashboard.pin_update_record at 2.
  destruct (String.eqb_spec (Items.p_full_path r) old_path) as [Hp|Hp].
  - unfold Dashboard.pin_update_record. cbn [Items.p_full_path Items.p_name Items.pinned_at].
    pose proof (Hname r Hr Hp) as Hn.
    rewrite String.eqb_refl, Hn, !String.eqb_refl.
    destruct r as [n p t]. simpl in *. by subst.
  - apply pin_update_record_other. by apply Hnew.
Qed.

(** X20. Renaming a file and renaming it back undoes the rename. For a
    File item listed under a cursor, with a name the dialog accepts as it
    is, whose index records carry that name, and with no index record at the
    path in between: after a successful rename, renaming the item back to
    its first name succeeds and leaves the file system, the history and the
    pins exactly as they were before the first rename. *)
Theorem rename_and_back
  (str_exn : exn -> string) (self : Dashboard.MainWindow) (fs : Os.filesystem)
  (item : Items.FileSystemItem) (current_path text : string) :
  let renamed := Dashboard.rename_item str_exn self fs item text in
  let new_path := Dashboard.rename_destination item (Py.strip text) in
  let new_item := Items.FileItem (Py.strip text) new_path in
  let back := Dashboard.rename_item str_exn renamed.1.2 renamed.1.1 new_item
                                    (Items.name item) in
  Items.item_type item = Items.file ->
  Navigation.cursor_ok current_path = true ->
  Navigation.name_ok (Items.name item) = true ->
  Py.strip (Items.name item) = Items.name item ->
  Dashboard.has_invalid_char (Items.name item) = false ->
  Items.full_path item = PosixPath.join current_path (Items.name item) ->
  Store.tree_ok fs = true ->
  Py.strip text <> "." -> Py.strip text <> ".." ->
  (forall r, r ∈ Dashboard.history_manager self ->
             Dashboard.h_full_path r <> new_path
             /\ (Dashboard.h_full_path r = Items.full_path item ->
                 Dashboard.h_name r = Items.name item)) ->
  (forall r, r ∈ Dashboard.pin_manager self ->
             Items.p_full_path r <> new_path
             /\ (Items.p_full_path r = Items.full_path item ->
                 Items.p_name r = Items.name item)) ->
  renamed.2 = None ->
  back = (fs, self, None).
Proof.
  intros renamed new_path new_item back Hfile Hcur Hname Hstrip Hvalid Hfp Htree
         Hdot _ Hhist Hpins Hren.
  destruct (cursor_ok_parts _ Hcur) as (Hcp & Hs & Hend & _).
  set (s := Py.rstrip_slash current_path) in *.
  assert (Hcpne : current_path <> "") by (rewrite Hcp; by destruct s).
  destruct (name_ok_parts _ Hname) as (Hne & Hsl & Hcomp & Hroot).
  destruct (rename_item_steps _ _ _ _ _ Hren) as (Hnew & Hgood & Hex & Hrename).
  destruct (rename_item_success _ _ _ _ _ Hren) as (_ & Hidx).
  fold renamed in Hrename, Hidx. fold new_path in Hex, Hrename, Hidx.
  pose proof (has_invalid_char_slash _ Hgood) as Hnsl.
  assert (Hncomp : Os.is_component (Py.strip text) = true).
  { unfold Os.is_component.
    destruct (String.eqb_spec (Py.strip text) "") as [|_]; [done|].
    by destruct (String.eqb_spec (Py.strip text) ".") as [|_]. }
  assert (Hnroot : Py.strip text <> "/") by (intros E; by rewrite E in Hnsl).
  (* the two paths as strings *)
  assert (Hfps : Items.full_path item = s +:+ String "/" (Items.name item)).
  { rewrite Hfp, Hcp. by apply join_cursor. }
  assert (Hdirname : PosixPath.dirname (Items.full_path item) = s).
  { rewrite Hfps. by apply dirname_child. }
  assert (Hnps : new_path = s +:+ String "/" (Py.strip text)).
  { unfold new_path, Dashboard.rename_destination. rewrite Hfile, Hdirname.
    by apply join_plain. }
  assert (Hback_path : Dashboard.rename_destination new_item (Items.name item)
                       = Items.full_path item).
  { unfold Dashboard.rename_destination. cbn [Items.item_type new_item Items.FileItem
      Items.full_path].
    rewrite Hnps, dirname_child by done. rewrite Hfps. by apply join_plain. }
  assert (Hfpne : Items.full_path item <> "") by (rewrite Hfps; by destruct s).
  assert (Hnpne : new_path <> "") by (rewrite Hnps; by destruct s).
  (* the two keys *)
  assert (Hks : Os.resolve (Items.full_path item)
                = Os.resolve current_path ++ [Items.name item]).
  { rewrite Hfp. by apply resolve_join. }
  assert (Hkd : Os.resolve new_path = Os.resolve current_path ++ [Py.strip text]).
  { destruct (dirname_join current_path (Items.name item) Hcpne Hsl) as [Hdir Hdres].
    rewrite <- Hfp in Hdir, Hdres.
    unfold new_path, Dashboard.rename_destination. rewrite Hfile.
    rewrite resolve_join by done. by rewrite Hdres. }
  pose proof (rename_parent_dir _ _ _ _ Hex Hrename) as Hparent.
  rewrite Hkd in Hparent. unfold Os.parent in Hparent. rewrite removelast_last in Hparent.
  destruct (rename_relocates _ _ _ _ Hnpne Hex Hrename) as (Hfree & Hout & [n0 Hsrc] & Hfs').
  set (ks := Os.resolve (Items.full_path item)) in *.
  set (kd := Os.resolve new_path) in *.
  assert (Hbelow : forall t, fs !! (kd ++ t) = None)
    by (intros t; by apply tree_ok_below).
  assert (Hkne : kd <> ks).
  { intros E. rewrite E in Hfree. by rewrite Hfree in Hsrc. }
  assert (Hnames : Items.name item <> Py.strip text).
  { intros E. apply Hkne. by rewrite Hks, Hkd, E. }
  assert (Hout' : Os.is_prefix kd ks = false).
  { destruct (Os.is_prefix kd ks) eqn:P; [|done]. exfalso. apply Hkne.
    apply is_prefix_same_length; [done|]. rewrite Hks, Hkd, !length_app. done. }
  (* the file system after the first rename *)
  assert (Hat : Os.node_at renamed.1.1 kd = Some n0).
  { pose proof (relocate_moved fs ks kd Hbelow []) as Hm.
    rewrite !app_nil_r in Hm.
    rewrite Hkd, node_at_snoc by done. rewrite <- Hkd, Hfs', Hm.
    rewrite Hks, node_at_snoc in Hsrc by done. by rewrite Hks. }
  assert (Hgone : Os.node_at renamed.1.1 ks = None).
  { pose proof (relocate_source_gone fs ks kd Hbelow Hout []) as Hg.
    rewrite !app_nil_r in Hg.
    rewrite Hks, node_at_snoc by done. by rewrite <- Hks, Hfs'. }
  assert (Hdirnode : Os.node_at renamed.1.1 (Os.resolve current_path) = Some Os.NDir).
  { destruct (decide (Os.resolve current_path = [] \/ Os.resolve current_path = ["/"]))
      as [Hsp|Hsp].
    - unfold Os.node_at. by rewrite bool_decide_eq_true_2.
    - unfold Os.node_at in Hparent |- *.
      rewrite bool_decide_eq_false_2 in Hparent by done.
      rewrite bool_decide_eq_false_2 by done.
      rewrite Hfs', relocate_other; [done..| |].
      + apply is_prefix_longer. rewrite Hks, length_app. simpl. lia.
      + apply is_prefix_longer. rewrite Hkd, length_app. simpl. lia. }
  assert (Hexback : Os.path_exists renamed.1.1 (Items.full_path item) = false).
  { unfold Os.path_exists. fold ks. rewrite Hgone.
    destruct (negb (String.eqb (Items.full_path item) "")); [|done]. cbn [andb].
    apply bool_decide_eq_false_2. by intros [n Hn]. }
  assert (Hrename_back : Os.rename renamed.1.1 new_path (Items.full_path item) = Ok fs).
  { rewrite (rename_ok renamed.1.1 new_path (Items.full_path item)); fold ks kd.
    - rewrite Hfs'. by rewrite relocate_there_and_back.
    - done.
    - done.
    - by eexists.
    - done.
    - done.
    - unfold Os.parent. by rewrite Hks, removelast_last.
    - done. }
  (* the second rename *)
  unfold back, Dashboard.rename_item, Dashboard.rename_accept_dialog.
  rewrite Hstrip.
  destruct (String.eqb_spec (Items.name item) "") as [|_]; [done|].
  assert (Hdisp : Items.display_name new_item = Py.strip text) by done.
  rewrite Hdisp.
  destruct (String.eqb_spec (Items.name item) (Py.strip text)) as [|_]; [done|].
  rewrite Hvalid. unfold Dashboard.fs_rename_item.
  rewrite Hback_path, Hexback.
  change (Items.full_path new_item) with new_path. rewrite Hrename_back.
  f_equal. f_equal.
  rewrite Hidx. unfold Dashboard.update_indexes.
  cbn [Dashboard.history_manager Dashboard.pin_manager].
  assert (Hbase : PosixPath.basename (Items.full_path item) = Items.name item).
  { rewrite Hfp. by apply basename_join. }
  assert (Hisfile : Items.is_file item = true).
  { unfold Items.is_file. by rewrite bool_decide_eq_true_2. }
  rewrite Hisfile.
  change (Items.is_file new_item) with true. cbv iota.
  rewrite history_update_back, pin_update_back; [by destruct self| | | |].
  - intros r Hr. by apply Hpins.
  - intros r Hr Hp. rewrite Hbase. by apply Hpins.
  - intros r Hr. by apply Hhist.
  - intros r Hr Hp. rewrite Hbase. by apply Hhist.
Qed.

Lemma rename_and_back_witness :
  let renamed := Dashboard.rename_item Samples.str_exn Samples.window Samples.store
                                       Samples.file_doc " notes " in
  let new_path := Dashboard.rename_destination Samples.file_doc (Py.strip " notes ") in
  let new_item := Items.FileItem (Py.strip " notes ") new_path in
  Dashboard.rename_item Samples.str_exn renamed.1.2 renamed.1.1 new_item
                        (Items.name Samples.file_doc)
  = (Samples.store, Samples.window, None).
Proof.
  apply (rename_and_back Samples.str_exn Samples.window Samples.store
           Samples.file_doc "data/-__A/" " notes ").
  - reflexivity.
  - reflexivity.
  - reflexivity.
  - reflexivity.
  - reflexivity.
  - reflexivity.
  - vm_compute. reflexivity.
  - done.
  - done.
  - intros r Hr. apply list_elem_of_singleton in Hr as ->. split; [done|]. reflexivity.
  - intros r Hr. apply list_elem_of_singleton in Hr as ->. split; [done|]. reflexivity.
  - vm_compute. reflexivity.
Defined.

(** ** Moving a file *)

(** What holds for a file whose directory went from one path to another *)
Lemma relocated_file_facts (fs fs' : Os.filesystem) (item new_item : Items.FileSystemItem)
      (ksp kdp : list string) (c c' : string) (n0 : Os.node)
      (history_items : list Dashboard.HistoryItem) (now : string) :
  Items.full_path item <> "" -> Py.contains_char "/" (Items.name item) = false ->
  Items.full_path new_item <> "" -> Py.contains_char "/" (Items.name new_item) = false ->
  Items.item_type new_item = Items.file ->
  PosixPath.basename (Items.full_path new_item) = Items.name new_item ->
  Os.resolve (Items.full_path item) = ksp ++ [c] -> c <> "/" ->
  Os.resolve (Items.full_path new_item) = kdp ++ [c'] -> c' <> "/" ->
  (forall s, fs !! (Os.resolve (Items.full_path new_item) ++ s) = None) ->
  Os.is_prefix (Os.resolve (Items.full_path item)) (Os.resolve (Items.full_path new_item))
  = false ->
  Os.node_at fs (Os.resolve (Items.full_path item)) = Some n0 ->
  fs' = Os.relocate (Os.resolve (Items.full_path item))
                    (Os.resolve (Items.full_path new_item)) fs ->
  Os.path_exists fs' (Items.full_path item) = false
  /\ Os.path_exists fs' (Items.full_path new_item) = true
  /\ Items.load_password_hash fs' new_item = Items.load_password_hash fs item
  /\ Os.read_file fs' (Items.content_file_path new_item)
     = Os.read_file fs (Items.content_file_path item)
  /\ Opening.on_history_file_clicked history_items fs' (Items.full_path new_item) now
     = inr (Dashboard.open_file_with_password_check history_items fs' new_item now).
Proof.
  intros Hfpne Hsl Hnfp Hnsl Hfile Hbase Hks Hc Hkd Hc' Hbelow Hout Hsrc Hfs'.
  set (ks := Os.resolve (Items.full_path item)) in *.
  set (kd := Os.resolve (Items.full_path new_item)) in *.
  assert (Hmoved : forall x, x <> "/" ->
             Os.node_at fs' (kd ++ [x]) = Os.node_at fs (ks ++ [x])).
  { intros x Hx. rewrite !node_at_snoc by done. rewrite Hfs'. by apply relocate_moved. }
  assert (Hat : Os.node_at fs' kd = Some n0).
  { pose proof (relocate_moved fs ks kd Hbelow []) as Hm. rewrite !app_nil_r in Hm.
    rewrite Hkd, node_at_snoc by done. rewrite <- Hkd, Hfs', Hm.
    rewrite Hks, node_at_snoc in Hsrc by done. by rewrite Hks. }
  assert (Hgone : Os.node_at fs' ks = None).
  { pose proof (relocate_source_gone fs ks kd Hbelow Hout []) as Hg.
    rewrite !app_nil_r in Hg.
    rewrite Hks, node_at_snoc by done. by rewrite <- Hks, Hfs'. }
  destruct (password_file_path_resolve item Hfpne Hsl) as (Hpf & Hpfk & _ & _).
  destruct (password_file_path_resolve new_item Hnfp Hnsl) as (Hpf' & Hpfk' & _ & _).
  destruct (content_file_path_resolve item Hfpne Hsl) as (Hcf & Hcfk).
  destruct (content_file_path_resolve new_item Hnfp Hnsl) as (Hcf' & Hcfk').
  fold kd in Hpfk', Hcfk'. fold ks in Hpfk, Hcfk.
  assert (Hexists : Os.path_exists fs' (Items.full_path new_item) = true)
    by (by apply (path_exists_node _ _ n0)).
  split; [|split; [done|split; [|split]]].
  - unfold Os.path_exists. fold ks. rewrite Hgone.
    destruct (negb (String.eqb (Items.full_path item) "")); [|done]. cbn [andb].
    apply bool_decide_eq_false_2. by intros [n Hn].
  - rewrite !load_password_hash_node by done. rewrite Hpfk', Hpfk. by rewrite Hmoved.
  - apply read_file_node; [done..|]. rewrite Hcfk', Hcfk. by apply Hmoved.
  - unfold Opening.on_history_file_clicked. rewrite Hexists. cbn [negb].
    rewrite Hbase. destruct new_item as [n p t]. simpl in *. by subst.
Qed.

Lemma move_item_steps str_exn self fs item selected :
  let moved := Dashboard.move_item str_exn self fs item selected in
  let new_path := Dashboard.move_destination item (Dashboard.effective_selection selected) in
  moved.2 = None ->
  Os.path_exists fs new_path = false
  /\ Os.move fs (Items.full_path item) new_path = Ok moved.1.1.
Proof.
  unfold Dashboard.move_item, Dashboard.move_accept_dialog.
  destruct (_ =? _)%string; [done|].
  destruct (_ && _); [done|].
  unfold Dashboard.fs_move_item.
  destruct (Os.path_exists fs _); [done|].
  by destruct (Os.move fs _ _) as [fs1|e].
Qed.

(** Into a directory that is there, [shutil.move] is [os.rename]. *)
Lemma move_is_rename (fs fs' : Os.filesystem) (src dst : string) :
  dst <> "" ->
  Os.node_at fs (Os.parent (Os.resolve dst)) = Some Os.NDir ->
  Os.move fs src dst = Ok fs' -> Os.rename fs src dst = Ok fs'.
Proof.
  intros Hdst Hpar. unfold Os.move.
  destruct (Os.path_exists fs dst) eqn:Hex; [done|].
  pose proof (path_exists_false _ _ Hdst Hex) as Hfree.
  destruct (Os.rename fs src dst) as [fs1|e] eqn:Hren; [done|].
  intros H. exfalso. unfold Os.rename, Os.path_isdir in *.
  destruct (String.eqb_spec src "") as [|Hsrc]; [done|].
  destruct (String.eqb_spec dst "") as [|_]; [done|]. simpl in *.
  destruct (Os.node_at fs (Os.resolve src)) as [n|]; [|done].
  case_bool_decide; [done|].
  destruct (Os.is_prefix (Os.resolve src) (Os.resolve dst)).
  - by destruct n.
  - by rewrite Hpar, Hfree in Hren.
Qed.

(** X21. Moving a file keeps what it holds. After a successful move of a
    File item listed in a directory into a folder that exists, nothing
    exists at the old path, the file exists under the folder with the same
    name, content file and credential read there exactly as before, and a
    click on the history entry of the new path runs the password check on
    the moved file. *)
Theorem moved_file_keeps_content
  (str_exn : exn -> string) (self : Dashboard.MainWindow) (fs : Os.filesystem)
  (item : Items.FileSystemItem) (current_path : string) (selected : option string)
  (now : string) :
  let moved := Dashboard.move_item str_exn self fs item selected in
  let target := Dashboard.effective_selection selected in
  let new_path := Dashboard.move_destination item target in
  let new_item := Items.FileItem (Items.name item) new_path in
  Items.item_type item = Items.file ->
  current_path <> "" ->
  Navigation.name_ok (Items.name item) = true ->
  Items.full_path item = PosixPath.join current_path (Items.name item) ->
  Store.tree_ok fs = true ->
  Os.path_isdir fs target = true ->
  moved.2 = None ->
  Os.path_exists moved.1.1 (Items.full_path item) = false
  /\ Os.path_exists moved.1.1 new_path = true
  /\ Items.load_password_hash moved.1.1 new_item = Items.load_password_hash fs item
  /\ Os.read_file moved.1.1 (Items.content_file_path new_item)
     = Os.read_file fs (Items.content_file_path item)
  /\ Opening.on_history_file_clicked (Dashboard.history_manager moved.1.2)
                                     moved.1.1 new_path now
     = inr (Dashboard.open_file_with_password_check
              (Dashboard.history_manager moved.1.2) moved.1.1 new_item now).
Proof.
  intros moved target new_path new_item Hfile Hcp Hname Hfp Htree Htarget Hmoved.
  destruct (name_ok_parts _ Hname) as (Hne & Hsl & Hcomp & Hroot).
  destruct (move_item_steps _ _ _ _ _ Hmoved) as (Hex & Hmove).
  fold moved target in Hmove. fold target new_path in Hex, Hmove.
  destruct (path_isdir_node _ _ Htarget) as [Htne Htnode].
  assert (Hbase : PosixPath.basename (Items.full_path item) = Items.name item).
  { rewrite Hfp. by apply basename_join. }
  assert (Hnp : new_path = PosixPath.join target (Items.name item)).
  { unfold new_path, Dashboard.move_destination. by rewrite Hbase. }
  assert (Hnpne : new_path <> "") by (rewrite Hnp; by apply join_nonempty).
  assert (Hfpne : Items.full_path item <> "") by (rewrite Hfp; by apply join_nonempty).
  assert (Hks : Os.resolve (Items.full_path item)
                = Os.resolve current_path ++ [Items.name item]).
  { rewrite Hfp. by apply resolve_join. }
  assert (Hkd : Os.resolve new_path = Os.resolve target ++ [Items.name item]).
  { rewrite Hnp. by apply resolve_join. }
  assert (Hpar : Os.node_at fs (Os.parent (Os.resolve new_path)) = Some Os.NDir).
  { unfold Os.parent. by rewrite Hkd, removelast_last. }
  pose proof (move_is_rename _ _ _ _ Hnpne Hpar Hmove) as Hrename.
  destruct (rename_relocates _ _ _ _ Hnpne Hex Hrename) as (Hfree & Hout & [n0 Hsrc] & Hfs').
  apply (relocated_file_facts fs moved.1.1 item new_item
           (Os.resolve current_path) (Os.resolve target)
           (Items.name item) (Items.name item) n0); try done.
  - simpl. rewrite Hnp. by apply basename_join.
  - intros s. by apply tree_ok_below.
Qed.

Lemma moved_file_keeps_content_witness :
  let moved := Dashboard.move_item Samples.str_exn Samples.window Samples.store
                                   Samples.file_doc (Some "data/-__Notes") in
  let new_path := Dashboard.move_destination
                    Samples.file_doc (Dashboard.effective_selection (Some "data/-__Notes")) in
  let new_item := Items.FileItem (Items.name Samples.file_doc) new_path in
  Os.path_exists moved.1.1 (Items.full_path Samples.file_doc) = false
  /\ Os.path_exists moved.1.1 new_path = true
  /\ Items.load_password_hash moved.1.1 new_item
     = Items.load_password_hash Samples.store Samples.file_doc
  /\ Os.read_file moved.1.1 (Items.content_file_path new_item)
     = Os.read_file Samples.store (Items.content_file_path Samples.file_doc)
  /\ Opening.on_history_file_clicked (Dashboard.history_manager moved.1.2)
                                     moved.1.1 new_path "2024-05-01T12:00:00"
     = inr (Dashboard.open_file_with_password_check
              (Dashboard.history_manager moved.1.2) moved.1.1 new_item
              "2024-05-01T12:00:00").
Proof.
  apply (moved_file_keeps_content Samples.str_exn Samples.window Samples.store
           Samples.file_doc "data/-__A" (Some "data/-__Notes") "2024-05-01T12:00:00").
  - reflexivity.
  - done.
  - reflexivity.
  - reflexivity.
  - vm_compute. reflexivity.
  - vm_compute. reflexivity.
  - vm_compute. reflexivity.
Defined.

(** ** The side panels and the signals of the grid *)

(** X22. Records of deleted files get no widget. After an item right below
    a directory was deleted and the panels were refreshed, no widget of the
    history area and none of the quick access area names a path at or below
    the deleted one, although the records of paths below a deleted folder
    are still in both lists. *)
Theorem deleted_paths_are_not_shown
  (str_exn : exn -> string) (self : Dashboard.MainWindow) (fs : Os.filesystem)
  (item : Items.FileSystemItem) (current_path : string) :
  let deleted := Dashboard.delete_item str_exn self fs item true in
  current_path <> "" ->
  Navigation.name_ok (Items.name item) = true ->
  Items.full_path item = PosixPath.join current_path (Items.name item) ->
  deleted.2 = None ->
  (forall entry,
      entry ∈ Panels.populate_history (Dashboard.history_manager deleted.1.2) deleted.1.1 ->
      Os.is_prefix (Os.resolve (Items.full_path item))
                   (Os.resolve (Dashboard.h_full_path entry.2)) = false)
  /\ (forall entry,
        entry ∈ Panels.populate_quick_access (Dashboard.pin_manager deleted.1.2) deleted.1.1 ->
        Os.is_prefix (Os.resolve (Items.full_path item))
                     (Os.resolve (Items.p_full_path entry.2)) = false).
Proof.
  intros deleted Hcp Hname Hfp Hdel.
  destruct (name_ok_parts _ Hname) as (Hne & Hsl & Hcomp & Hroot).
  apply delete_item_success in Hdel as (Hrm & _ & _). fold deleted in Hrm.
  assert (Hres : Os.resolve (Items.full_path item)
                 = Os.resolve current_path ++ [Items.name item]).
  { rewrite Hfp. by apply resolve_join. }
  assert (Hgone : forall q,
             Os.is_prefix (Os.resolve (Items.full_path item)) (Os.resolve q) = true ->
             Os.path_exists deleted.1.1 q = false).
  { intros q. by apply (rmtree_gone _ _ _ q _ _ Hres Hroot Hrm). }
  split; intros entry Hin.
  - unfold Panels.populate_history in Hin.
    apply list_elem_of_omap in Hin as (e & _ & He).
    destruct (Os.path_exists deleted.1.1 (Dashboard.h_full_path e.2)) eqn:Hex; [|done].
    simpl in He. injection He as <-.
    destruct (Os.is_prefix _ _) eqn:Hp; [|done].
    by rewrite (Hgone _ Hp) in Hex.
  - unfold Panels.populate_quick_access in Hin.
    apply list_elem_of_omap in Hin as (e & _ & He).
    destruct (Os.path_exists deleted.1.1 (Items.p_full_path e.2)) eqn:Hex; [|done].
    simpl in He. injection He as <-.
    destruct (Os.is_prefix _ _) eqn:Hp; [|done].
    by rewrite (Hgone _ Hp) in Hex.
Qed.

Lemma deleted_paths_are_not_shown_witness :
  let deleted := Dashboard.delete_item Samples.str_exn Samples.window Samples.store
                                       Samples.folder_A true in
  (forall entry,
      entry ∈ Panels.populate_history (Dashboard.history_manager deleted.1.2) deleted.1.1 ->
      Os.is_prefix (Os.resolve (Items.full_path Samples.folder_A))
                   (Os.resolve (Dashboard.h_full_path entry.2)) = false)
  /\ (forall entry,
        entry ∈ Panels.populate_quick_access (Dashboard.pin_manager deleted.1.2) deleted.1.1 ->
        Os.is_prefix (Os.resolve (Items.full_path Samples.folder_A))
                     (Os.resolve (Items.p_full_path entry.2)) = false).
Proof.
  apply (deleted_paths_are_not_shown Samples.str_exn Samples.window Samples.store
           Samples.folder_A "data/").
  - done.
  - reflexivity.
  - reflexivity.
  - vm_compute. reflexivity.
Defined.

(** *** Clicks reach their items *)

Lemma register_key (m : gmap string Items.FileSystemItem) (x : Items.FileSystemItem) :
  Items.register m x = <[Panels.clicked x := x]> m.
Proof. unfold Items.register, Panels.clicked. by destruct (Items.item_type x). Qed.

Lemma register_lookup_other (found : list Items.FileSystemItem)
      (m : gmap string Items.FileSystemItem) (key : string) :
  key ∉ List.map Panels.clicked found ->
  foldl Items.register m found !! key = m !! key.
Proof.
  revert m. induction found as [|a found IH]; intros m Hkey; simpl; [done|].
  rewrite IH.
  - rewrite register_key. apply lookup_insert_ne. intros E. apply Hkey. simpl.
    rewrite E. left.
  - intros Hin. apply Hkey. simpl. by right.
Qed.

Lemma register_lookup_found (found : list Items.FileSystemItem)
      (m : gmap string Items.FileSystemItem) (x : Items.FileSystemItem) :
  NoDup (List.map Panels.clicked found) -> x ∈ found ->
  foldl Items.register m found !! Panels.clicked x = Some x.
Proof.
  revert m. induction found as [|a found IH]; intros m Hnd Hx; simpl.
  - by apply elem_of_nil in Hx.
  - simpl in Hnd. apply NoDup_cons in Hnd as [Ha Hnd].
    apply elem_of_cons in Hx as [->|Hx].
    + rewrite register_lookup_other by done.
      rewrite register_key. apply lookup_insert_eq.
    + by apply IH.
Qed.

(** X23. When no two items of a listing emit the same text on a click (no
    file is named like the display name of a folder beside it), every
    widget of the grid reaches its own item: a click on a folder moves the
    cursor into that folder and a click on a file runs the password check
    on that file. *)
Theorem clicks_reach_their_items
  (area : Navigation.FilesArea) (fs : Os.filesystem) (x : Items.FileSystemItem)
  (history_items : list Dashboard.HistoryItem) (now : string) :
  let listing := Navigation.populate_files area fs in
  Os.path_isdir fs (Items.current_path (Navigation.fs_manager area)) = true ->
  NoDup (List.map Panels.clicked (Navigation.shown listing)) ->
  x ∈ Navigation.shown listing ->
  Items.get_item (Navigation.fs_manager listing) (Panels.clicked x) = Some x
  /\ (Items.item_type x = Items.folder ->
      (Navigation.navigate_to_folder (Navigation.fs_manager listing) (Panels.clicked x)).2
      = true
      /\ Items.current_path
           (Navigation.navigate_to_folder (Navigation.fs_manager listing)
                                          (Panels.clicked x)).1
         = Items.full_path x +:+ "/")
  /\ (Items.item_type x = Items.file ->
      Opening.on_file_clicked history_items fs (Navigation.fs_manager listing)
                              (Panels.clicked x) now
      = Some (Dashboard.open_file_with_password_check history_items fs x now)).
Proof.
  intros listing Hdir Hnd Hx.
  destruct (populate_files_isdir area fs Hdir) as (entries & _ & Hpop).
  fold listing in Hpop. rewrite Hpop in Hnd, Hx |- *. simpl in Hnd, Hx.
  pose proof (stable_sort_perm Items.scan_before (List.map Items.classify entries)) as Hperm.
  assert (Hget : Items.get_item
                   {| Items.items := foldl Items.register ∅ (List.map Items.classify entries);
                      Items.current_path := Items.current_path (Navigation.fs_manager area) |}
                   (Panels.clicked x) = Some x).
  { unfold Items.get_item. simpl. apply register_lookup_found.
    - assert (Hp2 : List.map Panels.clicked
                      (Py.stable_sort Items.scan_before (List.map Items.classify entries))
                    ≡ₚ List.map Panels.clicked (List.map Items.classify entries))
        by (by apply Permutation_map).
      by rewrite <- Hp2.
    - by rewrite <- Hperm. }
  simpl. split; [done|]. split.
  - intros Hfolder. unfold Navigation.navigate_to_folder. rewrite Hget.
    by rewrite (bool_decide_eq_true_2 _ Hfolder).
  - intros Hfile. unfold Opening.on_file_clicked. rewrite Hget.
    unfold Items.is_file. by rewrite (bool_decide_eq_true_2 _ Hfile).
Qed.

Lemma clicks_reach_their_items_witness :
  let listing := Navigation.populate_files Navigation.init_area Samples.store in
  Items.get_item (Navigation.fs_manager listing) (Panels.clicked Samples.folder_A)
  = Some Samples.folder_A
  /\ (Items.item_type Samples.folder_A = Items.folder ->
      (Navigation.navigate_to_folder (Navigation.fs_manager listing)
                                     (Panels.clicked Samples.folder_A)).2 = true
      /\ Items.current_path
           (Navigation.navigate_to_folder (Navigation.fs_manager listing)
                                          (Panels.clicked Samples.folder_A)).1
         = Items.full_path Samples.folder_A +:+ "/")
  /\ (Items.item_type Samples.folder_A = Items.file ->
      Opening.on_file_clicked [] Samples.store (Navigation.fs_manager listing)
                              (Panels.clicked Samples.folder_A) "2024-05-01T12:00:00"
      = Some (Dashboard.open_file_with_password_check [] Samples.store Samples.folder_A
                                                      "2024-05-01T12:00:00")).
Proof.
  apply (clicks_reach_their_items Navigation.init_area Samples.store Samples.folder_A
           [] "2024-05-01T12:00:00").
  - vm_compute. reflexivity.
  - refine (bool_decide_unpack _ _). vm_compute. exact I.
  - vm_compute.
    repeat first [apply list_elem_of_here | apply list_elem_of_further].
Defined.

(** ** The password as typed *)

(** X24. The password dialog of a new file strips the text, the login
    window does not. The credential is derived from the stripped text, so
    the stripped text passes the login; the text as it was typed, white
    space included, is refused whenever the key derivation tells the two
    apart. *)
Theorem login_takes_the_text_as_typed
  (scrypt : Hash.kdf) (salt : list byte) (password_text confirm_text password : string) :
  let credential := Hash.hash_password scrypt salt password in
  AddItem.set_password_accept_dialog password_text confirm_text = inr password ->
  length salt = 16 ->
  scrypt salt 32%N (2 ^ 14)%N 8%N 1%N (Py.encode_utf8 password_text)
  <> scrypt salt 32%N (2 ^ 14)%N 8%N 1%N (Py.encode_utf8 (Py.strip password_text)) ->
  password = Py.strip password_text
  /\ Dashboard.authenticate scrypt credential (Py.strip password_text) = true
  /\ Dashboard.authenticate scrypt credential password_text = false.
Proof.
  intros credential Hacc Hsalt Hkdf.
  destruct (set_password_accept_dialog_ok _ _ _ Hacc) as (-> & _ & _).
  split; [done|]. unfold Dashboard.authenticate, credential.
  rewrite !verify_hash_password by done.
  rewrite bool_decide_eq_true_2 by done.
  by rewrite bool_decide_eq_false_2.
Qed.

Lemma login_takes_the_text_as_typed_witness :
  let credential := Hash.hash_password Aux.toy_kdf Samples.salt "secret" in
  "secret" = Py.strip " secret"
  /\ Dashboard.authenticate Aux.toy_kdf credential (Py.strip " secret") = true
  /\ Dashboard.authenticate Aux.toy_kdf credential " secret" = false.
Proof.
  apply (login_takes_the_text_as_typed Aux.toy_kdf Samples.salt " secret" "secret " "secret").
  - reflexivity.
  - reflexivity.
  - vm_compute. discriminate.
Defined.
